(** * solana-toolkit: the resilient execution layer

    A shallow embedding of the connection manager of [src/core.js]
    (health probe, [executeWithRetry], [switchNetwork]), of the transaction
    manager of [src/transaction.js] ([executeTransaction], [sendTransaction],
    [batchTransactions]) and of [AccountManager.getAccountInfo] of
    [src/account.js], followed by the properties of the retry executor and
    of the transaction lifecycle.

    Conventions of the embedding
    - JavaScript numbers that the code uses as counters, amounts and
      millisecond delays are integers of [Z]; [retryDelay * Math.pow(2, k)]
      is the exact product (in IEEE doubles it is exact as long as the
      result stays below 2^53).
    - An [async] function is a state transformer that may return or throw.
      Every [await] of the outside world (an RPC call, a timer) is a point
      where the event loop may run the health probe; the outside world
      tells which probe events happen there.
    - The outside world (remote ledger, timers, signing and key parsing of
      the web3 library) is a parameter: the interface [Runtime].
    - The [timestamp] field of [SolanaToolkitError] (wall clock at
      construction) and the logger and console output are observational and
      left out. *)

From Stdlib Require Import ZArith List String Bool Lia DecimalString.
Import ListNotations.

Local Open Scope string_scope.
Local Open Scope list_scope.
Local Open Scope Z_scope.

Infix "+++" := String.append (right associativity, at level 60).

(** ** JavaScript values that appear in error contexts and messages *)

(** Template-literal conversion of an integral number. *)
Definition string_of_Z (z : Z) : string := NilZero.string_of_int (Z.to_int z).

Inductive JsVal : Type :=
| JNum (z : Z)
| JStr (s : string).

(** An object literal used as [context]: keys in insertion order. *)
Definition Context := list (string * JsVal).

(** Thrown values.  [SolanaToolkitError message code context] is the class
    of [core.js]; [JsError name message] is every other [Error] (plain
    [Error], [TypeError], the errors of the web3 library). *)
Inductive Exn : Type :=
| JsError (name : string) (message : string)
| SolanaToolkitError (message : string) (code : string) (context : Context).

Definition exn_message (e : Exn) : string :=
  match e with
  | JsError _ m => m
  | SolanaToolkitError m _ _ => m
  end.

Definition exn_name (e : Exn) : string :=
  match e with
  | JsError n _ => n
  | SolanaToolkitError _ _ _ => "SolanaToolkitError"
  end.

(** [error.code]: [undefined] for errors that are not toolkit errors. *)
Definition exn_code (e : Exn) : option string :=
  match e with
  | JsError _ _ => None
  | SolanaToolkitError _ c _ => Some c
  end.

Definition exn_context (e : Exn) : Context :=
  match e with
  | JsError _ _ => []
  | SolanaToolkitError _ _ c => c
  end.

(** [error instanceof SolanaToolkitError] *)
Definition instanceof_SolanaToolkitError (e : Exn) : bool :=
  match e with
  | JsError _ _ => false
  | SolanaToolkitError _ _ _ => true
  end.

(** Outcome of a call: a returned value or a thrown error. *)
Inductive Res (A : Type) : Type :=
| Returned (a : A)
| Threw (e : Exn).
Arguments Returned {A} a.
Arguments Threw {A} e.

(** ** Data of the connection manager *)

(** The [Connection] object of the web3 library, identified by the
    arguments it was built from. *)
Record Connection : Type := mkConnection {
  rpcEndpoint : string;
  conn_commitment : string
}.

(** The fields of [ConnectionManager] (core.js, constructor). *)
Record ConnectionManager : Type := mkManager {
  endpoint : string;
  commitment : string;
  connection : Connection;
  retryAttempts : Z;
  retryDelay : Z;
  healthCheckInterval : Z;
  isHealthy : bool;
  lastHealthCheck : Z
}.

(** A health probe whose [getSlot] is in flight: the [startTime] it read
    and the connection it called. *)
Record Probe : Type := mkProbe {
  probe_startTime : Z;
  probe_connection : Connection
}.

(** The timers of the JavaScript event loop that concern the manager:
    the intervals registered with [setInterval] (their period; the
    callback is always the probe of [startHealthCheck]) and the probes in
    flight.  The code keeps no handle of an interval. *)
Record EventLoop : Type := mkLoop {
  intervals : list Z;
  inflight : list Probe
}.

(** How a probe's [getSlot] settles: resolved (with the two later readings
    of [Date.now()]) or rejected. *)
Inductive ProbeOutcome : Type :=
| SlotOk (now_response now_stamp : Z)
| SlotErr (message : string).

(** What the event loop may run while the foreground code awaits. *)
Inductive BgEvent : Type :=
| Tick (i : nat) (now : Z)            (* interval [i] fires, [Date.now() = now] *)
| Settle (p : nat) (o : ProbeOutcome). (* probe [p] in flight settles *)

(** ** Data of the transaction manager *)

Record PublicKey : Type := mkPublicKey { toBase58 : string }.

Record Keypair : Type := mkKeypair { publicKey : PublicKey }.

Record AccountMeta : Type := mkMeta {
  pubkey : PublicKey;
  isSigner : bool;
  isWritable : bool
}.

(** [TransactionInstruction]; [data] is a byte buffer (values 0..255). *)
Record TransactionInstruction : Type := mkInstruction {
  keys : list AccountMeta;
  programId : PublicKey;
  data : list Z
}.

(** The mutable [Transaction] object. *)
Record Transaction : Type := mkTransaction {
  instructions : list TransactionInstruction;
  recentBlockhash : option string;
  lastValidBlockHeight : option Z;
  signatures : list string
}.

(** References to [Transaction] objects of the heap. *)
Definition TxRef := nat.

Record BlockhashInfo : Type := mkBlockhash {
  blockhash : string;
  bh_lastValidBlockHeight : Z
}.

(** [confirmation.value.err] is [null] or the error payload reported by
    the ledger, kept as its JSON text ([JSON.stringify] of it). *)
Record Confirmation : Type := mkConfirmation {
  conf_slot : Z;
  conf_err : option string
}.

Record SendOptions : Type := mkSendOptions {
  so_skipPreflight : bool;
  so_maxRetries : Z;
  so_preflightCommitment : string
}.

Record AccountInfo : Type := mkAccountInfo {
  lamports : Z;
  owner : PublicKey;
  executable : bool;
  rentEpoch : Z;
  acc_data : list Z
}.

(** What reaches the wire, in order. *)
Inductive RpcCall : Type :=
| CallGetLatestBlockhash (c : Connection)
| CallSendTransaction (c : Connection) (tx : Transaction) (o : SendOptions)
| CallConfirmTransaction (c : Connection) (signature : string)
    (bh : string) (height : Z)
| CallGetAccountInfo (c : Connection) (k : PublicKey).

(** ** The outside world *)

(** An awaited call on the outside world in state [R]: its outcome, the
    background events the event loop ran meanwhile, the next state. *)
Definition Await (R A : Type) : Type := R -> (A * list BgEvent) * R.

Class Runtime (R : Type) : Type := {
  (* [new Connection(endpoint, {commitment, ...})]: [Some e] when it throws *)
  Connection_throws : string -> string -> option Exn;
  (* [new PublicKey(s)] *)
  PublicKey_new : string -> Res PublicKey;
  (* [transaction.sign(...signers)]: the signatures, or a throw *)
  Transaction_sign : Transaction -> list Keypair -> Res (list string);
  (* [setTimeout(resolve, delay)] awaited *)
  setTimeout : Z -> Await R unit;
  rpc_getLatestBlockhash : Connection -> Await R (Res BlockhashInfo);
  rpc_sendTransaction :
    Connection -> Transaction -> SendOptions -> Await R (Res string);
  rpc_confirmTransaction :
    Connection -> string -> string -> Z -> Await R (Res Confirmation);
  rpc_getAccountInfo :
    Connection -> PublicKey -> Await R (Res (option AccountInfo))
}.

(** ** Program state and the monad of [async] code *)

Section Toolkit.

Context {R : Type} {RT : Runtime R}.

Record St : Type := mkSt {
  mgr : ConnectionManager;
  loop : EventLoop;
  heap : list Transaction;
  wire : list RpcCall;
  env : R
}.

Definition set_mgr (m : ConnectionManager) (st : St) : St :=
  mkSt m (loop st) (heap st) (wire st) (env st).
Definition set_loop (l : EventLoop) (st : St) : St :=
  mkSt (mgr st) l (heap st) (wire st) (env st).
Definition set_heap (h : list Transaction) (st : St) : St :=
  mkSt (mgr st) (loop st) h (wire st) (env st).
Definition set_wire (w : list RpcCall) (st : St) : St :=
  mkSt (mgr st) (loop st) (heap st) w (env st).
Definition set_env (r : R) (st : St) : St :=
  mkSt (mgr st) (loop st) (heap st) (wire st) r.

Definition M (A : Type) : Type := St -> Res A * St.

Definition ret {A} (a : A) : M A := fun st => (Returned a, st).
Definition throw {A} (e : Exn) : M A := fun st => (Threw e, st).
Definition bind {A B} (m : M A) (k : A -> M B) : M B :=
  fun st =>
    match m st with
    | (Returned a, st') => k a st'
    | (Threw e, st') => (Threw e, st')
    end.
(** [try { m } catch (error) { h error }] *)
Definition try_catch {A} (m : M A) (h : Exn -> M A) : M A :=
  fun st =>
    match m st with
    | (Returned a, st') => (Returned a, st')
    | (Threw e, st') => h e st'
    end.
Definition lift {A} (r : Res A) : M A := fun st => (r, st).

End Toolkit.

Arguments St R : clear implicits.
Arguments M R A : clear implicits.

Declare Scope js_scope.
Delimit Scope js_scope with js.
Notation "x <- m ;; k" := (bind m (fun x => k))
  (at level 100, m at next level, right associativity) : js_scope.
Notation "m ;; k" := (bind m (fun _ => k))
  (at level 100, right associativity) : js_scope.

Local Open Scope js_scope.

(** ** core.js: the health monitor *)

Definition set_isHealthy (b : bool) (m : ConnectionManager) : ConnectionManager :=
  mkManager (endpoint m) (commitment m) (connection m) (retryAttempts m)
            (retryDelay m) (healthCheckInterval m) b (lastHealthCheck m).
Definition set_lastHealthCheck (t : Z) (m : ConnectionManager) : ConnectionManager :=
  mkManager (endpoint m) (commitment m) (connection m) (retryAttempts m)
            (retryDelay m) (healthCheckInterval m) (isHealthy m) t.
Definition set_connection (c : Connection) (m : ConnectionManager) : ConnectionManager :=
  mkManager (endpoint m) (commitment m) c (retryAttempts m)
            (retryDelay m) (healthCheckInterval m) (isHealthy m) (lastHealthCheck m).
Definition set_endpoint (e : string) (m : ConnectionManager) : ConnectionManager :=
  mkManager e (commitment m) (connection m) (retryAttempts m)
            (retryDelay m) (healthCheckInterval m) (isHealthy m) (lastHealthCheck m).
Definition set_commitment (c : string) (m : ConnectionManager) : ConnectionManager :=
  mkManager (endpoint m) c (connection m) (retryAttempts m)
            (retryDelay m) (healthCheckInterval m) (isHealthy m) (lastHealthCheck m).

(** A parameter or option with a default value. *)
Definition or_default {A} (o : option A) (d : A) : A :=
  match o with Some a => a | None => d end.

Definition remove_nth {A} (n : nat) (l : list A) : list A :=
  firstn n l ++ skipn (S n) l.

(** How the [for] loop is left: by the [return] of line 79, or by running
    to its end or the [break] of line 84 with [lastError]. *)
Inductive LoopExit (V : Type) : Type :=
| LoopReturn (v : V)
| LoopDone (lastError : option Exn).
Arguments LoopReturn {V} v.
Arguments LoopDone {V} lastError.

(** What the retry executor does, for the loop that records it:
    [Gated k]: attempt [k] was cut short by the health gate;
    [Invoked k r]: attempt [k] called [operation], with outcome [r];
    [Slept d]: [setTimeout] was awaited with delay [d]. *)
Inductive RetryEvent (V : Type) : Type :=
| Gated (attempt : Z)
| Invoked (attempt : Z) (r : Res V)
| Slept (delay : Z).
Arguments Gated {V} attempt.
Arguments Invoked {V} attempt r.
Arguments Slept {V} delay.

Section Core.

Context {R : Type} {RT : Runtime R}.

(** The interval callback of [startHealthCheck] up to its [await]
    (core.js 48-50): it reads [Date.now()] and [this.connection] as they
    are when the interval fires, and calls [getSlot]. *)
Definition probe_tick (i : nat) (now : Z) (st : St R) : St R :=
  match nth_error (intervals (loop st)) i with
  | None => st
  | Some _ =>
      set_loop (mkLoop (intervals (loop st))
                       (inflight (loop st) ++ [mkProbe now (connection (mgr st))]))
               st
  end.

(** The rest of the callback once [getSlot] settles (core.js 51-62). *)
Definition probe_settle (p : nat) (o : ProbeOutcome) (st : St R) : St R :=
  match nth_error (inflight (loop st)) p with
  | None => st
  | Some pr =>
      let st' := set_loop (mkLoop (intervals (loop st))
                                  (remove_nth p (inflight (loop st)))) st in
      match o with
      | SlotOk now_response now_stamp =>
          let responseTime := now_response - probe_startTime pr in
          set_mgr (set_lastHealthCheck now_stamp
                     (set_isHealthy (responseTime <? 5000) (mgr st'))) st'
      | SlotErr _ =>
          set_mgr (set_isHealthy false (mgr st')) st'
      end
  end.

Definition run_event (ev : BgEvent) (st : St R) : St R :=
  match ev with
  | Tick i now => probe_tick i now st
  | Settle p o => probe_settle p o st
  end.

Definition run_bg (evs : list BgEvent) (st : St R) : St R :=
  fold_left (fun s ev => run_event ev s) evs st.

(** [await] of a call on the outside world. *)
Definition await {A} (call : Await R (Res A)) : M R A :=
  fun st =>
    let '(r, evs, e') := call (env st) in
    (r, run_bg evs (set_env e' st)).

(** [await new Promise(resolve => setTimeout(resolve, delay))] *)
Definition sleep (delay : Z) : M R unit :=
  fun st =>
    let '(_, evs, e') := setTimeout delay (env st) in
    (Returned tt, run_bg evs (set_env e' st)).

(** [startHealthCheck] (core.js 46-64): registers one more interval. *)
Definition startHealthCheck : M R unit :=
  fun st =>
    (Returned tt,
     set_loop (mkLoop (intervals (loop st) ++ [healthCheckInterval (mgr st)])
                      (inflight (loop st))) st).

(** [initializeConnection] (core.js 26-44). *)
Definition initializeConnection : M R unit :=
  fun st =>
    let m := mgr st in
    match Connection_throws (endpoint m) (commitment m) with
    | None =>
        startHealthCheck
          (set_mgr (set_connection (mkConnection (endpoint m) (commitment m)) m) st)
    | Some error =>
        (Threw (SolanaToolkitError
                  ("Failed to initialize connection: " +++ exn_message error)
                  "CONNECTION_INIT_ERROR"
                  [("endpoint", JStr (endpoint m));
                   ("error", JStr (exn_message error))]),
         st)
    end.

(** [switchNetwork] (core.js 99-103); [newCommitment] defaults to the
    current commitment. *)
Definition switchNetwork (newEndpoint : string) (newCommitment : option string)
  : M R unit :=
  fun st =>
    let m := mgr st in
    let c := or_default newCommitment (commitment m) in
    initializeConnection (set_mgr (set_commitment c (set_endpoint newEndpoint m)) st).

(** [getHealthStatus] (core.js 109-116). *)
Definition getHealthStatus (st : St R) : bool * Z * string * string :=
  (isHealthy (mgr st), lastHealthCheck (mgr st), endpoint (mgr st),
   commitment (mgr st)).

(** The constructor (core.js 14-24), which ends with
    [initializeConnection]; [now] is [Date.now()] and [r] the outside
    world.  The [null] of line 17 is replaced before the constructor
    returns, or the constructor throws and no manager exists. *)
Definition ConnectionManager_new (endpoint0 : string) (commitment0 : option string)
    (now : Z) (r : R) : Res (St R) :=
  let c := or_default commitment0 "confirmed" in
  match initializeConnection
          (mkSt (mkManager endpoint0 c (mkConnection endpoint0 c) 3 1000 30000 true now)
                (mkLoop [] []) [] [] r) with
  | (Returned _, st) => Returned st
  | (Threw e, _) => Threw e
  end.

(** ** core.js: the retry executor *)

(** The [try] block of one iteration (core.js 70-79). *)
Definition attempt_try {V} (operation : Connection -> M R V)
    (maxRetries attempt : Z) : M R V :=
  fun st =>
    if negb (isHealthy (mgr st)) then
      (Threw (SolanaToolkitError "Connection is unhealthy" "UNHEALTHY_CONNECTION"
                [("attempt", JNum attempt); ("maxRetries", JNum maxRetries)]),
       st)
    else operation (connection (mgr st)) st.

(** [for (let attempt = 1; attempt <= maxRetries; attempt++)]: the body
    changes neither variable, so [attempt] ranges over this list. *)
Definition attempt_numbers (maxRetries : Z) : list Z :=
  map Z.of_nat (seq 1 (Z.to_nat maxRetries)).

Definition backoff_delay (retryDelay0 attempt : Z) : Z :=
  retryDelay0 * 2 ^ (attempt - 1).

Fixpoint retry_loop {V} (operation : Connection -> M R V) (maxRetries : Z)
    (attempts : list Z) (lastError : option Exn) (st : St R)
  : LoopExit V * St R :=
  match attempts with
  | [] => (LoopDone lastError, st)
  | attempt :: rest =>
      match attempt_try operation maxRetries attempt st with
      | (Returned v, st1) => (LoopReturn v, st1)
      | (Threw error, st1) =>
          if attempt =? maxRetries then (LoopDone (Some error), st1)
          else
            let delay := backoff_delay (retryDelay (mgr st1)) attempt in
            retry_loop operation maxRetries rest (Some error) (snd (sleep delay st1))
      end
  end.

Definition operation_failed (maxRetries : Z) (lastError : Exn) : Exn :=
  SolanaToolkitError
    ("Operation failed after " +++ string_of_Z maxRetries +++ " attempts: "
       +++ exn_message lastError)
    "OPERATION_FAILED"
    [("maxRetries", JNum maxRetries); ("lastError", JStr (exn_message lastError))].

(** What follows the loop (core.js 92-96); with no [lastError] the read of
    [lastError.message] is a [TypeError]. *)
Definition after_loop {V} (maxRetries : Z) (x : LoopExit V) : Res V :=
  match x with
  | LoopReturn v => Returned v
  | LoopDone (Some lastError) => Threw (operation_failed maxRetries lastError)
  | LoopDone None =>
      Threw (JsError "TypeError"
               "Cannot read properties of undefined (reading 'message')")
  end.

(** [executeWithRetry(operation, maxRetries = this.retryAttempts)]
    (core.js 66-97). *)
Definition executeWithRetry {V} (operation : Connection -> M R V)
    (maxRetries_arg : option Z) : M R V :=
  fun st =>
    let maxRetries := or_default maxRetries_arg (retryAttempts (mgr st)) in
    let '(x, st') :=
      retry_loop operation maxRetries (attempt_numbers maxRetries) None st in
    (after_loop maxRetries x, st').

(** *** The same loop, recording what it does *)

Definition attempt_try_tr {V} (operation : Connection -> M R V)
    (maxRetries attempt : Z) (st : St R) : (Res V * St R) * RetryEvent V :=
  if negb (isHealthy (mgr st)) then
    ((Threw (SolanaToolkitError "Connection is unhealthy" "UNHEALTHY_CONNECTION"
               [("attempt", JNum attempt); ("maxRetries", JNum maxRetries)]),
      st),
     Gated attempt)
  else
    let out := operation (connection (mgr st)) st in
    (out, Invoked attempt (fst out)).

Fixpoint retry_loop_tr {V} (operation : Connection -> M R V) (maxRetries : Z)
    (attempts : list Z) (lastError : option Exn) (st : St R)
  : (LoopExit V * St R) * list (RetryEvent V) :=
  match attempts with
  | [] => ((LoopDone lastError, st), [])
  | attempt :: rest =>
      match attempt_try_tr operation maxRetries attempt st with
      | ((Returned v, st1), ev) => ((LoopReturn v, st1), [ev])
      | ((Threw error, st1), ev) =>
          if attempt =? maxRetries then ((LoopDone (Some error), st1), [ev])
          else
            let delay := backoff_delay (retryDelay (mgr st1)) attempt in
            let '(out, tr) :=
              retry_loop_tr operation maxRetries rest (Some error)
                            (snd (sleep delay st1)) in
            (out, ev :: Slept delay :: tr)
      end
  end.

Definition executeWithRetry_tr {V} (operation : Connection -> M R V)
    (maxRetries_arg : option Z) (st : St R)
  : (Res V * St R) * list (RetryEvent V) :=
  let maxRetries := or_default maxRetries_arg (retryAttempts (mgr st)) in
  let '((x, st'), tr) :=
    retry_loop_tr operation maxRetries (attempt_numbers maxRetries) None st in
  ((after_loop maxRetries x, st'), tr).

(** The background probe writes [isHealthy] and [lastHealthCheck] and
    nothing else of the manager; it leaves heap, wire log and intervals. *)
Definition same_but_health (s s' : St R) : Prop :=
  endpoint (mgr s') = endpoint (mgr s) /\
  commitment (mgr s') = commitment (mgr s) /\
  connection (mgr s') = connection (mgr s) /\
  retryAttempts (mgr s') = retryAttempts (mgr s) /\
  retryDelay (mgr s') = retryDelay (mgr s) /\
  healthCheckInterval (mgr s') = healthCheckInterval (mgr s) /\
  heap s' = heap s /\ wire s' = wire s /\
  intervals (loop s') = intervals (loop s).

End Core.

(** ** transaction.js: the transaction manager *)

(** The options object; an absent key is [None]. *)
Record Options : Type := mkOptions {
  o_memo : option string;
  o_computeUnits : option Z;
  o_priorityFee : option Z;
  o_skipPreflight : option bool;
  o_maxRetries : option Z
}.

Definition no_options : Options := mkOptions None None None None None.

(** What [executeTransaction] returns. *)
Record TxResult : Type := mkTxResult {
  r_signature : string;
  r_slot : Z;
  r_confirmation : Confirmation
}.

(** An entry of [results] in [batchTransactions]. *)
Record BatchEntry : Type := mkEntry {
  be_index : Z;
  be_success : bool;
  be_result : option TxResult;
  be_error : option string
}.

Record BatchSummary : Type := mkSummary {
  bs_total : Z;
  bs_successful : Z;
  bs_failed : Z;
  bs_results : list BatchEntry
}.

(** [n] little-endian bytes of [x]. *)
Fixpoint le_bytes (n : nat) (x : Z) : list Z :=
  match n with
  | O => []
  | S n' => (x mod 256) :: le_bytes n' (x / 256)
  end.

(** [...new Uint8Array(new Uint32Array([x]).buffer)] *)
Definition uint32_bytes (x : Z) : list Z := le_bytes 4 (x mod 2 ^ 32).

(** [Buffer.from(s, 'utf8')] of a string of one-byte characters. *)
Definition utf8_bytes (s : string) : list Z :=
  map (fun a => Z.of_N (Ascii.N_of_ascii a)) (list_ascii_of_string s).

(** The program ids written as literals in the code. *)
Definition computeBudgetProgram : PublicKey :=
  mkPublicKey "ComputeBudget111111111111111111111111111111".
Definition memoProgram : PublicKey :=
  mkPublicKey "MemoSq4gqABAXKb96qnH8TysNcWxMyWCqXgDLGmfcHr".
Definition systemProgram : PublicKey :=
  mkPublicKey "11111111111111111111111111111111".

(** transaction.js 87-91 *)
Definition computeUnitInstruction (computeUnits : Z) : TransactionInstruction :=
  mkInstruction [] computeBudgetProgram (0 :: uint32_bytes computeUnits).

(** transaction.js 97-101 *)
Definition priorityFeeInstruction (priorityFee : Z) : TransactionInstruction :=
  mkInstruction [] computeBudgetProgram (3 :: uint32_bytes priorityFee).

(** transaction.js 41-45 *)
Definition memoInstruction (memo : string) : TransactionInstruction :=
  mkInstruction [] memoProgram (utf8_bytes memo).

(** [SystemProgram.transfer] of the web3 library: instruction index 2 and
    the amount as 64 bits. *)
Definition SystemProgram_transfer (fromPubkey toPubkey : PublicKey) (amount : Z)
  : TransactionInstruction :=
  mkInstruction [mkMeta fromPubkey true true; mkMeta toPubkey false true]
                systemProgram
                (le_bytes 4 2 ++ le_bytes 8 (amount mod 2 ^ 64)).

Definition set_instructions (l : list TransactionInstruction) (t : Transaction)
  : Transaction :=
  mkTransaction l (recentBlockhash t) (lastValidBlockHeight t) (signatures t).
Definition set_blockhash (b : BlockhashInfo) (t : Transaction) : Transaction :=
  mkTransaction (instructions t) (Some (blockhash b))
                (Some (bh_lastValidBlockHeight b)) (signatures t).
Definition set_signatures (s : list string) (t : Transaction) : Transaction :=
  mkTransaction (instructions t) (recentBlockhash t) (lastValidBlockHeight t) s.

Fixpoint replace_nth {A} (n : nat) (a : A) (l : list A) : list A :=
  match l, n with
  | [], _ => []
  | _ :: l', O => a :: l'
  | x :: l', S n' => x :: replace_nth n' a l'
  end.

(** What an attempt appends to the caller's instructions
    (transaction.js 85-103): the compute-unit instruction when
    [computeUnits !== 200000], then the priority-fee instruction when
    [priorityFee > 0]. *)
Definition budget_instructions (computeUnits priorityFee : Z)
  : list TransactionInstruction :=
  (if negb (computeUnits =? 200000) then [computeUnitInstruction computeUnits] else [])
  ++ (if 0 <? priorityFee then [priorityFeeInstruction priorityFee] else []).

(** The instruction sequences handed to [connection.sendTransaction], in
    order, and the blockhashes they were stamped with. *)
Definition submitted (w : list RpcCall) : list (list TransactionInstruction) :=
  flat_map (fun c => match c with
                     | CallSendTransaction _ t _ => [instructions t]
                     | _ => []
                     end) w.
Definition stamped (w : list RpcCall) : list (option string) :=
  flat_map (fun c => match c with
                     | CallSendTransaction _ t _ => [recentBlockhash t]
                     | _ => []
                     end) w.

Section TransactionManager.

Context {R : Type} {RT : Runtime R}.

(** A call on [connection]: it reaches the wire, then is awaited. *)
Definition rpc {A} (c : RpcCall) (call : Await R (Res A)) : M R A :=
  fun st => await call (set_wire (wire st ++ [c]) st).

(** Reading the object behind a reference; a reference to nothing is the
    [undefined] element of an array, and using it is a [TypeError]. *)
Definition tx_get (transaction : TxRef) : M R Transaction :=
  fun st =>
    match nth_error (heap st) transaction with
    | Some t => (Returned t, st)
    | None =>
        (Threw (JsError "TypeError" "Cannot read properties of undefined"), st)
    end.

Definition tx_modify (transaction : TxRef) (f : Transaction -> Transaction)
  : M R unit :=
  fun st =>
    match nth_error (heap st) transaction with
    | Some t =>
        (Returned tt, set_heap (replace_nth transaction (f t) (heap st)) st)
    | None =>
        (Threw (JsError "TypeError" "Cannot set properties of undefined"), st)
    end.

(** [new Transaction()] *)
Definition Transaction_new : M R TxRef :=
  fun st =>
    (Returned (List.length (heap st)),
     set_heap (heap st ++ [mkTransaction [] None None []]) st).

(** [transaction.add(instruction)] *)
Definition Transaction_add (transaction : TxRef) (i : TransactionInstruction)
  : M R unit :=
  tx_modify transaction (fun t => set_instructions (instructions t ++ [i]) t).

(** [transaction.sign(...signers)] *)
Definition Transaction_sign_in_place (transaction : TxRef) (signers : list Keypair)
  : M R unit :=
  t <- tx_get transaction ;;
  sigs <- lift (Transaction_sign t signers) ;;
  tx_modify transaction (set_signatures sigs).

Definition when (b : bool) (m : M R unit) : M R unit :=
  if b then m else ret tt.

(** The operation handed to the retry executor (transaction.js 80-133). *)
Definition executeTransaction_operation (transaction : TxRef)
    (signers : list Keypair) (computeUnits priorityFee : Z)
    (skipPreflight : bool) (maxRetries : Z) (connection : Connection)
  : M R TxResult :=
  latestBlockhash <- rpc (CallGetLatestBlockhash connection)
                         (rpc_getLatestBlockhash connection) ;;
  tx_modify transaction (set_blockhash latestBlockhash) ;;
  when (negb (computeUnits =? 200000))
       (Transaction_add transaction (computeUnitInstruction computeUnits)) ;;
  when (0 <? priorityFee)
       (Transaction_add transaction (priorityFeeInstruction priorityFee)) ;;
  Transaction_sign_in_place transaction signers ;;
  t <- tx_get transaction ;;
  let opts := mkSendOptions skipPreflight maxRetries "confirmed" in
  signature <- rpc (CallSendTransaction connection t opts)
                   (rpc_sendTransaction connection t opts) ;;
  confirmation <-
    rpc (CallConfirmTransaction connection signature (blockhash latestBlockhash)
           (bh_lastValidBlockHeight latestBlockhash))
        (rpc_confirmTransaction connection signature (blockhash latestBlockhash)
           (bh_lastValidBlockHeight latestBlockhash)) ;;
  match conf_err confirmation with
  | Some err => throw (JsError "Error" ("Transaction failed: " +++ err))
  | None => ret (mkTxResult signature (conf_slot confirmation) confirmation)
  end.

Definition transaction_execution_error (error : Exn) : Exn :=
  SolanaToolkitError ("Failed to execute transaction: " +++ exn_message error)
                     "TRANSACTION_EXECUTION_ERROR"
                     [("error", JStr (exn_message error))].

(** [executeTransaction] (transaction.js 71-141).  The [maxRetries] option
    goes to [connection.sendTransaction]; [executeWithRetry] is called
    with one argument. *)
Definition executeTransaction (transaction : TxRef) (signers : list Keypair)
    (options : Options) : M R TxResult :=
  try_catch
    (let computeUnits := or_default (o_computeUnits options) 200000 in
     let priorityFee := or_default (o_priorityFee options) 0 in
     let skipPreflight := or_default (o_skipPreflight options) false in
     let maxRetries := or_default (o_maxRetries options) 3 in
     executeWithRetry
       (executeTransaction_operation transaction signers computeUnits priorityFee
                                     skipPreflight maxRetries)
       None)
    (fun error => throw (transaction_execution_error error)).

Definition invalid_amount (amount : Z) : Exn :=
  SolanaToolkitError "Transaction amount must be greater than 0" "INVALID_AMOUNT"
                     [("amount", JNum amount)].

Definition transaction_send_error (senderAccount : Keypair)
    (receiverAccount : string) (amount : Z) (error : Exn) : Exn :=
  SolanaToolkitError ("Failed to send transaction: " +++ exn_message error)
                     "TRANSACTION_SEND_ERROR"
                     [("sender", JStr (toBase58 (publicKey senderAccount)));
                      ("receiver", JStr receiverAccount);
                      ("amount", JNum amount);
                      ("error", JStr (exn_message error))].

(** [sendTransaction] (transaction.js 20-69). *)
Definition sendTransaction (senderAccount : Keypair) (receiverAccount : string)
    (amount : Z) (options : Options) : M R TxResult :=
  try_catch
    (let memo := or_default (o_memo options) "" in
     let computeUnits := or_default (o_computeUnits options) 200000 in
     let priorityFee := or_default (o_priorityFee options) 0 in
     let skipPreflight := or_default (o_skipPreflight options) false in
     if amount <=? 0 then throw (invalid_amount amount)
     else
       transaction <- Transaction_new ;;
       when (negb (String.eqb memo ""))
            (Transaction_add transaction (memoInstruction memo)) ;;
       toPubkey <- lift (PublicKey_new receiverAccount) ;;
       Transaction_add transaction
         (SystemProgram_transfer (publicKey senderAccount) toPubkey amount) ;;
       executeTransaction transaction [senderAccount]
         (mkOptions None (Some computeUnits) (Some priorityFee)
                    (Some skipPreflight) None))
    (fun error =>
       throw (transaction_send_error senderAccount receiverAccount amount error)).

(** The [for] loop of [batchTransactions] (transaction.js 348-355): [i] is
    the index of the head of [transactions], [results] what was pushed. *)
Fixpoint batch_loop (transactions : list TxRef) (i : Z) (signers : list Keypair)
    (maxRetries : Z) (results : list BatchEntry) (st : St R)
  : list BatchEntry * St R :=
  match transactions with
  | [] => (results, st)
  | t :: rest =>
      match executeTransaction t signers
              (mkOptions None None None None (Some maxRetries)) st with
      | (Returned result, st1) =>
          batch_loop rest (i + 1) signers maxRetries
                     (results ++ [mkEntry i true (Some result) None]) st1
      | (Threw error, st1) =>
          batch_loop rest (i + 1) signers maxRetries
                     (results ++ [mkEntry i false None (Some (exn_message error))]) st1
      end
  end.

(** [batchTransactions] (transaction.js 343-370). *)
Definition batchTransactions (transactions : list TxRef) (signers : list Keypair)
    (options : Options) : M R BatchSummary :=
  try_catch
    (fun st =>
       let maxRetries := or_default (o_maxRetries options) 3 in
       let '(results, st') := batch_loop transactions 0 signers maxRetries [] st in
       (Returned
          (mkSummary (Z.of_nat (List.length transactions))
                     (Z.of_nat (List.length (filter (fun r => be_success r) results)))
                     (Z.of_nat (List.length (filter (fun r => negb (be_success r)) results)))
                     results),
        st'))
    (fun error =>
       throw (SolanaToolkitError
                ("Failed to batch transactions: " +++ exn_message error)
                "BATCH_TRANSACTIONS_ERROR"
                [("error", JStr (exn_message error))])).

(** The entry pushed for transaction [i] (transaction.js 351 and 353). *)
Definition entry_of (i : Z) (r : Res TxResult) : BatchEntry :=
  match r with
  | Returned result => mkEntry i true (Some result) None
  | Threw error => mkEntry i false None (Some (exn_message error))
  end.

(** The entries of a batch, one per transaction: each transaction is
    executed in the state its predecessor left, whether that one returned
    or threw. *)
Fixpoint batch_entries (transactions : list TxRef) (i : Z) (signers : list Keypair)
    (maxRetries : Z) (st : St R) : list BatchEntry :=
  match transactions with
  | [] => []
  | t :: rest =>
      let out := executeTransaction t signers
                   (mkOptions None None None None (Some maxRetries)) st in
      entry_of i (fst out) :: batch_entries rest (i + 1) signers maxRetries (snd out)
  end.

(** ** account.js: [getAccountInfo] *)

(** The object returned by [getAccountInfo]; [owner] is a string. *)
Record AccountView : Type := mkView {
  v_lamports : Z;
  v_owner : string;
  v_executable : bool;
  v_rentEpoch : Z;
  v_data : list Z
}.

Definition account_not_found (pubKey : PublicKey) : Exn :=
  SolanaToolkitError "Account not found" "ACCOUNT_NOT_FOUND"
                     [("publicKey", JStr (toBase58 pubKey))].

(** The operation of [getAccountInfo] (account.js 69-85). *)
Definition getAccountInfo_operation (pubKey : PublicKey) (connection : Connection)
  : M R AccountView :=
  accountInfo <- rpc (CallGetAccountInfo connection pubKey)
                     (rpc_getAccountInfo connection pubKey) ;;
  match accountInfo with
  | None => throw (account_not_found pubKey)
  | Some a =>
      ret (mkView (lamports a) (toBase58 (owner a)) (executable a)
                  (rentEpoch a) (acc_data a))
  end.

(** [getAccountInfo] (account.js 65-98). *)
Definition getAccountInfo (publicKey0 : string) : M R AccountView :=
  try_catch
    (pubKey <- lift (PublicKey_new publicKey0) ;;
     executeWithRetry (getAccountInfo_operation pubKey) None)
    (fun error =>
       if instanceof_SolanaToolkitError error then throw error
       else
         throw (SolanaToolkitError
                  ("Failed to get account info: " +++ exn_message error)
                  "ACCOUNT_INFO_ERROR"
                  [("publicKey", JStr publicKey0);
                   ("error", JStr (exn_message error))])).

End TransactionManager.

(** ** Reading a retry trace *)

Section Trace.

Context {V : Type}.

Definition is_gated (ev : RetryEvent V) : bool :=
  match ev with Gated _ => true | _ => false end.
Definition is_invoked (ev : RetryEvent V) : bool :=
  match ev with Invoked _ _ => true | _ => false end.
Definition is_attempt (ev : RetryEvent V) : bool :=
  match ev with Slept _ => false | _ => true end.
Definition is_success (ev : RetryEvent V) : bool :=
  match ev with Invoked _ (Returned _) => true | _ => false end.
(** A failed attempt: cut short by the gate, or the operation threw. *)
Definition event_failed (ev : RetryEvent V) : bool :=
  match ev with
  | Gated _ => true
  | Invoked _ (Threw _) => true
  | _ => false
  end.

(** The attempt number an attempt event carries. *)
Definition event_attempt (ev : RetryEvent V) : Z :=
  match ev with
  | Gated k => k
  | Invoked k _ => k
  | Slept _ => 0
  end.

(** Number of calls of [operation]. *)
Definition n_invoked (tr : list (RetryEvent V)) : nat :=
  List.length (filter is_invoked tr).
(** Number of attempts cut short by the health gate. *)
Definition n_gated (tr : list (RetryEvent V)) : nat :=
  List.length (filter is_gated tr).
(** The attempts, in order, without the sleeps. *)
Definition attempt_events (tr : list (RetryEvent V)) : list (RetryEvent V) :=
  filter is_attempt tr.


(** What the invocations of a trace did: none returned, and every error
    thrown satisfies [Q]. *)
Definition threw_only (Q : Exn -> Prop) (ev : RetryEvent V) : Prop :=
  match ev with
  | Invoked _ (Returned _) => False
  | Invoked _ (Threw e) => Q e
  | _ => True
  end.

Definition unhealthy_connection (attempt maxRetries : Z) : Exn :=
  SolanaToolkitError "Connection is unhealthy" "UNHEALTHY_CONNECTION"
                     [("attempt", JNum attempt); ("maxRetries", JNum maxRetries)].

(** The runs of the loop from attempt [k] on, with [maxRetries = n]: the
    trace and how the loop is left.  [P k delay] is what is known of the
    delay slept after attempt [k]. *)
Inductive Run (P : Z -> Z -> Prop) (n : Z)
  : Z -> list (RetryEvent V) -> LoopExit V -> Prop :=
| Run_return k v :
    Run P n k [Invoked k (Returned v)] (LoopReturn v)
| Run_last_threw e :
    Run P n n [Invoked n (Threw e)] (LoopDone (Some e))
| Run_last_gated :
    Run P n n [Gated n] (LoopDone (Some (unhealthy_connection n n)))
| Run_retry_threw k e delay tr x :
    k <> n -> P k delay -> Run P n (k + 1) tr x ->
    Run P n k (Invoked k (Threw e) :: Slept delay :: tr) x
| Run_retry_gated k delay tr x :
    k <> n -> P k delay -> Run P n (k + 1) tr x ->
    Run P n k (Gated k :: Slept delay :: tr) x.

End Trace.

(** ** A scripted outside world

    A fake transport and timer: each kind of call answers with the next
    entry of its script, the last entry being repeated for ever, and with
    a network failure when the script is empty; each sleep runs the next
    list of background events. *)

Record Script : Type := mkScript {
  s_blockhash : list (Res BlockhashInfo);
  s_send : list (Res string);
  s_confirm : list (Res Confirmation);
  s_account : list (Res (option AccountInfo));
  s_timers : list (list BgEvent)
}.

Definition network_failure {A} : Res A := Threw (JsError "Error" "fetch failed").

Definition next {A} (l : list (Res A)) : Res A :=
  match l with
  | [] => network_failure
  | a :: _ => a
  end.

Definition advance {A} (l : list A) : list A :=
  match l with
  | _ :: (_ :: _) as rest => rest
  | _ => l
  end.

Definition scripted_connection_throws (endpoint0 _c : string) : option Exn :=
  if String.prefix "http" endpoint0 then None
  else Some (JsError "TypeError" "Endpoint URL must start with `http:` or `https:`.").

Definition scripted_public_key (s : string) : Res PublicKey :=
  if String.eqb s "" then Threw (JsError "Error" "Invalid public key input")
  else Returned (mkPublicKey s).

Definition scripted_sign (t : Transaction) (signers : list Keypair)
  : Res (list string) :=
  match signers with
  | [] => Threw (JsError "Error" "No signers")
  | _ => Returned (map (fun k => "sig:" +++ toBase58 (publicKey k)) signers)
  end.

#[export] Instance scripted : Runtime Script := {|
  Connection_throws := scripted_connection_throws;
  PublicKey_new := scripted_public_key;
  Transaction_sign := scripted_sign;
  setTimeout := fun _ s =>
    ((tt, hd [] (s_timers s)),
     mkScript (s_blockhash s) (s_send s) (s_confirm s) (s_account s) (tl (s_timers s)));
  rpc_getLatestBlockhash := fun _ s =>
    ((next (s_blockhash s), []),
     mkScript (advance (s_blockhash s)) (s_send s) (s_confirm s) (s_account s)
              (s_timers s));
  rpc_sendTransaction := fun _ _ _ s =>
    ((next (s_send s), []),
     mkScript (s_blockhash s) (advance (s_send s)) (s_confirm s) (s_account s)
              (s_timers s));
  rpc_confirmTransaction := fun _ _ _ _ s =>
    ((next (s_confirm s), []),
     mkScript (s_blockhash s) (s_send s) (advance (s_confirm s)) (s_account s)
              (s_timers s));
  rpc_getAccountInfo := fun _ _ s =>
    ((next (s_account s), []),
     mkScript (s_blockhash s) (s_send s) (s_confirm s) (advance (s_account s))
              (s_timers s))
|}.

Definition quiet : Script := mkScript [] [] [] [] [].

(** A manager as the constructor leaves it, on devnet, at time 0. *)
Definition devnet : string := "https://api.devnet.solana.com".
Definition mainnet : string := "https://api.mainnet-beta.solana.com".

Definition fresh_manager : ConnectionManager :=
  mkManager devnet "confirmed" (mkConnection devnet "confirmed") 3 1000 30000 true 0.

Definition world (healthy : bool) (txs : list Transaction) (s : Script) : St Script :=
  mkSt (set_isHealthy healthy fresh_manager) (mkLoop [30000] []) txs [] s.

(** Operations for the retry executor: one that always throws, and one
    that throws [ECONNRESET], then [ETIMEDOUT], then returns 42; it counts
    its calls in the length of the wire log. *)
Definition always_failing (c : Connection) : M Script Z :=
  fun st => (Threw (JsError "Error" "boom"), set_wire (wire st ++ [CallGetLatestBlockhash c]) st).

Definition third_time_lucky (c : Connection) : M Script Z :=
  fun st =>
    let st' := set_wire (wire st ++ [CallGetLatestBlockhash c]) st in
    match List.length (wire st) with
    | O => (Threw (JsError "Error" "ECONNRESET"), st')
    | S O => (Threw (JsError "Error" "ETIMEDOUT"), st')
    | _ => (Returned 42, st')
    end.

(** A payer, two instructions and a transaction for the scenarios. *)
Definition payer : Keypair := mkKeypair (mkPublicKey "Payer1111").
Definition ixA : TransactionInstruction :=
  SystemProgram_transfer (mkPublicKey "Payer1111") (mkPublicKey "Dest2222") 5000.
Definition ixB : TransactionInstruction := memoInstruction "rent".
Definition bh1 : BlockhashInfo := mkBlockhash "hash-1" 100.
Definition bh2 : BlockhashInfo := mkBlockhash "hash-2" 101.
Definition confirmed_ok : Confirmation := mkConfirmation 7 None.

(** The ledger answers; the first submission is lost on the network. *)
Definition flaky : Script :=
  mkScript [Returned bh1; Returned bh2] [network_failure; Returned "sig-2"]
           [Returned confirmed_ok] [] [].

(** The ledger answers and confirms. *)
Definition smooth : Script :=
  mkScript [Returned bh1] [Returned "sig-1"] [Returned confirmed_ok] [] [].

(** Confirmation polling runs out with neither signal. *)
Definition polling_exhausted : Exn :=
  JsError "TransactionExpiredTimeoutError"
          "Transaction was not confirmed in 60.00 seconds. It is unknown if it succeeded or failed.".
Definition never_confirms : Script :=
  mkScript [Returned bh1] [Returned "sig-1"] [Threw polling_exhausted] [] [].

(** The ledger reports an error for the transaction. *)
Definition rejects : Script :=
  mkScript [Returned bh1] [Returned "sig-1"]
           [Returned (mkConfirmation 7 (Some "{}"))] [] [].

(** The queried account does not exist. *)
Definition absent : Script := mkScript [] [] [] [Returned None] [].

(** A ledger with one fixed answer to every confirmation request, for
    ever, and no background activity. *)
Definition fixed_confirmation (answer : Res Confirmation) : Runtime unit := {|
  Connection_throws := scripted_connection_throws;
  PublicKey_new := scripted_public_key;
  Transaction_sign := scripted_sign;
  setTimeout := fun _ u => ((tt, []), u);
  rpc_getLatestBlockhash := fun _ u => ((Returned bh1, []), u);
  rpc_sendTransaction := fun _ _ _ u => ((Returned "sig-1", []), u);
  rpc_confirmTransaction := fun _ _ _ _ u => ((answer, []), u);
  rpc_getAccountInfo := fun _ _ u => ((Returned None, []), u)
|}.

(** Worlds of the scripted kind in which no probe event is scheduled and
    the health flag is [b]. *)
Definition steady (b : bool) (s : St Script) : Prop :=
  isHealthy (mgr s) = b /\ s_timers (env s) = [].

(** Steady healthy worlds in which every account query finds nothing. *)
Definition nobody_home (s : St Script) : Prop :=
  steady true s /\ s_account (env s) = [Returned None].

(** Worlds with one fixed confirmation answer: a healthy manager whose
    transaction 0 exists. *)
Definition ready (s0 : St unit) : Prop :=
  isHealthy (mgr s0) = true /\ exists t0, nth_error (heap s0) 0 = Some t0.

(** ** Further code of the same files *)

(** *** core.js: [Configuration] (119-185)

    Its errors carry arrays of strings in their context. *)

Definition ArrayContext := list (string * list string).

(** Outcome of a [Configuration] method: returned, or a thrown
    [SolanaToolkitError message code context]. *)
Inductive ConfigRes (A : Type) : Type :=
| ConfigReturned (a : A)
| ConfigThrew (message code : string) (context : ArrayContext).
Arguments ConfigReturned {A} a.
Arguments ConfigThrew {A} message code context.

Record Configuration : Type := mkConfiguration {
  networks : list (string * string);
  defaultCommitment : string;
  cfg_maxRetries : Z;
  cfg_retryDelay : Z;
  cfg_timeout : Z;
  loggingEnabled : bool
}.

(** The constructor; [clusterApiUrl] is the function of the web3 library. *)
Definition Configuration_new (clusterApiUrl : string -> string) : Configuration :=
  mkConfiguration
    [("mainnet", clusterApiUrl "mainnet-beta");
     ("testnet", clusterApiUrl "testnet");
     ("devnet", clusterApiUrl "devnet");
     ("localnet", "http://localhost:8899")]
    "confirmed" 3 1000 60000 false.

Definition validCommitments : list string := ["processed"; "confirmed"; "finalized"].

(** [validCommitments.includes(commitment)] *)
Definition includes (l : list string) (x : string) : bool :=
  existsb (String.eqb x) l.

(** [setCommitment] (core.js 150-160). *)
Definition setCommitment (commitment0 : string) (cfg : Configuration)
  : ConfigRes unit * Configuration :=
  if negb (includes validCommitments commitment0) then
    (ConfigThrew ("Invalid commitment: " +++ commitment0) "INVALID_COMMITMENT"
                 [("validCommitments", validCommitments)],
     cfg)
  else
    (ConfigReturned tt,
     mkConfiguration (networks cfg) commitment0 (cfg_maxRetries cfg)
                     (cfg_retryDelay cfg) (cfg_timeout cfg) (loggingEnabled cfg)).

(** [setRetryConfig] (core.js 162-165). *)
Definition setRetryConfig (maxRetries retryDelay0 : Z) (cfg : Configuration)
  : Configuration :=
  mkConfiguration (networks cfg) (defaultCommitment cfg) maxRetries retryDelay0
                  (cfg_timeout cfg) (loggingEnabled cfg).

(** [setTimeout] of [Configuration] (core.js 167-169). *)
Definition Configuration_setTimeout (timeout : Z) (cfg : Configuration)
  : Configuration :=
  mkConfiguration (networks cfg) (defaultCommitment cfg) (cfg_maxRetries cfg)
                  (cfg_retryDelay cfg) timeout (loggingEnabled cfg).

(** [enableLogging] (core.js 171-173). *)
Definition enableLogging (enabled : bool) (cfg : Configuration) : Configuration :=
  mkConfiguration (networks cfg) (defaultCommitment cfg) (cfg_maxRetries cfg)
                  (cfg_retryDelay cfg) (cfg_timeout cfg) enabled.

(** The object returned by [getConfig] (core.js 175-184): the six
    properties, in the order of the literal. *)
Definition getConfig (cfg : Configuration)
  : list (string * string) * string * Z * Z * Z * bool :=
  (networks cfg, defaultCommitment cfg, cfg_maxRetries cfg, cfg_retryDelay cfg,
   cfg_timeout cfg, loggingEnabled cfg).

(** *** index.js: the [SolanaToolkit] facade *)

(** The options of [setConfig]; an absent key is [None]. *)
Record ConfigOptions : Type := mkConfigOptions {
  co_commitment : option string;
  co_maxRetries : option Z;
  co_retryDelay : option Z;
  co_timeout : option Z;
  co_enableLogging : option bool
}.

(** [s || d] for a string that may be absent: the empty string is falsy. *)
Definition string_or (s : option string) (d : string) : string :=
  match s with
  | Some x => if String.eqb x "" then d else x
  | None => d
  end.

(** [x || d] for a number that may be absent: zero is falsy. *)
Definition number_or (x : option Z) (d : Z) : Z :=
  match x with
  | Some z => if z =? 0 then d else z
  | None => d
  end.

Section Facade.

Context {R : Type} {RT : Runtime R}.

(** The fields of [SolanaToolkit] that the methods below use: its
    configuration, the [enabled] flag of its logger, and the program state
    that holds its connection manager. *)
Record Toolkit : Type := mkToolkit {
  config : Configuration;
  logger_enabled : bool;
  tk_state : St R
}.

(** The constructor (index.js 9-21): the configuration and the retry
    options of [options] are not passed to the connection manager. *)
Definition SolanaToolkit_new (clusterApiUrl : string -> string)
    (endpoint0 : string) (enableLogging0 : option bool)
    (commitment0 : option string) (now : Z) (r : R) : Res Toolkit :=
  match ConnectionManager_new endpoint0 (Some (string_or commitment0 "confirmed"))
                              now r with
  | Returned st =>
      Returned (mkToolkit (Configuration_new clusterApiUrl)
                          (or_default enableLogging0 false) st)
  | Threw e => Threw e
  end.

(** [switchNetwork(endpoint, commitment = 'confirmed')] of the facade
    (index.js 23-26). *)
Definition SolanaToolkit_switchNetwork (endpoint0 : string)
    (commitment0 : option string) : M R unit :=
  switchNetwork endpoint0 (Some (or_default commitment0 "confirmed")).

(** [setConfig] (index.js 36-50). *)
Definition setConfig (options : ConfigOptions) (tk : Toolkit)
  : ConfigRes unit * Toolkit :=
  let step1 :=
    match co_commitment options with
    | Some c =>
        if String.eqb c "" then (ConfigReturned tt, config tk)
        else setCommitment c (config tk)
    | None => (ConfigReturned tt, config tk)
    end in
  match step1 with
  | (ConfigThrew m c x, cfg1) =>
      (ConfigThrew m c x, mkToolkit cfg1 (logger_enabled tk) (tk_state tk))
  | (ConfigReturned _, cfg1) =>
      let cfg2 :=
        match co_maxRetries options with
        | Some n => setRetryConfig n (number_or (co_retryDelay options) 1000) cfg1
        | None => cfg1
        end in
      let cfg3 :=
        match co_timeout options with
        | Some t => Configuration_setTimeout t cfg2
        | None => cfg2
        end in
      match co_enableLogging options with
      | Some b =>
          (ConfigReturned tt, mkToolkit (enableLogging b cfg3) b (tk_state tk))
      | None =>
          (ConfigReturned tt, mkToolkit cfg3 (logger_enabled tk) (tk_state tk))
      end
  end.

(** A caller that switches networks several times, each call in a [try]:
    the outcomes and the state left. *)
Fixpoint switchNetwork_each (targets : list (string * option string)) (st : St R)
  : list (Res unit) * St R :=
  match targets with
  | [] => ([], st)
  | (endpoint0, commitment0) :: rest =>
      let out := switchNetwork endpoint0 commitment0 st in
      let outs := switchNetwork_each rest (snd out) in
      (fst out :: fst outs, snd outs)
  end.

(** *** account.js: [validatePublicKey] (235-242) *)
Definition validatePublicKey (publicKey0 : string) : bool :=
  match PublicKey_new publicKey0 with
  | Returned _ => true
  | Threw _ => false
  end.

(** *** transaction.js: [createTokenTransferTransaction] (292-341) *)

(** [new Uint64Array([amount])]: JavaScript has no global of that name
    (the 64-bit typed arrays are [BigInt64Array] and [BigUint64Array]), so
    evaluating the reference throws. *)
Definition Uint64Array_bytes (amount : Z) : Res (list Z) :=
  Threw (JsError "ReferenceError" "Uint64Array is not defined").

Definition token_transfer_error (senderAccount : Keypair)
    (receiverPublicKey : string) (amount : Z) (error : Exn) : Exn :=
  SolanaToolkitError
    ("Failed to create token transfer transaction: " +++ exn_message error)
    "TOKEN_TRANSFER_ERROR"
    [("sender", JStr (toBase58 (publicKey senderAccount)));
     ("receiver", JStr receiverPublicKey);
     ("amount", JNum amount);
     ("error", JStr (exn_message error))].

(** The properties of the instruction literal are evaluated in order:
    the keys (with [new PublicKey(receiverPublicKey)]), the program id,
    the data. *)
Definition createTokenTransferTransaction (senderAccount : Keypair)
    (receiverPublicKey : string) (amount : Z) (tokenProgramId : string)
    (options : Options) : M R TxResult :=
  try_catch
    (let memo := or_default (o_memo options) "" in
     let computeUnits := or_default (o_computeUnits options) 200000 in
     let priorityFee := or_default (o_priorityFee options) 0 in
     transaction <- Transaction_new ;;
     when (negb (String.eqb memo ""))
          (Transaction_add transaction (memoInstruction memo)) ;;
     receiver <- lift (PublicKey_new receiverPublicKey) ;;
     program <- lift (PublicKey_new tokenProgramId) ;;
     bytes <- lift (Uint64Array_bytes amount) ;;
     Transaction_add transaction
       (mkInstruction [mkMeta (publicKey senderAccount) true true;
                       mkMeta receiver false true;
                       mkMeta systemProgram false false]
                      program (2 :: bytes)) ;;
     executeTransaction transaction [senderAccount]
       (mkOptions None (Some computeUnits) (Some priorityFee) None None))
    (fun error =>
       throw (token_transfer_error senderAccount receiverPublicKey amount error)).

End Facade.

Arguments Toolkit R : clear implicits.

Definition is_returned {A} (r : Res A) : bool :=
  match r with Returned _ => true | Threw _ => false end.

(** *** core.js: where the retry loop invokes the operation

    The loop of [executeWithRetry] (core.js 69-90) once more, keeping the
    state at the start of every attempt that passes the health gate, in
    order. *)

Section Invocations.

Context {R : Type} {RT : Runtime R} {V : Type}.

Fixpoint retry_loop_invocations (operation : Connection -> M R V) (maxRetries : Z)
    (attempts : list Z) (st : St R) : list (St R) :=
  match attempts with
  | [] => []
  | attempt :: rest =>
      let here := if negb (isHealthy (mgr st)) then [] else [st] in
      match attempt_try operation maxRetries attempt st with
      | (Returned _, _) => here
      | (Threw _, st1) =>
          if attempt =? maxRetries then here
          else
            let delay := backoff_delay (retryDelay (mgr st1)) attempt in
            here ++ retry_loop_invocations operation maxRetries rest
                      (snd (sleep delay st1))
      end
  end.

Definition executeWithRetry_invocations (operation : Connection -> M R V)
    (maxRetries_arg : option Z) (st : St R) : list (St R) :=
  let maxRetries := or_default maxRetries_arg (retryAttempts (mgr st)) in
  retry_loop_invocations operation maxRetries (attempt_numbers maxRetries) st.

End Invocations.

(** The blockhash request of an attempt that starts in [st] is answered. *)
Definition blockhash_answered {R : Type} {RT : Runtime R} (st : St R) : bool :=
  is_returned (fst (fst (rpc_getLatestBlockhash (connection (mgr st)) (env st)))).

(** A toolkit as its constructor leaves it, on devnet, at time 0. *)
Definition fresh_toolkit : Toolkit Script :=
  mkToolkit (Configuration_new (fun cluster => "https://api." +++ cluster +++ ".solana.com"))
            false (world true [] quiet).

(** The instruction sequence [sendTransaction] builds: the memo, when
    there is one, and the transfer (transaction.js 37-55). *)
Definition transfer_instructions (senderAccount : Keypair) (toPubkey : PublicKey)
    (amount : Z) (memo : string) : list TransactionInstruction :=
  (if negb (String.eqb memo "") then [memoInstruction memo] else [])
  ++ [SystemProgram_transfer (publicKey senderAccount) toPubkey amount].


(** The verdict of a settled probe on [isHealthy] (core.js 51-53, 60). *)
Definition probe_verdict (pr : Probe) (o : ProbeOutcome) : bool :=
  match o with
  | SlotOk now_response _ => now_response - probe_startTime pr <? 5000
  | SlotErr _ => false
  end.

(** * Properties *)

(** ** What the background probe can and cannot change *)

Section Frame.

Context {R : Type} {RT : Runtime R}.

Lemma same_but_health_refl (s : St R) : same_but_health s s.
Proof. unfold same_but_health; intuition. Qed.

Lemma same_but_health_trans (s1 s2 s3 : St R) :
  same_but_health s1 s2 -> same_but_health s2 s3 -> same_but_health s1 s3.
Proof. unfold same_but_health; intuition congruence. Qed.

Lemma run_event_frame (ev : BgEvent) (s : St R) :
  same_but_health s (run_event ev s).
Proof.
  destruct ev as [i now | p o]; simpl.
  - unfold probe_tick. destruct (nth_error _ i); unfold same_but_health; simpl; intuition.
  - unfold probe_settle. destruct (nth_error _ p); [destruct o|];
      unfold same_but_health; simpl; intuition.
Qed.

Lemma run_bg_frame (evs : list BgEvent) (s : St R) :
  same_but_health s (run_bg evs s).
Proof.
  unfold run_bg. revert s.
  induction evs as [|ev evs IH]; intros s; simpl.
  - apply same_but_health_refl.
  - eapply same_but_health_trans; [apply run_event_frame | apply IH].
Qed.

Lemma sleep_frame (delay : Z) (s : St R) :
  same_but_health s (snd (sleep delay s)).
Proof.
  unfold sleep. destruct (setTimeout delay (env s)) as [[u evs] e'] eqn:E. simpl.
  eapply same_but_health_trans; [|apply run_bg_frame].
  unfold same_but_health; simpl; intuition.
Qed.


(** *** The recording loop is the loop *)

Lemma attempt_try_tr_erase {V} (operation : Connection -> M R V) (n k : Z) (s : St R) :
  fst (attempt_try_tr operation n k s) = attempt_try operation n k s.
Proof.
  unfold attempt_try_tr, attempt_try.
  destruct (negb (isHealthy (mgr s))); reflexivity.
Qed.

Lemma retry_loop_tr_erase {V} (operation : Connection -> M R V) (n : Z)
    (attempts : list Z) :
  forall (lastError : option Exn) (s : St R),
    fst (retry_loop_tr operation n attempts lastError s)
    = retry_loop operation n attempts lastError s.
Proof.
  induction attempts as [|k rest IH]; intros lastError s; simpl; [reflexivity|].
  rewrite <- attempt_try_tr_erase.
  destruct (attempt_try_tr operation n k s) as [[[v|e] s1] ev]; simpl; [reflexivity|].
  destruct (k =? n); [reflexivity|].
  rewrite <- IH.
  destruct (retry_loop_tr operation n rest (Some e) _) as [out tr]. reflexivity.
Qed.

Lemma executeWithRetry_tr_erase {V} (operation : Connection -> M R V)
    (maxRetries_arg : option Z) (s : St R) :
  fst (executeWithRetry_tr operation maxRetries_arg s)
  = executeWithRetry operation maxRetries_arg s.
Proof.
  unfold executeWithRetry_tr, executeWithRetry.
  rewrite <- retry_loop_tr_erase.
  destruct (retry_loop_tr _ _ _ _ _) as [[x s'] tr]. reflexivity.
Qed.

(** *** Every execution of the loop is a [Run] *)

Lemma attempt_try_tr_cases {V} (operation : Connection -> M R V) (n k : Z) (s : St R) :
  (isHealthy (mgr s) = false /\
   attempt_try_tr operation n k s = ((Threw (unhealthy_connection k n), s), Gated k))
  \/
  (isHealthy (mgr s) = true /\
   attempt_try_tr operation n k s
   = (operation (connection (mgr s)) s,
      Invoked k (fst (operation (connection (mgr s)) s)))).
Proof.
  unfold attempt_try_tr. destruct (isHealthy (mgr s)); simpl; auto.
Qed.

Lemma retry_loop_tr_Run {V} (operation : Connection -> M R V) (n : Z)
    (I : St R -> Prop) :
  (forall c s, I s -> I (snd (operation c s))) ->
  (forall delay s, I s -> I (snd (sleep delay s))) ->
  forall (len a : nat) (lastError : option Exn) (s s' : St R) x tr,
    I s ->
    (1 <= len)%nat ->
    Z.of_nat (a + len) = n + 1 ->
    retry_loop_tr operation n (map Z.of_nat (seq a len)) lastError s = ((x, s'), tr) ->
    Run (fun k delay =>
           exists s0, I s0 /\ delay = backoff_delay (retryDelay (mgr s0)) k)
        n (Z.of_nat a) tr x.
Proof.
  intros Hop Hsl.
  induction len as [|len IH]; intros a lastError s s' x tr Hs Hlen Hn Hrun.
  - lia.
  - simpl in Hrun.
    destruct (attempt_try_tr_cases operation n (Z.of_nat a) s) as [[_ E]|[_ E]];
      rewrite E in Hrun; clear E.
    + destruct (Z.eqb_spec (Z.of_nat a) n) as [Heq|Hne].
      * subst n. injection Hrun as Hx Hs' Htr; subst x s' tr. constructor.
      * destruct (retry_loop_tr operation n _ _ _) as [[x1 s1] tr1] eqn:E1.
        injection Hrun as Hx Hs' Htr; subst x s' tr.
        apply Run_retry_gated; [exact Hne | exists s; auto |].
        replace (Z.of_nat a + 1) with (Z.of_nat (S a)) by lia.
        eapply (IH (S a)); [| | |exact E1]; try lia.
        apply Hsl, Hs.
    + destruct (operation (connection (mgr s)) s) as [[v|e] s1] eqn:Eop; simpl in Hrun.
      * injection Hrun as Hx Hs' Htr; subst x s' tr. constructor.
      * assert (Hs1 : I s1).
        { specialize (Hop (connection (mgr s)) s Hs). rewrite Eop in Hop. exact Hop. }
        destruct (Z.eqb_spec (Z.of_nat a) n) as [Heq|Hne].
        -- subst n. injection Hrun as Hx Hs' Htr; subst x s' tr. constructor.
        -- destruct (retry_loop_tr operation n _ _ _) as [[x1 s2] tr1] eqn:E1.
           injection Hrun as Hx Hs' Htr; subst x s' tr.
           apply Run_retry_threw; [exact Hne | exists s1; auto |].
           replace (Z.of_nat a + 1) with (Z.of_nat (S a)) by lia.
           eapply (IH (S a)); [| | |exact E1]; try lia.
           apply Hsl, Hs1.
Qed.

End Frame.

(** ** Facts about runs *)

Section RunFacts.

Context {V : Type} (P : Z -> Z -> Prop).

Implicit Types (tr : list (RetryEvent V)) (x : LoopExit V).

Lemma last_skip2 (a b : RetryEvent V) tr dflt :
  tr <> [] -> last (a :: b :: tr) dflt = last tr dflt.
Proof. destruct tr; [congruence | reflexivity]. Qed.

Lemma Run_nonempty n k tr x : Run P n k tr x -> attempt_events tr <> [].
Proof. destruct 1; simpl; discriminate. Qed.

Lemma Run_trace_nonempty n k tr x : Run P n k tr x -> tr <> [].
Proof. destruct 1; discriminate. Qed.


Lemma removelast_cons (ev : RetryEvent V) evs :
  evs <> [] -> removelast (ev :: evs) = ev :: removelast evs.
Proof. destruct evs; [congruence | reflexivity]. Qed.

Lemma last_cons (ev : RetryEvent V) evs dflt :
  evs <> [] -> last (ev :: evs) dflt = last evs dflt.
Proof. destruct evs; [congruence | reflexivity]. Qed.

(** The attempts of a run that starts at attempt [a]: they are numbered
    from [a] on, all but the last failed, and a failed last one is
    attempt [n]. *)
Lemma Run_attempts n k tr x :
  Run P n k tr x ->
  forall a : nat, k = Z.of_nat a -> k <= n ->
    map event_attempt (attempt_events tr)
    = map Z.of_nat (seq a (List.length (attempt_events tr))) /\
    (1 <= List.length (attempt_events tr))%nat /\
    Z.of_nat (a + List.length (attempt_events tr)) <= n + 1 /\
    Forall (fun ev => event_failed ev = true) (removelast (attempt_events tr)) /\
    (event_failed (last (attempt_events tr) (Slept 0)) = true ->
     Z.of_nat (a + List.length (attempt_events tr)) = n + 1) /\
    last tr (Slept 0) = last (attempt_events tr) (Slept 0).
Proof.
  induction 1 as [k v | e | | k e delay tr x Hne Hdl Hrun IH
                 | k delay tr x Hne Hdl Hrun IH];
    intros a Ha Hle;
    [ subst k; simpl; repeat split; auto; try lia; try discriminate
    | subst n; simpl; repeat split; auto; try lia
    | subst n; simpl; repeat split; auto; try lia
    | change (attempt_events (Invoked k (Threw e) :: Slept delay :: tr))
        with (Invoked k (Threw e) :: attempt_events tr)
    | change (attempt_events (Gated k :: Slept delay :: tr))
        with (@Gated V k :: attempt_events tr) ].
  all: destruct (IH (S a)) as (H2 & H3 & H4 & H5 & H6 & H8); try lia.
  all: pose proof (Run_nonempty _ _ _ _ Hrun) as Hnil.
  all: pose proof (Run_trace_nonempty _ _ _ _ Hrun) as Hnil'.
  all: rewrite removelast_cons, last_cons, last_skip2 by auto.
  all: cbn [List.length event_attempt map].
  all: split; [cbn [seq map]; rewrite H2, Ha; reflexivity|].
  all: split; [lia|].
  all: split; [lia|].
  all: split; [constructor; [reflexivity|exact H5]|].
  all: split; [intros Hf; specialize (H6 Hf); lia|exact H8].
Qed.


(** Runs in which the gate never closes and the operation never returns. *)
Lemma Run_all_threw n k tr x :
  Run P n k tr x ->
  forall a : nat, k = Z.of_nat a -> k <= n ->
    Forall (fun ev => is_gated ev = false) tr ->
    Forall (fun ev => is_success ev = false) tr ->
    exists e, x = LoopDone (Some e) /\ last tr (Slept 0) = Invoked n (Threw e) /\
              Z.of_nat (a + n_invoked tr) = n + 1.
Proof.
  induction 1 as [k v | e | | k e delay tr x Hne Hdl Hrun IH
                 | k delay tr x Hne Hdl Hrun IH];
    intros a Ha Hle Hg Hs.
  - inversion Hs; subst. discriminate.
  - exists e. repeat split. unfold n_invoked; simpl. lia.
  - inversion Hg; subst. discriminate.
  - inversion Hg as [|? ? _ Hg']; inversion Hg' as [|? ? _ Hg'']; subst.
    inversion Hs as [|? ? _ Hs']; inversion Hs' as [|? ? _ Hs'']; subst.
    destruct (IH (S a)) as (e' & Hx & Hl & Hc); auto; try lia.
    exists e'. rewrite last_skip2 by (eapply Run_trace_nonempty; eauto).
    repeat split; auto.
    unfold n_invoked in *; simpl. lia.
  - inversion Hg; subst. discriminate.
Qed.

(** Runs in which the gate never closes and attempt [k'] returns [v]. *)
Lemma Run_returned n k tr x :
  Run P n k tr x ->
  forall (a : nat) k' v, k = Z.of_nat a -> k <= n ->
    Forall (fun ev => is_gated ev = false) tr ->
    In (Invoked k' (Returned v)) tr ->
    x = LoopReturn v /\ last tr (Slept 0) = Invoked k' (Returned v) /\
    Z.of_nat (a + n_invoked tr) = k' + 1 /\ k <= k' <= n.
Proof.
  induction 1 as [k v0 | e | | k e delay tr x Hne Hdl Hrun IH
                 | k delay tr x Hne Hdl Hrun IH];
    intros a k' v Ha Hle Hg Hin.
  - destruct Hin as [Hin|[]]. injection Hin as -> ->.
    repeat split; auto; try lia. unfold n_invoked; simpl. lia.
  - destruct Hin as [Hin|[]]. discriminate.
  - destruct Hin as [Hin|[]]. discriminate.
  - destruct Hin as [Hin|[Hin|Hin]]; try discriminate.
    inversion Hg as [|? ? _ Hg']; inversion Hg' as [|? ? _ Hg'']; subst.
    destruct (IH (S a) k' v) as (Hx & Hl & Hc & Hk); auto; try lia.
    rewrite last_skip2 by (eapply Run_trace_nonempty; eauto).
    repeat split; auto; try lia.
    unfold n_invoked in *; simpl. lia.
  - inversion Hg; subst. discriminate.
Qed.

(** Runs in which the operation is never invoked. *)
Lemma Run_all_gated n k tr x :
  Run P n k tr x ->
  forall a : nat, k = Z.of_nat a -> k <= n ->
    Forall (fun ev => is_invoked ev = false) tr ->
    x = LoopDone (Some (unhealthy_connection n n)) /\
    last tr (Slept 0) = Gated n /\
    Z.of_nat (a + n_gated tr) = n + 1.
Proof.
  induction 1 as [k v | e | | k e delay tr x Hne Hdl Hrun IH
                 | k delay tr x Hne Hdl Hrun IH];
    intros a Ha Hle Hi.
  - inversion Hi; subst. discriminate.
  - inversion Hi; subst. discriminate.
  - repeat split. unfold n_gated; simpl. lia.
  - inversion Hi; subst. discriminate.
  - inversion Hi as [|? ? _ Hi']; inversion Hi' as [|? ? _ Hi'']; subst.
    destruct (IH (S a)) as (Hx & Hl & Hc); auto; try lia.
    rewrite last_skip2 by (eapply Run_trace_nonempty; eauto).
    repeat split; auto.
    unfold n_gated in *; simpl. lia.
Qed.

End RunFacts.

(** ** The retry executor *)

Section RetryExecutor.

Context {R : Type} {RT : Runtime R} {V : Type}.

Implicit Types (operation : Connection -> M R V) (s : St R).

Lemma attempt_events_count (tr : list (RetryEvent V)) :
  List.length (attempt_events tr) = (n_gated tr + n_invoked tr)%nat.
Proof.
  unfold attempt_events, n_gated, n_invoked.
  induction tr as [|[k|k r|dl] tr IH]; simpl; lia.
Qed.



(** While an invariant keeps the link healthy, the gate never closes. *)
Lemma retry_loop_tr_no_gate operation n (I : St R -> Prop) :
  (forall s, I s -> isHealthy (mgr s) = true) ->
  (forall c s, I s -> I (snd (operation c s))) ->
  (forall delay s, I s -> I (snd (sleep delay s))) ->
  forall attempts lastError s, I s ->
    Forall (fun ev => is_gated ev = false)
           (snd (retry_loop_tr operation n attempts lastError s)).
Proof.
  intros HI Hop Hsl.
  induction attempts as [|k rest IH]; intros lastError s Hs; simpl; [constructor|].
  destruct (attempt_try_tr_cases operation n k s) as [[Hh _]|[_ E]].
  { rewrite (HI s Hs) in Hh. discriminate. }
  rewrite E; clear E.
  pose proof (Hop (connection (mgr s)) s Hs) as Hs1.
  destruct (operation (connection (mgr s)) s) as [[v|e] s1]; simpl in *.
  - repeat constructor.
  - destruct (k =? n); [repeat constructor|].
    specialize (IH (Some e) _ (Hsl (backoff_delay (retryDelay (mgr s1)) k) s1 Hs1)).
    destruct (retry_loop_tr operation n rest (Some e) _) as [out tr].
    simpl in *. repeat constructor. exact IH.
Qed.

(** An operation that throws whenever the invariant holds leaves no
    successful attempt. *)
Lemma retry_loop_tr_threw operation n (I : St R -> Prop) (Q : Exn -> Prop) :
  (forall c s, I s -> I (snd (operation c s))) ->
  (forall delay s, I s -> I (snd (sleep delay s))) ->
  (forall c s, I s -> exists e, fst (operation c s) = Threw e /\ Q e) ->
  forall attempts lastError s, I s ->
    Forall (threw_only Q) (snd (retry_loop_tr operation n attempts lastError s)).
Proof.
  intros Hop Hsl Hfail.
  induction attempts as [|k rest IH]; intros lastError s Hs; simpl; [constructor|].
  destruct (attempt_try_tr_cases operation n k s) as [[_ E]|[_ E]]; rewrite E; clear E.
  - destruct (k =? n); [repeat constructor|].
    specialize (IH (Some (unhealthy_connection k n)) _
                   (Hsl (backoff_delay (retryDelay (mgr s)) k) s Hs)).
    destruct (retry_loop_tr operation n rest _ _) as [out tr].
    simpl in *. repeat constructor. exact IH.
  - destruct (Hfail (connection (mgr s)) s Hs) as (e & He & HQ).
    pose proof (Hop (connection (mgr s)) s Hs) as Hs1.
    destruct (operation (connection (mgr s)) s) as [r s1]; simpl in *. subst r.
    destruct (k =? n); [repeat constructor; exact HQ|].
    specialize (IH (Some e) _ (Hsl (backoff_delay (retryDelay (mgr s1)) k) s1 Hs1)).
    destruct (retry_loop_tr operation n rest _ _) as [out tr].
    simpl in *. repeat constructor; [exact HQ | exact IH].
Qed.

Lemma threw_only_no_success (Q : Exn -> Prop) (tr : list (RetryEvent V)) :
  Forall (threw_only Q) tr -> Forall (fun ev => is_success ev = false) tr.
Proof.
  apply Forall_impl. intros [k|k [v|e]|d]; simpl; tauto.
Qed.

Lemma threw_only_last (Q : Exn -> Prop) (tr : list (RetryEvent V)) k e :
  Forall (threw_only Q) tr -> last tr (Slept 0) = Invoked k (Threw e) -> Q e.
Proof.
  induction 1 as [|ev tr Hev _ IH]; simpl; [discriminate|].
  destruct tr as [|ev' tr]; [intros ->; exact Hev | exact IH].
Qed.

(** While an invariant keeps the link unhealthy, the loop does not depend
    on the operation and never calls it. *)
Lemma retry_loop_tr_all_gated operation n (I : St R -> Prop) :
  (forall s, I s -> isHealthy (mgr s) = false) ->
  (forall delay s, I s -> I (snd (sleep delay s))) ->
  forall attempts lastError s, I s ->
    Forall (fun ev => is_invoked ev = false)
           (snd (retry_loop_tr operation n attempts lastError s)) /\
    forall operation',
      retry_loop_tr operation' n attempts lastError s
      = retry_loop_tr operation n attempts lastError s.
Proof.
  intros HI Hsl.
  induction attempts as [|k rest IH]; intros lastError s Hs; simpl.
  { split; [constructor | reflexivity]. }
  pose proof (HI s Hs) as Hh.
  unfold attempt_try_tr. rewrite Hh. simpl.
  destruct (k =? n).
  { split; [repeat constructor | reflexivity]. }
  destruct (IH (Some (unhealthy_connection k n)) _
               (Hsl (backoff_delay (retryDelay (mgr s)) k) s Hs)) as [IH1 IH2].
  split.
  - fold (unhealthy_connection k n).
    destruct (retry_loop_tr operation n rest _ _) as [out tr].
    simpl in *. repeat constructor. exact IH1.
  - intros operation'. fold (unhealthy_connection k n). rewrite IH2. reflexivity.
Qed.

Lemma filter_none {A} (f : A -> bool) (l : list A) :
  Forall (fun a => f a = false) l -> filter f l = [].
Proof.
  induction 1 as [|a l Ha _ IH]; simpl; [reflexivity|]. rewrite Ha. exact IH.
Qed.

Lemma filter_length_0 {A} (f : A -> bool) (l : list A) :
  List.length (filter f l) = 0%nat -> Forall (fun a => f a = false) l.
Proof.
  induction l as [|a l IH]; simpl; [constructor|].
  destruct (f a) eqn:E; simpl; [discriminate|].
  intros H. constructor; [exact E | exact (IH H)].
Qed.

(** A call with [maxRetries = n >= 1] is a run from attempt 1. *)
Lemma executeWithRetry_tr_Run operation n (I : St R -> Prop) s res s' tr :
  1 <= n ->
  (forall c s0, I s0 -> I (snd (operation c s0))) ->
  (forall delay s0, I s0 -> I (snd (sleep delay s0))) ->
  I s ->
  executeWithRetry_tr operation (Some n) s = ((res, s'), tr) ->
  exists x,
    retry_loop_tr operation n (attempt_numbers n) None s = ((x, s'), tr) /\
    res = after_loop n x /\
    Run (fun k delay =>
           exists s0, I s0 /\ delay = backoff_delay (retryDelay (mgr s0)) k)
        n 1 tr x.
Proof.
  intros Hn Hop Hsl Hs Hrun.
  unfold executeWithRetry_tr in Hrun. cbn [or_default] in Hrun.
  destruct (retry_loop_tr operation n (attempt_numbers n) None s)
    as [[x s1] tr1] eqn:E.
  injection Hrun as Hres Hs' Htr; subst res s' tr.
  exists x. repeat split.
  change 1 with (Z.of_nat 1).
  eapply (retry_loop_tr_Run operation n I Hop Hsl (Z.to_nat n) 1%nat None s);
    [exact Hs | lia | lia | exact E].
Qed.

(** A call on a healthy link whose operation always throws: [n]
    invocations, and [OPERATION_FAILED] carrying the last error. *)
Lemma executeWithRetry_tr_all_threw operation n (I : St R -> Prop)
    (Q : Exn -> Prop) s :
  1 <= n ->
  I s ->
  (forall s0, I s0 -> isHealthy (mgr s0) = true) ->
  (forall c s0, I s0 -> I (snd (operation c s0))) ->
  (forall delay s0, I s0 -> I (snd (sleep delay s0))) ->
  (forall c s0, I s0 -> exists e, fst (operation c s0) = Threw e /\ Q e) ->
  let out := executeWithRetry_tr operation (Some n) s in
  n_invoked (snd out) = Z.to_nat n /\
  exists e, Q e /\ last (snd out) (Slept 0) = Invoked n (Threw e) /\
            fst (fst out) = Threw (operation_failed n e).
Proof.
  intros Hn Hs HI Hop Hsl Hfail out.
  destruct out as [[res s'] tr] eqn:E. cbn [fst snd].
  destruct (executeWithRetry_tr_Run operation n I s res s' tr Hn Hop Hsl Hs E)
    as (x & Hloop & Hres & Hrun).
  assert (Hg : Forall (fun ev => is_gated ev = false) tr).
  { pose proof (retry_loop_tr_no_gate operation n I HI Hop Hsl
                  (attempt_numbers n) None s Hs) as H.
    rewrite Hloop in H. exact H. }
  assert (Ht : Forall (threw_only Q) tr).
  { pose proof (retry_loop_tr_threw operation n I Q Hop Hsl Hfail
                  (attempt_numbers n) None s Hs) as H.
    rewrite Hloop in H. exact H. }
  destruct (Run_all_threw _ _ _ _ _ Hrun 1%nat eq_refl Hn Hg
              (threw_only_no_success Q tr Ht)) as (e & Hx & Hl & Hc).
  split; [lia|].
  exists e. split; [exact (threw_only_last Q tr n e Ht Hl)|].
  split; [exact Hl|]. subst x res. reflexivity.
Qed.

Lemma Run_done_some (P : Z -> Z -> Prop) n k (tr : list (RetryEvent V)) o :
  Run P n k tr (LoopDone o) -> exists e, o = Some e.
Proof.
  intros H. remember (LoopDone o) as x eqn:Hx.
  induction H as [k v | e | | k e delay tr x Hne Hdl Hrun IH
                 | k delay tr x Hne Hdl Hrun IH]; try discriminate; auto.
  - injection Hx as <-. eauto.
  - injection Hx as <-. eauto.
Qed.

(** With at least one attempt, whatever the retry executor throws is its
    own [OPERATION_FAILED]. *)
Lemma executeWithRetry_throws operation (n : Z) s (e : Exn) :
  1 <= n ->
  fst (executeWithRetry operation (Some n) s) = Threw e ->
  exists lastError, e = operation_failed n lastError.
Proof.
  intros Hn He. rewrite <- executeWithRetry_tr_erase in He.
  destruct (executeWithRetry_tr operation (Some n) s) as [[res s'] tr] eqn:E.
  destruct (executeWithRetry_tr_Run operation n (fun _ => True) s res s' tr Hn)
    as (x & _ & Hres & Hrun); auto.
  cbn [fst] in He. rewrite He in Hres.
  destruct x as [v|o]; [discriminate|].
  destruct (Run_done_some _ _ _ _ _ Hrun) as (e0 & ->).
  cbn [after_loop] in Hres. injection Hres as ->. eauto.
Qed.

End RetryExecutor.

Section RetryClaims.

Context {R : Type} {RT : Runtime R} {V : Type}.

Implicit Types (operation : Connection -> M R V) (s : St R).

(** C1 (as amended).  Let [n >= 1] and let the health flag be true at the
    start of every attempt of the call, that is, no attempt is cut short
    by the health gate.  Then:
    - if the operation throws on every invocation, it is invoked exactly
      [n] times, the last event is its [n]-th failure [e], and the call
      throws [OPERATION_FAILED] whose context has [maxRetries = n] and
      whose message and [lastError] carry the message of [e];
    - if attempt [k] returns [v], then [k <= n], the call returns [v],
      the operation was invoked exactly [k] times and that return is the
      last event (no further attempt, no sleep after it).
    The recorded call and [executeWithRetry] agree. *)
Theorem executeWithRetry_attempt_count operation (n : Z) s :
  1 <= n ->
  let out := executeWithRetry_tr operation (Some n) s in
  let res := fst (fst out) in
  let tr := snd out in
  n_gated tr = 0%nat ->
  executeWithRetry operation (Some n) s = fst out /\
  ((forall c s0, exists e, fst (operation c s0) = Threw e) ->
   n_invoked tr = Z.to_nat n /\
   exists e, last tr (Slept 0) = Invoked n (Threw e) /\
             res = Threw (SolanaToolkitError
                            ("Operation failed after " +++ string_of_Z n
                               +++ " attempts: " +++ exn_message e)
                            "OPERATION_FAILED"
                            [("maxRetries", JNum n);
                             ("lastError", JStr (exn_message e))])) /\
  (forall k v, In (Invoked k (Returned v)) tr ->
     1 <= k <= n /\ res = Returned v /\ n_invoked tr = Z.to_nat k /\
     last tr (Slept 0) = Invoked k (Returned v)).
Proof.
  intros Hn out res tr Hgate.
  split. { symmetry. apply executeWithRetry_tr_erase. }
  destruct out as [[res0 s'] tr0] eqn:E. subst res tr. cbn [fst snd] in *.
  destruct (executeWithRetry_tr_Run operation n (fun _ => True) s res0 s' tr0 Hn
              (fun _ _ _ => Logic.I) (fun _ _ _ => Logic.I) Logic.I E)
    as (x & Hloop & Hres & Hrun).
  pose proof (filter_length_0 _ _ Hgate) as Hg.
  split.
  - intros Hfail.
    assert (Ht : Forall (threw_only (fun _ => True)) tr0).
    { pose proof (retry_loop_tr_threw operation n (fun _ => True) (fun _ => True)
                    (fun _ _ _ => Logic.I) (fun _ _ _ => Logic.I)) as H.
      specialize (H (fun c s0 _ =>
                       match Hfail c s0 with
                       | ex_intro _ e He => ex_intro _ e (conj He Logic.I)
                       end)
                    (attempt_numbers n) None s Logic.I).
      rewrite Hloop in H. exact H. }
    destruct (Run_all_threw _ _ _ _ _ Hrun 1%nat eq_refl Hn Hg
                (threw_only_no_success _ tr0 Ht)) as (e & Hx & Hl & Hc).
    split; [lia|]. exists e. split; [exact Hl|]. subst x res0. reflexivity.
  - intros k v Hin.
    destruct (Run_returned _ _ _ _ _ Hrun 1%nat k v eq_refl Hn Hg Hin)
      as (Hx & Hl & Hc & Hk).
    split; [lia|]. split; [subst x res0; reflexivity|].
    split; [lia | exact Hl].
Qed.

(** C2.  Health gating.
    - An attempt that starts with [isHealthy = false] throws
      [UNHEALTHY_CONNECTION] and leaves the state as it was, whatever the
      operation: the operation is not invoked.
    - That attempt uses up its attempt number: the loop either stops (it
      was attempt [n]) or sleeps and goes on with the next number.
    - In every call with [maxRetries = n >= 1], gated and invoked
      attempts together are at most [n].
    - If the flag is false throughout the call (an invariant [I] that
      implies [isHealthy = false], kept by the sleeps), the call makes no
      invocation and [n] gated attempts, throws [OPERATION_FAILED] after
      [n] attempts, and is the same for every operation. *)
Theorem executeWithRetry_health_gate operation (n : Z) :
  (forall k s, isHealthy (mgr s) = false ->
     attempt_try operation n k s
     = (Threw (SolanaToolkitError "Connection is unhealthy" "UNHEALTHY_CONNECTION"
                 [("attempt", JNum k); ("maxRetries", JNum n)]), s) /\
     snd (attempt_try_tr operation n k s) = Gated k) /\
  (forall k rest lastError s, isHealthy (mgr s) = false ->
     retry_loop operation n (k :: rest) lastError s
     = if k =? n then (LoopDone (Some (unhealthy_connection k n)), s)
       else retry_loop operation n rest (Some (unhealthy_connection k n))
              (snd (sleep (backoff_delay (retryDelay (mgr s)) k) s))) /\
  (forall s, 1 <= n ->
     let tr := snd (executeWithRetry_tr operation (Some n) s) in
     Z.of_nat (n_gated tr + n_invoked tr) <= n) /\
  (forall (I : St R -> Prop) s,
     1 <= n -> I s ->
     (forall s0, I s0 -> isHealthy (mgr s0) = false) ->
     (forall delay s0, I s0 -> I (snd (sleep delay s0))) ->
     let out := executeWithRetry_tr operation (Some n) s in
     n_invoked (snd out) = 0%nat /\
     n_gated (snd out) = Z.to_nat n /\
     fst (fst out) = Threw (operation_failed n (unhealthy_connection n n)) /\
     executeWithRetry operation (Some n) s = fst out /\
     forall operation', executeWithRetry_tr operation' (Some n) s = out).
Proof.
  split; [|split; [|split]].
  - intros k s Hh. unfold attempt_try, attempt_try_tr. rewrite Hh. split; reflexivity.
  - intros k rest lastError s Hh. simpl. unfold attempt_try. rewrite Hh. simpl.
    destruct (k =? n); reflexivity.
  - intros s Hn tr.
    destruct (executeWithRetry_tr operation (Some n) s) as [[res s'] tr0] eqn:E.
    subst tr. cbn [snd].
    destruct (executeWithRetry_tr_Run operation n (fun _ => True) s res s' tr0 Hn
                (fun _ _ _ => Logic.I) (fun _ _ _ => Logic.I) Logic.I E)
      as (x & _ & _ & Hrun).
    destruct (Run_attempts _ _ _ _ _ Hrun 1%nat eq_refl Hn) as (_ & _ & Hb & _).
    rewrite attempt_events_count in Hb. lia.
  - intros I s Hn Hs HI Hsl out.
    destruct (retry_loop_tr_all_gated operation n I HI Hsl (attempt_numbers n) None s Hs)
      as [Hni Hindep].
    destruct out as [[res s'] tr] eqn:E. cbn [fst snd].
    destruct (executeWithRetry_tr_Run operation n (fun _ => True) s res s' tr Hn
                (fun _ _ _ => Logic.I) (fun _ _ _ => Logic.I) Logic.I E)
      as (x & Hloop & Hres & Hrun).
    rewrite Hloop in Hni. cbn [snd] in Hni.
    destruct (Run_all_gated _ _ _ _ _ Hrun 1%nat eq_refl Hn Hni) as (Hx & _ & Hc).
    split. { unfold n_invoked. rewrite (filter_none _ _ Hni). reflexivity. }
    split; [lia|].
    split. { subst x res. reflexivity. }
    split. { rewrite <- executeWithRetry_tr_erase. fold out. rewrite E. reflexivity. }
    intros operation'. rewrite <- E. unfold out, executeWithRetry_tr.
    cbn [or_default]. rewrite Hindep. reflexivity.
Qed.


End RetryClaims.

(** ** The retry executor on the scripted world *)

(** The scenarios start from the world the constructor builds. *)
Lemma world_is_constructed :
  ConnectionManager_new devnet None 0 quiet = Returned (world true [] quiet).
Proof. reflexivity. Qed.

Lemma steady_sleep (b : bool) (delay : Z) (s : St Script) :
  steady b s -> steady b (snd (sleep delay s)).
Proof.
  intros [Hb Ht]. unfold sleep. cbn [setTimeout scripted].
  rewrite Ht. cbn [hd tl run_bg fold_left snd]. split; [exact Hb | reflexivity].
Qed.

(** On a healthy link: an operation that always throws is invoked three
    times, and one that returns on its third call is invoked three times
    and ends the call. *)
Lemma executeWithRetry_attempt_count_witness :
  (let out := executeWithRetry_tr always_failing (Some 3) (world true [] quiet) in
   n_invoked (snd out) = 3%nat /\
   fst (fst out)
   = Threw (SolanaToolkitError "Operation failed after 3 attempts: boom"
              "OPERATION_FAILED"
              [("maxRetries", JNum 3); ("lastError", JStr "boom")])) /\
  (let out := executeWithRetry_tr third_time_lucky (Some 3) (world true [] quiet) in
   n_invoked (snd out) = 3%nat /\ fst (fst out) = Returned 42 /\
   last (snd out) (Slept 0) = Invoked 3 (Returned 42)).
Proof.
  split.
  - destruct (executeWithRetry_attempt_count always_failing 3 (world true [] quiet))
      as (_ & Hall & _).
    + lia.
    + reflexivity.
    + destruct Hall as (Hn & e & Hl & Hres).
      { intros c s0. exists (JsError "Error" "boom"). reflexivity. }
      split; [exact Hn|].
      vm_compute in Hl. injection Hl as <-. exact Hres.
  - destruct (executeWithRetry_attempt_count third_time_lucky 3 (world true [] quiet))
      as (_ & _ & Hret).
    + lia.
    + reflexivity.
    + destruct (Hret 3 42) as (_ & Hres & Hn & Hl).
      { vm_compute. right. right. right. right. left. reflexivity. }
      split; [exact Hn|]. split; [exact Hres | exact Hl].
Defined.

(** C1, as stated, fails when the link is unhealthy: the operation throws
    on every invocation, [maxRetries] is 3, and it is invoked 0 times. *)
Lemma executeWithRetry_gated_not_invoked :
  (forall c s, exists e, fst (always_failing c s) = Threw e) /\
  let out := executeWithRetry_tr always_failing (Some 3) (world false [] quiet) in
  n_invoked (snd out) = 0%nat /\
  n_invoked (snd out) <> 3%nat /\
  wire (snd (fst out)) = [] /\
  snd out = [Gated 1; Slept 1000; Gated 2; Slept 2000; Gated 3] /\
  fst (fst out)
  = Threw (SolanaToolkitError
             "Operation failed after 3 attempts: Connection is unhealthy"
             "OPERATION_FAILED"
             [("maxRetries", JNum 3); ("lastError", JStr "Connection is unhealthy")]).
Proof.
  split.
  - intros c s. exists (JsError "Error" "boom"). reflexivity.
  - vm_compute. repeat split. discriminate.
Qed.

(** On an unhealthy link nothing is invoked, whatever the operation. *)
Lemma executeWithRetry_health_gate_witness :
  let s := world false [] quiet in
  attempt_try always_failing 3 2 s
  = (Threw (SolanaToolkitError "Connection is unhealthy" "UNHEALTHY_CONNECTION"
              [("attempt", JNum 2); ("maxRetries", JNum 3)]), s) /\
  (let out := executeWithRetry_tr always_failing (Some 3) s in
   n_invoked (snd out) = 0%nat /\ n_gated (snd out) = 3%nat /\
   fst (fst out) = Threw (operation_failed 3 (unhealthy_connection 3 3)) /\
   executeWithRetry_tr third_time_lucky (Some 3) s = out).
Proof.
  intros s.
  destruct (executeWithRetry_health_gate always_failing 3) as (Hone & _ & _ & Hall).
  split.
  - apply (Hone 2 s). reflexivity.
  - destruct (Hall (steady false) s) as (Hi & Hg & Hres & _ & Hindep).
    + lia.
    + split; reflexivity.
    + intros s0 [H _]. exact H.
    + intros delay s0. apply steady_sleep.
    + split; [exact Hi|]. split; [exact Hg|]. split; [exact Hres|].
      apply Hindep.
Defined.


(** ** The transaction lifecycle *)

Section TransactionFacts.

Context {R : Type} {RT : Runtime R}.

Lemma nth_error_replace_nth {A} (l : list A) (n : nat) (a b : A) :
  nth_error l n = Some a -> nth_error (replace_nth n b l) n = Some b.
Proof.
  revert n. induction l as [|x l IH]; intros [|n] H; simpl in *;
    try discriminate; auto.
Qed.

Lemma replace_nth_twice {A} (l : list A) (n : nat) (a b : A) :
  replace_nth n b (replace_nth n a l) = replace_nth n b l.
Proof.
  revert n. induction l as [|x l IH]; intros [|n]; simpl; auto.
  rewrite IH. reflexivity.
Qed.

Lemma rpc_effect {A} (c : RpcCall) (call : Await R (Res A)) (s : St R) :
  heap (snd (rpc c call s)) = heap s /\
  wire (snd (rpc c call s)) = wire s ++ [c].
Proof.
  unfold rpc, await. cbn [env set_wire].
  destruct (call (env s)) as [[r evs] e']. cbn [snd].
  pose proof (run_bg_frame evs
                (set_env e' (set_wire (wire s ++ [c]) s))) as H.
  destruct H as (_ & _ & _ & _ & _ & _ & Hh & Hw & _).
  rewrite Hh, Hw. split; reflexivity.
Qed.

Lemma tx_get_some (transaction : TxRef) (s : St R) (t : Transaction) :
  nth_error (heap s) transaction = Some t ->
  tx_get transaction s = (Returned t, s).
Proof. intros H. unfold tx_get. rewrite H. reflexivity. Qed.

Lemma tx_modify_some (transaction : TxRef) f (s : St R) (t : Transaction) :
  nth_error (heap s) transaction = Some t ->
  tx_modify transaction f s
  = (Returned tt, set_heap (replace_nth transaction (f t) (heap s)) s).
Proof.
  intros H. unfold tx_modify. rewrite H. reflexivity.
Qed.

(** The budget step of one attempt on the transaction object, followed
    by the rest [k] of the attempt. *)
Lemma budget_step {B} (transaction : TxRef) (computeUnits priorityFee : Z)
    (k : M R B) (s : St R) (t : Transaction) :
  nth_error (heap s) transaction = Some t ->
  (when (negb (computeUnits =? 200000))
        (Transaction_add transaction (computeUnitInstruction computeUnits)) ;;
   when (0 <? priorityFee)
        (Transaction_add transaction (priorityFeeInstruction priorityFee)) ;;
   k)%js s
  = k (set_heap (replace_nth transaction
                   (set_instructions
                      (instructions t ++ budget_instructions computeUnits priorityFee) t)
                   (heap s)) s).
Proof.
  intros H. unfold budget_instructions, when, bind, Transaction_add, ret.
  destruct (negb (computeUnits =? 200000)); destruct (0 <? priorityFee).
  - rewrite (tx_modify_some _ _ _ _ H).
    erewrite tx_modify_some
      by (cbn [heap set_heap]; eapply nth_error_replace_nth; exact H).
    cbn [heap set_heap instructions set_instructions].
    rewrite replace_nth_twice, <- app_assoc. destruct s; reflexivity.
  - rewrite (tx_modify_some _ _ _ _ H). reflexivity.
  - rewrite (tx_modify_some _ _ _ _ H). reflexivity.
  - cbn [app]. rewrite app_nil_r.
    assert (Hid : set_instructions (instructions t) t = t) by (destruct t; reflexivity).
    rewrite Hid.
    assert (Hrep : replace_nth transaction t (heap s) = heap s).
    { clear Hid. revert H. generalize (heap s). revert transaction.
      induction transaction as [|n IH]; intros [|x l] Hl; simpl in *;
        try discriminate; try congruence.
      rewrite IH by exact Hl. reflexivity. }
    rewrite Hrep. destruct s; reflexivity.
Qed.

(** One attempt of the lifecycle, step by step: blockhash, stamping and
    budget instructions on the transaction object, signing, submission,
    confirmation. *)
Lemma executeTransaction_operation_unfold (transaction : TxRef)
    (signers : list Keypair) (computeUnits priorityFee : Z)
    (skipPreflight : bool) (maxRetries : Z) (c : Connection)
    (s : St R) (t : Transaction) :
  nth_error (heap s) transaction = Some t ->
  executeTransaction_operation transaction signers computeUnits priorityFee
                               skipPreflight maxRetries c s
  = let out1 := rpc (CallGetLatestBlockhash c) (rpc_getLatestBlockhash c) s in
    match fst out1 with
    | Threw e => (Threw e, snd out1)
    | Returned bh =>
        let t1 := set_instructions
                    (instructions t ++ budget_instructions computeUnits priorityFee)
                    (set_blockhash bh t) in
        match Transaction_sign t1 signers with
        | Threw e =>
            (Threw e, set_heap (replace_nth transaction t1 (heap s)) (snd out1))
        | Returned sigs =>
            let t2 := set_signatures sigs t1 in
            let opts := mkSendOptions skipPreflight maxRetries "confirmed" in
            let out3 :=
              rpc (CallSendTransaction c t2 opts) (rpc_sendTransaction c t2 opts)
                  (set_heap (replace_nth transaction t2 (heap s)) (snd out1)) in
            match fst out3 with
            | Threw e => (Threw e, snd out3)
            | Returned signature =>
                let out4 :=
                  rpc (CallConfirmTransaction c signature (blockhash bh)
                         (bh_lastValidBlockHeight bh))
                      (rpc_confirmTransaction c signature (blockhash bh)
                         (bh_lastValidBlockHeight bh))
                      (snd out3) in
                match fst out4 with
                | Threw e => (Threw e, snd out4)
                | Returned confirmation =>
                    match conf_err confirmation with
                    | Some err =>
                        (Threw (JsError "Error" ("Transaction failed: " +++ err)),
                         snd out4)
                    | None =>
                        (Returned (mkTxResult signature (conf_slot confirmation)
                                              confirmation),
                         snd out4)
                    end
                end
            end
        end
    end.
Proof.
  intros H. unfold executeTransaction_operation.
  unfold bind at 1.
  pose proof (rpc_effect (CallGetLatestBlockhash c) (rpc_getLatestBlockhash c) s)
    as [Hh1 _].
  destruct (rpc (CallGetLatestBlockhash c) (rpc_getLatestBlockhash c) s)
    as [[bh|e] s1]; cbn [fst snd] in *; [|reflexivity].
  assert (H1 : nth_error (heap s1) transaction = Some t) by (rewrite Hh1; exact H).
  rewrite <- Hh1. clear Hh1 H s.
  unfold bind at 1. rewrite (tx_modify_some _ _ _ _ H1).
  erewrite budget_step
    by (cbn [heap set_heap]; eapply nth_error_replace_nth; exact H1).
  cbn [heap set_heap]. rewrite replace_nth_twice.
  change (instructions (set_blockhash bh t)) with (instructions t).
  set (t1 := set_instructions
               (instructions t ++ budget_instructions computeUnits priorityFee)
               (set_blockhash bh t)).
  change (set_heap (replace_nth transaction t1 (heap s1))
            (set_heap (replace_nth transaction (set_blockhash bh t) (heap s1)) s1))
    with (set_heap (replace_nth transaction t1 (heap s1)) s1).
  assert (H2 : nth_error (heap (set_heap (replace_nth transaction t1 (heap s1)) s1))
                         transaction = Some t1).
  { cbn [heap set_heap]. eapply nth_error_replace_nth. exact H1. }
  unfold Transaction_sign_in_place.
  unfold bind at 1. unfold bind at 1.
  rewrite (tx_get_some _ _ _ H2).
  unfold bind at 1. unfold lift at 1.
  destruct (Transaction_sign t1 signers) as [sigs|e]; [|reflexivity].
  rewrite (tx_modify_some _ _ _ _ H2).
  cbn [heap set_heap]. rewrite replace_nth_twice.
  change (set_heap (replace_nth transaction (set_signatures sigs t1) (heap s1))
            (set_heap (replace_nth transaction t1 (heap s1)) s1))
    with (set_heap (replace_nth transaction (set_signatures sigs t1) (heap s1)) s1).
  unfold bind at 1.
  erewrite tx_get_some
    by (cbn [heap set_heap]; eapply nth_error_replace_nth; exact H1).
  cbv zeta.
  unfold bind at 1.
  destruct (rpc (CallSendTransaction c (set_signatures sigs t1) _) _ _)
    as [[signature|e] s3]; cbn [fst snd]; [|reflexivity].
  unfold bind at 1.
  destruct (rpc (CallConfirmTransaction c signature _ _) _ s3)
    as [[confirmation|e] s4]; cbn [fst snd]; [|reflexivity].
  destruct (conf_err confirmation); reflexivity.
Qed.

Lemma wire_set_heap (h : list Transaction) (s : St R) :
  wire (set_heap h s) = wire s.
Proof. reflexivity. Qed.

Lemma heap_set_heap (h : list Transaction) (s : St R) : heap (set_heap h s) = h.
Proof. reflexivity. Qed.

Lemma submitted_app (w1 w2 : list RpcCall) :
  submitted (w1 ++ w2) = submitted w1 ++ submitted w2.
Proof. unfold submitted. apply flat_map_app. Qed.

Lemma stamped_app (w1 w2 : list RpcCall) :
  stamped (w1 ++ w2) = stamped w1 ++ stamped w2.
Proof. unfold stamped. apply flat_map_app. Qed.

(** What one attempt does to the transaction object and to the wire.
    When the blockhash cannot be fetched nothing else happens.  Otherwise
    the object is stamped with the blockhash just fetched and its
    instructions grow by [budget_instructions]; if signing succeeds, that
    sequence is submitted, once. *)
Lemma executeTransaction_operation_effect (transaction : TxRef)
    (signers : list Keypair) (computeUnits priorityFee : Z)
    (skipPreflight : bool) (maxRetries : Z) (c : Connection)
    (s : St R) (t : Transaction) :
  nth_error (heap s) transaction = Some t ->
  let out := executeTransaction_operation transaction signers computeUnits
               priorityFee skipPreflight maxRetries c s in
  let augmented := instructions t ++ budget_instructions computeUnits priorityFee in
  match fst (rpc (CallGetLatestBlockhash c) (rpc_getLatestBlockhash c) s) with
  | Threw e =>
      fst out = Threw e /\ heap (snd out) = heap s /\
      submitted (wire (snd out)) = submitted (wire s) /\
      stamped (wire (snd out)) = stamped (wire s)
  | Returned bh =>
      let t1 := set_instructions augmented (set_blockhash bh t) in
      match Transaction_sign t1 signers with
      | Threw e =>
          fst out = Threw e /\
          nth_error (heap (snd out)) transaction = Some t1 /\
          submitted (wire (snd out)) = submitted (wire s) /\
          stamped (wire (snd out)) = stamped (wire s)
      | Returned sigs =>
          nth_error (heap (snd out)) transaction = Some (set_signatures sigs t1) /\
          submitted (wire (snd out)) = submitted (wire s) ++ [augmented] /\
          stamped (wire (snd out)) = stamped (wire s) ++ [Some (blockhash bh)]
      end
  end.
Proof.
  intros H out augmented. subst out.
  rewrite (executeTransaction_operation_unfold _ _ _ _ _ _ _ _ _ H). cbv zeta.
  pose proof (rpc_effect (CallGetLatestBlockhash c) (rpc_getLatestBlockhash c) s)
    as [Hh1 Hw1].
  destruct (rpc (CallGetLatestBlockhash c) (rpc_getLatestBlockhash c) s)
    as [[bh|e] s1]; cbn [fst snd] in *.
  2:{ rewrite Hw1, submitted_app, stamped_app. cbn. rewrite !app_nil_r. auto. }
  fold augmented.
  set (t1 := set_instructions augmented (set_blockhash bh t)).
  destruct (Transaction_sign t1 signers) as [sigs|e].
  2:{ cbn [fst snd]. rewrite wire_set_heap, heap_set_heap, Hw1, submitted_app, stamped_app.
      cbn. rewrite !app_nil_r. repeat split.
      eapply nth_error_replace_nth. exact H. }
  set (t2 := set_signatures sigs t1).
  set (opts := mkSendOptions skipPreflight maxRetries "confirmed").
  set (s2 := set_heap (replace_nth transaction t2 (heap s)) s1).
  pose proof (rpc_effect (CallSendTransaction c t2 opts)
                (rpc_sendTransaction c t2 opts) s2) as [Hh3 Hw3].
  assert (Hfinal : forall s' : St R, heap s' = heap s2 ->
            wire s' = wire s2 ++ [CallSendTransaction c t2 opts] ->
            nth_error (heap s') transaction = Some t2 /\
            submitted (wire s') = submitted (wire s) ++ [augmented] /\
            stamped (wire s') = stamped (wire s) ++ [Some (blockhash bh)]).
  { intros s' Hh Hw. rewrite Hh, Hw. subst s2.
    rewrite wire_set_heap, heap_set_heap, Hw1, !submitted_app, !stamped_app. cbn. rewrite !app_nil_r.
    repeat split. eapply nth_error_replace_nth. exact H. }
  destruct (rpc (CallSendTransaction c t2 opts) (rpc_sendTransaction c t2 opts) s2)
    as [[signature|e] s3]; cbn [fst snd] in *; [|apply Hfinal; assumption].
  match goal with |- context [rpc ?call ?aw s3] =>
    pose proof (rpc_effect call aw s3) as [Hh4 Hw4];
    destruct (rpc call aw s3) as [[confirmation|e] s4]
  end; cbn [fst snd] in *.
  - assert (H4 : nth_error (heap s4) transaction = Some t2 /\
                 submitted (wire s4) = submitted (wire s) ++ [augmented] /\
                 stamped (wire s4) = stamped (wire s) ++ [Some (blockhash bh)]).
    { destruct (Hfinal s3 Hh3 Hw3) as (Ha & Hb & Hc).
      rewrite Hh4, Hw4, submitted_app, stamped_app. cbn. rewrite !app_nil_r. auto. }
    destruct (conf_err confirmation); exact H4.
  - destruct (Hfinal s3 Hh3 Hw3) as (Ha & Hb & Hc).
    rewrite Hh4, Hw4, submitted_app, stamped_app. cbn. rewrite !app_nil_r. auto.
Qed.

(** An invariant of the operation and of the sleeps is an invariant of
    the retry executor, and a returned value was returned by an invocation
    of the operation in a state where the invariant held. *)
Lemma retry_loop_invariant {V} (operation : Connection -> M R V) (n : Z)
    (I : St R -> Prop) :
  (forall c s, I s -> I (snd (operation c s))) ->
  (forall delay s, I s -> I (snd (sleep delay s))) ->
  forall attempts lastError s, I s ->
    I (snd (retry_loop operation n attempts lastError s)) /\
    forall v, fst (retry_loop operation n attempts lastError s) = LoopReturn v ->
      exists s0, I s0 /\
        operation (connection (mgr s0)) s0
        = (Returned v, snd (retry_loop operation n attempts lastError s)).
Proof.
  intros Hop Hsl.
  induction attempts as [|k rest IH]; intros lastError s Hs; simpl.
  { split; [exact Hs | discriminate]. }
  unfold attempt_try.
  destruct (negb (isHealthy (mgr s))).
  - destruct (k =? n); [split; [exact Hs | discriminate]|].
    apply IH, Hsl, Hs.
  - pose proof (Hop (connection (mgr s)) s Hs) as Hs1.
    destruct (operation (connection (mgr s)) s) as [[v|e] s1] eqn:E; cbn [snd] in Hs1.
    + split; [exact Hs1|]. intros v' Hv. injection Hv as <-.
      exists s. split; [exact Hs | exact E].
    + destruct (k =? n); [split; [exact Hs1 | discriminate]|].
      apply IH, Hsl, Hs1.
Qed.

Lemma executeWithRetry_invariant {V} (operation : Connection -> M R V)
    (maxRetries_arg : option Z) (I : St R -> Prop) (s : St R) :
  (forall c s0, I s0 -> I (snd (operation c s0))) ->
  (forall delay s0, I s0 -> I (snd (sleep delay s0))) ->
  I s ->
  I (snd (executeWithRetry operation maxRetries_arg s)) /\
  forall v, fst (executeWithRetry operation maxRetries_arg s) = Returned v ->
    exists s0, I s0 /\
      operation (connection (mgr s0)) s0
      = (Returned v, snd (executeWithRetry operation maxRetries_arg s)).
Proof.
  intros Hop Hsl Hs. unfold executeWithRetry.
  set (n := or_default maxRetries_arg (retryAttempts (mgr s))).
  destruct (retry_loop_invariant operation n I Hop Hsl (attempt_numbers n) None s Hs)
    as [Hinv Hret].
  destruct (retry_loop operation n (attempt_numbers n) None s) as [x s'].
  cbn [fst snd] in *. split; [exact Hinv|].
  intros v Hv. destruct x as [v'|[e|]]; try discriminate.
  injection Hv as <-. apply Hret. reflexivity.
Qed.

(** [executeTransaction] changes the state as its call of the retry
    executor does, and returns what that call returns. *)
Lemma executeTransaction_unfold (transaction : TxRef) (signers : list Keypair)
    (options : Options) (s : St R) :
  let inner :=
    executeWithRetry
      (executeTransaction_operation transaction signers
         (or_default (o_computeUnits options) 200000)
         (or_default (o_priorityFee options) 0)
         (or_default (o_skipPreflight options) false)
         (or_default (o_maxRetries options) 3))
      None s in
  executeTransaction transaction signers options s
  = match fst inner with
    | Returned r => (Returned r, snd inner)
    | Threw e => (Threw (transaction_execution_error e), snd inner)
    end.
Proof.
  intros inner. unfold executeTransaction, try_catch. fold inner.
  destruct inner as [[r|e] s']; reflexivity.
Qed.

(** With the default budget an attempt leaves the instructions of the
    transaction object as they are and submits nothing else. *)
Lemma default_budget_attempt (transaction : TxRef) (signers : list Keypair)
    (priorityFee : Z) (skipPreflight : bool) (maxRetries : Z) (c : Connection)
    (l : list TransactionInstruction) (w0 : list (list TransactionInstruction))
    (s : St R) :
  priorityFee <= 0 ->
  let out := executeTransaction_operation transaction signers 200000 priorityFee
               skipPreflight maxRetries c s in
  ((exists t, nth_error (heap s) transaction = Some t /\ instructions t = l) /\
   exists k, submitted (wire s) = w0 ++ repeat l k) ->
  ((exists t, nth_error (heap (snd out)) transaction = Some t /\ instructions t = l) /\
   exists k, submitted (wire (snd out)) = w0 ++ repeat l k /\
             (forall r, fst out = Returned r -> (1 <= k)%nat)).
Proof.
  intros Hpf out [(t & Ht & Hl) (k & Hk)].
  pose proof (executeTransaction_operation_effect transaction signers 200000
                priorityFee skipPreflight maxRetries c s t Ht) as H.
  cbv zeta in H. fold out in H.
  assert (Hb : budget_instructions 200000 priorityFee = []).
  { unfold budget_instructions. cbn [Z.eqb Pos.eqb negb app].
    destruct (Z.ltb_spec 0 priorityFee); [lia | reflexivity]. }
  rewrite Hb, app_nil_r in H.
  destruct (fst (rpc (CallGetLatestBlockhash c) (rpc_getLatestBlockhash c) s))
    as [bh|e].
  - destruct (Transaction_sign _ signers) as [sigs|e].
    + destruct H as (H1 & H2 & _). split.
      * eexists. split; [exact H1 | exact Hl].
      * exists (S k). split; [|intros; lia].
        rewrite H2, Hk, Hl, <- app_assoc, <- repeat_cons. reflexivity.
    + destruct H as (H0 & H1 & H2 & _). split.
      * eexists. split; [exact H1 | exact Hl].
      * exists k. split; [rewrite H2; exact Hk|].
        intros r Hr. rewrite H0 in Hr. discriminate.
  - destruct H as (H0 & H1 & H2 & _). split.
    + exists t. split; [rewrite H1; exact Ht | exact Hl].
    + exists k. split; [rewrite H2; exact Hk|].
      intros r Hr. rewrite H0 in Hr. discriminate.
Qed.

Lemma rpc_result {A} (c : RpcCall) (call : Await R (Res A)) (s : St R) :
  fst (rpc c call s) = fst (fst (call (env s))).
Proof.
  unfold rpc, await. cbn [env set_wire].
  destruct (call (env s)) as [[r evs] e']. reflexivity.
Qed.

(** C5.  Budget augmentation, per attempt.  [appended] is what an attempt
    adds behind the instructions the transaction holds:
    - nothing for [computeUnits = 200000] and [priorityFee <= 0];
    - exactly one compute-unit instruction for another [computeUnits];
    - exactly one priority-fee instruction for [priorityFee > 0], behind
      the compute-unit instruction when both are there.
    What an attempt does, case by case: when the blockhash request fails
    the attempt throws that error and leaves transaction and wire alone;
    when it is answered the transaction object holds its former
    instructions followed by [appended]; and when that transaction can be
    signed, exactly that sequence is submitted, once.  So an attempt
    submits at most once, and an attempt that returns has submitted.
    With instructions [A; B] and the default budget, every submission of
    a whole [executeTransaction] call is exactly [A; B], a call that
    returns has submitted at least once, and the transaction still holds
    [A; B]. *)
Theorem executeTransaction_budget_augmentation (transaction : TxRef)
    (signers : list Keypair) (computeUnits priorityFee : Z)
    (skipPreflight : bool) (maxRetries : Z) (c : Connection)
    (s : St R) (t : Transaction) :
  nth_error (heap s) transaction = Some t ->
  let out := executeTransaction_operation transaction signers computeUnits
               priorityFee skipPreflight maxRetries c s in
  let appended := budget_instructions computeUnits priorityFee in
  appended
  = match computeUnits =? 200000, 0 <? priorityFee with
    | true, false => []
    | false, false => [computeUnitInstruction computeUnits]
    | true, true => [priorityFeeInstruction priorityFee]
    | false, true => [computeUnitInstruction computeUnits;
                      priorityFeeInstruction priorityFee]
    end /\
  match fst (fst (rpc_getLatestBlockhash c (env s))) with
  | Threw e =>
      fst out = Threw e /\ heap (snd out) = heap s /\
      submitted (wire (snd out)) = submitted (wire s)
  | Returned bh =>
      let t1 := set_instructions (instructions t ++ appended) (set_blockhash bh t) in
      match Transaction_sign t1 signers with
      | Threw e =>
          fst out = Threw e /\
          nth_error (heap (snd out)) transaction = Some t1 /\
          submitted (wire (snd out)) = submitted (wire s)
      | Returned sigs =>
          nth_error (heap (snd out)) transaction = Some (set_signatures sigs t1) /\
          submitted (wire (snd out))
          = submitted (wire s) ++ [instructions t ++ appended]
      end
  end /\
  (submitted (wire (snd out)) = submitted (wire s) \/
   submitted (wire (snd out)) = submitted (wire s) ++ [instructions t ++ appended]) /\
  (forall r, fst out = Returned r ->
     submitted (wire (snd out)) = submitted (wire s) ++ [instructions t ++ appended]) /\
  (forall A B options,
     instructions t = [A; B] ->
     or_default (o_computeUnits options) 200000 = 200000 ->
     or_default (o_priorityFee options) 0 = 0 ->
     let out' := executeTransaction transaction signers options s in
     (exists k, submitted (wire (snd out')) = submitted (wire s) ++ repeat [A; B] k /\
                (forall r, fst out' = Returned r -> (1 <= k)%nat)) /\
     (exists t', nth_error (heap (snd out')) transaction = Some t' /\
                 instructions t' = [A; B])).
Proof.
  intros Ht out appended.
  pose proof (executeTransaction_operation_effect transaction signers computeUnits
                priorityFee skipPreflight maxRetries c s t Ht) as H.
  cbv zeta in H. fold out appended in H. rewrite rpc_result in H.
  split; [|split; [|split; [|split]]].
  - unfold appended, budget_instructions.
    destruct (computeUnits =? 200000), (0 <? priorityFee); reflexivity.
  - destruct (fst (fst (rpc_getLatestBlockhash c (env s)))) as [bh|e];
      [cbv zeta; destruct (Transaction_sign _ _)|]; intuition.
  - destruct (fst (fst (rpc_getLatestBlockhash c (env s)))) as [bh|e];
      [destruct (Transaction_sign _ _)|]; intuition.
  - intros r Hr.
    destruct (fst (fst (rpc_getLatestBlockhash c (env s)))) as [bh|e];
      [destruct (Transaction_sign _ _)|].
    + intuition.
    + destruct H as (H0 & _). rewrite H0 in Hr. discriminate.
    + destruct H as (H0 & _). rewrite H0 in Hr. discriminate.
  - intros A B options HAB Hcu Hpf out'.
    set (J := fun s0 : St R =>
                (exists t0, nth_error (heap s0) transaction = Some t0 /\
                            instructions t0 = [A; B]) /\
                exists k, submitted (wire s0) = submitted (wire s) ++ repeat [A; B] k).
    assert (HJ : J s).
    { split; [exists t; auto | exists 0%nat; cbn; rewrite app_nil_r; reflexivity]. }
    subst out'. rewrite executeTransaction_unfold. cbv zeta. rewrite Hcu, Hpf.
    set (op := executeTransaction_operation transaction signers 200000 0
                 (or_default (o_skipPreflight options) false)
                 (or_default (o_maxRetries options) 3)).
    destruct (executeWithRetry_invariant op None J s) as [Hfin Hret]; auto.
    { intros c0 s0 Hs0.
      destruct (default_budget_attempt transaction signers 0
                  (or_default (o_skipPreflight options) false)
                  (or_default (o_maxRetries options) 3) c0 [A; B]
                  (submitted (wire s)) s0 ltac:(lia) Hs0) as [H1 (k & H2 & _)].
      split; [exact H1 | exists k; exact H2]. }
    { intros delay s0 [(t0 & Ht0 & Hl0) (k & Hk)].
      destruct (sleep_frame delay s0) as (_ & _ & _ & _ & _ & _ & Hh & Hw & _).
      split; [exists t0; rewrite Hh; auto | exists k; rewrite Hw; exact Hk]. }
    destruct (executeWithRetry op None s) as [[r|e] s'] eqn:E; cbn [fst snd] in *.
    + destruct (Hret r eq_refl) as (s0 & Hs0 & Hop).
      destruct (default_budget_attempt transaction signers 0
                  (or_default (o_skipPreflight options) false)
                  (or_default (o_maxRetries options) 3) (connection (mgr s0)) [A; B]
                  (submitted (wire s)) s0 ltac:(lia) Hs0) as [H1 (k & H2 & H3)].
      fold op in H1, H2, H3. rewrite Hop in H1, H2, H3. cbn [fst snd] in *.
      split; [|exact H1].
      exists k. split; [exact H2|]. intros _ _. apply (H3 r). reflexivity.
    + destruct Hfin as [H1 (k & H2)]. split; [|exact H1].
      exists k. split; [exact H2 | discriminate].
Qed.

(** An attempt returns only what a clean confirmation gave it. *)
Lemma executeTransaction_operation_returns (transaction : TxRef)
    (signers : list Keypair) (computeUnits priorityFee : Z)
    (skipPreflight : bool) (maxRetries : Z) (c : Connection)
    (s : St R) (t : Transaction) (r : TxResult) :
  nth_error (heap s) transaction = Some t ->
  fst (executeTransaction_operation transaction signers computeUnits priorityFee
         skipPreflight maxRetries c s) = Returned r ->
  conf_err (r_confirmation r) = None /\
  exists signature bh height r0,
    fst (fst (rpc_confirmTransaction c signature bh height r0))
    = Returned (r_confirmation r).
Proof.
  intros H. rewrite (executeTransaction_operation_unfold _ _ _ _ _ _ _ _ _ H).
  cbv zeta.
  destruct (fst (rpc (CallGetLatestBlockhash c) _ s)) as [bh|e]; [|discriminate].
  destruct (Transaction_sign _ signers) as [sigs|e]; [|discriminate].
  destruct (fst (rpc (CallSendTransaction c _ _) _ _)) as [signature|e];
    [|discriminate].
  rewrite rpc_result.
  match goal with |- context [rpc_confirmTransaction ?a ?b ?c0 ?d ?e] =>
    destruct (fst (fst (rpc_confirmTransaction a b c0 d e))) as [conf|e'] eqn:E
  end; [|discriminate].
  destruct (conf_err conf) eqn:Ec; [discriminate|].
  cbn [fst]. intros Hr. injection Hr as <-. cbn [r_confirmation].
  split; [exact Ec|]. eauto.
Qed.

(** A transaction object stays on the heap through an attempt. *)
Lemma executeTransaction_operation_keeps (transaction : TxRef)
    (signers : list Keypair) (computeUnits priorityFee : Z)
    (skipPreflight : bool) (maxRetries : Z) (c : Connection) (s : St R) :
  (exists t, nth_error (heap s) transaction = Some t) ->
  exists t, nth_error
              (heap (snd (executeTransaction_operation transaction signers
                            computeUnits priorityFee skipPreflight maxRetries c s)))
              transaction = Some t.
Proof.
  intros [t Ht].
  pose proof (executeTransaction_operation_effect transaction signers computeUnits
                priorityFee skipPreflight maxRetries c s t Ht) as H.
  cbv zeta in H.
  destruct (fst (rpc _ _ s)) as [bh|e]; [destruct (Transaction_sign _ _)|].
  - destruct H as (H1 & _). eauto.
  - destruct H as (_ & H1 & _). eauto.
  - destruct H as (_ & H1 & _). rewrite H1. eauto.
Qed.

(** When no confirmation is clean, [executeTransaction] throws. *)
Lemma executeTransaction_never_confirmed (transaction : TxRef)
    (signers : list Keypair) (options : Options) (s : St R) (t : Transaction) :
  nth_error (heap s) transaction = Some t ->
  (forall c signature bh height r0 conf,
     fst (fst (rpc_confirmTransaction c signature bh height r0)) = Returned conf ->
     conf_err conf <> None) ->
  exists e0,
    fst (executeTransaction transaction signers options s)
    = Threw (transaction_execution_error e0).
Proof.
  intros Ht Hconf. rewrite executeTransaction_unfold. cbv zeta.
  set (op := executeTransaction_operation transaction signers _ _ _ _).
  destruct (executeWithRetry_invariant op None
              (fun s0 => exists t0, nth_error (heap s0) transaction = Some t0) s)
    as [_ Hret].
  - intros c s0 Hs0. apply executeTransaction_operation_keeps. exact Hs0.
  - intros delay s0 [t0 Ht0].
    destruct (sleep_frame delay s0) as (_ & _ & _ & _ & _ & _ & Hh & _).
    exists t0. rewrite Hh. exact Ht0.
  - eauto.
  - destruct (fst (executeWithRetry op None s)) as [r|e0]; [|eexists; reflexivity].
    exfalso. destruct (Hret r eq_refl) as (s0 & [t0 Ht0] & Hop).
    unfold op in Hop.
    destruct (executeTransaction_operation_returns _ _ _ _ _ _ _ _ _ r Ht0
                ltac:(rewrite Hop; reflexivity))
      as (Hnone & sg & bh & h & r0 & Hc).
    exact (Hconf _ _ _ _ _ _ Hc Hnone).
Qed.

End TransactionFacts.

(** ** Claims on the transaction manager and the account manager *)

Section ManagerClaims.

Context {R : Type} {RT : Runtime R}.

(** C6 (as amended).  [executeTransaction] has one error condition.
    - An attempt that reaches confirmation fails with the error of
      [confirmTransaction] when that call throws (polling ran out), fails
      with ["Transaction failed: <payload>"] when the ledger reports an
      error, and returns only on a confirmation without error.
    - Both failures are retried like any other: on a healthy link a
      throwing attempt ends the loop if it was attempt [n], and otherwise
      the loop sleeps and goes on to the next attempt.
    - Every failure the call raises is a [SolanaToolkitError] with code
      [TRANSACTION_EXECUTION_ERROR] wrapping the error the retry executor
      threw, which for [retryAttempts >= 1] is its [OPERATION_FAILED];
      a value the call returns is the one the executor returned.
    - When every attempt fails on a healthy link (an invariant [I]) with
      an error in [Q], the operation is invoked [n = retryAttempts] times
      and the call raises that code around the executor's error around an
      error in [Q]: the outcomes differ in the embedded message only.
    - In particular a ledger whose confirmations always run out and one
      that always reports an error both end in that code. *)
Theorem executeTransaction_one_error_code (transaction : TxRef)
    (signers : list Keypair) (options : Options) (s : St R) (t : Transaction) :
  nth_error (heap s) transaction = Some t ->
  let computeUnits := or_default (o_computeUnits options) 200000 in
  let priorityFee := or_default (o_priorityFee options) 0 in
  let skipPreflight := or_default (o_skipPreflight options) false in
  let maxRetries := or_default (o_maxRetries options) 3 in
  let op := executeTransaction_operation transaction signers computeUnits
              priorityFee skipPreflight maxRetries in
  let out := executeTransaction transaction signers options s in
  (forall c (s0 s3 : St R) t0 bh sigs signature,
     nth_error (heap s0) transaction = Some t0 ->
     let out1 := rpc (CallGetLatestBlockhash c) (rpc_getLatestBlockhash c) s0 in
     let t1 := set_instructions
                 (instructions t0 ++ budget_instructions computeUnits priorityFee)
                 (set_blockhash bh t0) in
     let t2 := set_signatures sigs t1 in
     let opts := mkSendOptions skipPreflight maxRetries "confirmed" in
     fst out1 = Returned bh ->
     Transaction_sign t1 signers = Returned sigs ->
     rpc (CallSendTransaction c t2 opts) (rpc_sendTransaction c t2 opts)
         (set_heap (replace_nth transaction t2 (heap s0)) (snd out1))
     = (Returned signature, s3) ->
     fst (op c s0)
     = match fst (fst (rpc_confirmTransaction c signature (blockhash bh)
                         (bh_lastValidBlockHeight bh) (env s3))) with
       | Threw e => Threw e
       | Returned confirmation =>
           match conf_err confirmation with
           | Some payload =>
               Threw (JsError "Error" ("Transaction failed: " +++ payload))
           | None =>
               Returned (mkTxResult signature (conf_slot confirmation) confirmation)
           end
       end) /\
  (forall n k rest lastError (s0 s1 : St R) e,
     isHealthy (mgr s0) = true ->
     op (connection (mgr s0)) s0 = (Threw e, s1) ->
     retry_loop op n (k :: rest) lastError s0
     = if k =? n then (LoopDone (Some e), s1)
       else retry_loop op n rest (Some e)
              (snd (sleep (backoff_delay (retryDelay (mgr s1)) k) s1))) /\
  (forall e, fst out = Threw e ->
     exn_code e = Some "TRANSACTION_EXECUTION_ERROR" /\
     exn_name e = "SolanaToolkitError" /\
     exists e0,
       fst (executeWithRetry op None s) = Threw e0 /\
       e = SolanaToolkitError ("Failed to execute transaction: " +++ exn_message e0)
                              "TRANSACTION_EXECUTION_ERROR"
                              [("error", JStr (exn_message e0))] /\
       (1 <= retryAttempts (mgr s) ->
        exists lastError, e0 = operation_failed (retryAttempts (mgr s)) lastError)) /\
  (forall r, fst out = Returned r ->
     fst (executeWithRetry op None s) = Returned r) /\
  (forall (I : St R -> Prop) (Q : Exn -> Prop) n,
     retryAttempts (mgr s) = n -> 1 <= n -> I s ->
     (forall s0, I s0 -> isHealthy (mgr s0) = true) ->
     (forall c s0, I s0 -> I (snd (op c s0))) ->
     (forall delay s0, I s0 -> I (snd (sleep delay s0))) ->
     (forall c s0, I s0 -> exists e, fst (op c s0) = Threw e /\ Q e) ->
     n_invoked (snd (executeWithRetry_tr op None s)) = Z.to_nat n /\
     exists e, Q e /\
       fst out
       = Threw (SolanaToolkitError
                  ("Failed to execute transaction: "
                     +++ exn_message (operation_failed n e))
                  "TRANSACTION_EXECUTION_ERROR"
                  [("error", JStr (exn_message (operation_failed n e)))])) /\
  ((forall c signature bh height r0,
      exists e, fst (fst (rpc_confirmTransaction c signature bh height r0)) = Threw e) ->
   exists e, fst out = Threw e /\ exn_code e = Some "TRANSACTION_EXECUTION_ERROR") /\
  ((forall c signature bh height r0,
      exists slot payload,
        fst (fst (rpc_confirmTransaction c signature bh height r0))
        = Returned (mkConfirmation slot (Some payload))) ->
   exists e, fst out = Threw e /\ exn_code e = Some "TRANSACTION_EXECUTION_ERROR") /\
  (forall c s0 t0 r computeUnits0 priorityFee0 skipPreflight0 maxRetries0,
     nth_error (heap s0) transaction = Some t0 ->
     fst (executeTransaction_operation transaction signers computeUnits0 priorityFee0
            skipPreflight0 maxRetries0 c s0) = Returned r ->
     conf_err (r_confirmation r) = None).
Proof.
  intros Ht computeUnits priorityFee skipPreflight maxRetries op out.
  assert (Hout : out = match fst (executeWithRetry op None s) with
                       | Returned r => (Returned r, snd (executeWithRetry op None s))
                       | Threw e =>
                           (Threw (transaction_execution_error e),
                            snd (executeWithRetry op None s))
                       end).
  { unfold out. rewrite executeTransaction_unfold. reflexivity. }
  split; [|split; [|split; [|split; [|split; [|split; [|split]]]]]].
  - intros c s0 s3 t0 bh sigs signature Ht0 out1 t1 t2 opts Hbh Hsign Hsend.
    unfold op.
    rewrite (executeTransaction_operation_unfold _ _ _ _ _ _ _ _ _ Ht0). cbv zeta.
    fold out1. rewrite Hbh. fold t1. rewrite Hsign. fold t2 opts.
    rewrite Hsend. cbn [fst snd]. rewrite rpc_result.
    destruct (fst (fst (rpc_confirmTransaction c signature (blockhash bh)
                          (bh_lastValidBlockHeight bh) (env s3))))
      as [confirmation|e]; [|reflexivity].
    destruct (conf_err confirmation); reflexivity.
  - intros n k rest lastError s0 s1 e Hh Hop.
    simpl. unfold attempt_try. rewrite Hh, Hop. reflexivity.
  - intros e He. rewrite Hout in He.
    destruct (fst (executeWithRetry op None s)) as [r|e0] eqn:E; cbn [fst] in He;
      [discriminate|].
    injection He as <-. repeat split. exists e0. repeat split.
    intros Hn. apply (executeWithRetry_throws op (retryAttempts (mgr s)) s e0 Hn).
    exact E.
  - intros r Hr. rewrite Hout in Hr.
    destruct (fst (executeWithRetry op None s)) as [r0|e0]; cbn [fst] in Hr;
      [exact Hr | discriminate].
  - intros I Q n Hn Hn1 Hs HI Hop Hsl Hfail.
    destruct (executeWithRetry_tr_all_threw op n I Q s Hn1 Hs HI Hop Hsl Hfail)
      as (Hc & e & HQ & _ & Hres).
    assert (Hsame : executeWithRetry_tr op None s = executeWithRetry_tr op (Some n) s).
    { unfold executeWithRetry_tr, or_default. rewrite Hn. reflexivity. }
    rewrite Hsame. split; [exact Hc|].
    exists e. split; [exact HQ|].
    rewrite Hout, <- executeWithRetry_tr_erase, Hsame, Hres. reflexivity.
  - intros Hto.
    destruct (executeTransaction_never_confirmed transaction signers options s t Ht)
      as [e0 He0].
    + intros c sg bh h r0 conf Hc. destruct (Hto c sg bh h r0) as [e He].
      rewrite He in Hc. discriminate.
    + eexists. split; [exact He0 | reflexivity].
  - intros Hrej.
    destruct (executeTransaction_never_confirmed transaction signers options s t Ht)
      as [e0 He0].
    + intros c sg bh h r0 conf Hc. destruct (Hrej c sg bh h r0) as (slot & p & He).
      rewrite He in Hc. injection Hc as <-. discriminate.
    + eexists. split; [exact He0 | reflexivity].
  - intros c s0 t0 r cu pf sk mr Ht0 Hr.
    apply (executeTransaction_operation_returns _ _ _ _ _ _ _ _ _ r Ht0 Hr).
Qed.

(** X19.  The retry executor treats every failure of the operation
    alike: when the operation throws [e] on a healthy link, the loop stops
    if this was attempt [n] and otherwise sleeps and goes on to the next
    attempt, for every [e].  So when the queried account is absent on a
    healthy link (an invariant [I] under which the link is healthy and
    [getAccountInfo] of the ledger answers [null]), [getAccountInfo]
    invokes its operation [n = retryAttempts] times and what reaches the
    caller is [OPERATION_FAILED] with the not-found message embedded. *)
Theorem getAccountInfo_not_found_retried (n : Z) :
  (forall V (operation : Connection -> M R V) k rest lastError (s0 s1 : St R) e,
     isHealthy (mgr s0) = true ->
     operation (connection (mgr s0)) s0 = (Threw e, s1) ->
     retry_loop operation n (k :: rest) lastError s0
     = if k =? n then (LoopDone (Some e), s1)
       else retry_loop operation n rest (Some e)
              (snd (sleep (backoff_delay (retryDelay (mgr s1)) k) s1))) /\
  (forall (publicKey0 : string) (pubKey : PublicKey) (I : St R -> Prop) (s : St R),
     PublicKey_new publicKey0 = Returned pubKey ->
     retryAttempts (mgr s) = n ->
     1 <= n ->
     I s ->
     (forall s0, I s0 -> isHealthy (mgr s0) = true) ->
     (forall c s0, I s0 ->
        fst (fst (rpc_getAccountInfo c pubKey (env s0))) = Returned None) ->
     (forall c s0, I s0 -> I (snd (getAccountInfo_operation pubKey c s0))) ->
     (forall delay s0, I s0 -> I (snd (sleep delay s0))) ->
     n_invoked (snd (executeWithRetry_tr (getAccountInfo_operation pubKey) None s))
     = Z.to_nat n /\
     fst (getAccountInfo publicKey0 s)
     = Threw (SolanaToolkitError
                ("Operation failed after " +++ string_of_Z n
                   +++ " attempts: Account not found")
                "OPERATION_FAILED"
                [("maxRetries", JNum n); ("lastError", JStr "Account not found")])).
Proof.
  split.
  { intros V operation k rest lastError s0 s1 e Hh Hop.
    simpl. unfold attempt_try. rewrite Hh, Hop. reflexivity. }
  intros publicKey0 pubKey I s Hpk Hn Hn1 Hs HI Habs Hop Hsl.
  destruct (executeWithRetry_tr_all_threw (getAccountInfo_operation pubKey) n I
              (fun e => e = account_not_found pubKey) s Hn1 Hs HI Hop Hsl)
    as (Hc & e & -> & _ & Hres).
  { intros c s0 Hs0. exists (account_not_found pubKey). split; [|reflexivity].
    unfold getAccountInfo_operation, bind.
    pose proof (rpc_result (CallGetAccountInfo c pubKey)
                  (rpc_getAccountInfo c pubKey) s0) as Hr.
    rewrite (Habs c s0 Hs0) in Hr.
    destruct (rpc (CallGetAccountInfo c pubKey) (rpc_getAccountInfo c pubKey) s0)
      as [r s1]. cbn [fst] in Hr. subst r. reflexivity. }
  assert (Hsame : executeWithRetry_tr (getAccountInfo_operation pubKey) None s
                  = executeWithRetry_tr (getAccountInfo_operation pubKey) (Some n) s).
  { unfold executeWithRetry_tr, or_default. rewrite Hn. reflexivity. }
  rewrite Hsame. split; [exact Hc|].
  unfold getAccountInfo, try_catch, bind, lift. rewrite Hpk.
  rewrite <- executeWithRetry_tr_erase, Hsame.
  destruct (executeWithRetry_tr (getAccountInfo_operation pubKey) (Some n) s)
    as [[res s'] tr]. cbn [fst snd] in *. subst res. reflexivity.
Qed.

(** C9.  For [amount <= 0], [sendTransaction] raises
    [TRANSACTION_SEND_ERROR] wrapping the [INVALID_AMOUNT] message, with
    sender, receiver and amount in its context, and the state is what it
    was: no transaction was built, nothing reached the retry executor or
    the wire. *)
Theorem sendTransaction_rejects_amount (senderAccount : Keypair)
    (receiverAccount : string) (amount : Z) (options : Options) (s : St R) :
  amount <= 0 ->
  sendTransaction senderAccount receiverAccount amount options s
  = (Threw (SolanaToolkitError
              "Failed to send transaction: Transaction amount must be greater than 0"
              "TRANSACTION_SEND_ERROR"
              [("sender", JStr (toBase58 (publicKey senderAccount)));
               ("receiver", JStr receiverAccount);
               ("amount", JNum amount);
               ("error", JStr "Transaction amount must be greater than 0")]),
     s).
Proof.
  intros Ha. unfold sendTransaction, try_catch.
  destruct (Z.leb_spec amount 0); [reflexivity | lia].
Qed.

Lemma batch_loop_entries (transactions : list TxRef) (signers : list Keypair)
    (maxRetries : Z) :
  forall (i : Z) (results : list BatchEntry) (s : St R),
    fst (batch_loop transactions i signers maxRetries results s)
    = results ++ batch_entries transactions i signers maxRetries s.
Proof.
  induction transactions as [|t rest IH]; intros i results s; simpl.
  - rewrite app_nil_r. reflexivity.
  - destruct (executeTransaction t signers _ s) as [[r|e] s1]; cbn [fst snd entry_of];
      rewrite IH, <- app_assoc; reflexivity.
Qed.

Lemma batch_entries_shape (transactions : list TxRef) (signers : list Keypair)
    (maxRetries : Z) :
  forall (i : Z) (s : St R),
    let l := batch_entries transactions i signers maxRetries s in
    List.length l = List.length transactions /\
    map be_index l
    = map (fun k => i + Z.of_nat k) (seq 0 (List.length transactions)) /\
    Forall (fun e => (be_success e = true /\ be_result e <> None /\ be_error e = None)
                     \/ (be_success e = false /\ be_result e = None /\
                         be_error e <> None)) l.
Proof.
  induction transactions as [|t rest IH]; intros i s; simpl.
  - repeat split. constructor.
  - destruct (IH (i + 1) (snd (executeTransaction t signers
                {| o_memo := None; o_computeUnits := None; o_priorityFee := None;
                   o_skipPreflight := None; o_maxRetries := Some maxRetries |} s)))
      as (H1 & H2 & H3).
    split; [rewrite H1; reflexivity|]. split.
    + rewrite H2, <- seq_shift, map_map. f_equal.
      * destruct (fst (executeTransaction t signers _ s)); simpl; lia.
      * apply map_ext. intros k. lia.
    + constructor; [|exact H3].
      destruct (fst (executeTransaction t signers _ s)); simpl;
        [left | right]; repeat split; discriminate.
Qed.

Lemma filter_partition_length {A} (f : A -> bool) (l : list A) :
  (List.length (filter f l) + List.length (filter (fun a => negb (f a)) l))%nat
  = List.length l.
Proof.
  induction l as [|a l IH]; simpl; [reflexivity|].
  destruct (f a); simpl; lia.
Qed.

(** C10.  [batchTransactions] always returns.  Its [results] are the
    entries of the inputs in order, entry [i] having index [i]: each
    transaction is executed in the state its predecessor left, a failure
    becomes an entry with [success = false] and the error message, and the
    later transactions are still executed.  [total] is the number of
    inputs and equals [successful + failed]. *)
Theorem batchTransactions_aggregates (transactions : list TxRef)
    (signers : list Keypair) (options : Options) (s : St R) :
  exists summary,
    fst (batchTransactions transactions signers options s) = Returned summary /\
    bs_results summary
    = batch_entries transactions 0 signers (or_default (o_maxRetries options) 3) s /\
    List.length (bs_results summary) = List.length transactions /\
    map be_index (bs_results summary)
    = map Z.of_nat (seq 0 (List.length transactions)) /\
    Forall (fun e => (be_success e = true /\ be_result e <> None /\ be_error e = None)
                     \/ (be_success e = false /\ be_result e = None /\
                         be_error e <> None))
           (bs_results summary) /\
    bs_total summary = Z.of_nat (List.length transactions) /\
    bs_successful summary
    = Z.of_nat (List.length (filter be_success (bs_results summary))) /\
    bs_failed summary
    = Z.of_nat (List.length (filter (fun e => negb (be_success e))
                                    (bs_results summary))) /\
    bs_total summary = bs_successful summary + bs_failed summary.
Proof.
  unfold batchTransactions, try_catch.
  pose proof (batch_loop_entries transactions signers
                (or_default (o_maxRetries options) 3) 0 [] s) as Hl.
  destruct (batch_loop transactions 0 signers _ [] s) as [results s'].
  cbn [fst app] in Hl. subst results.
  destruct (batch_entries_shape transactions signers
              (or_default (o_maxRetries options) 3) 0 s) as (H1 & H2 & H3).
  eexists. split; [reflexivity|]. cbn [bs_results bs_total bs_successful bs_failed].
  split; [reflexivity|]. split; [exact H1|].
  split; [rewrite H2; apply map_ext; intros k; lia|].
  split; [exact H3|]. split; [reflexivity|]. split; [reflexivity|].
  split; [reflexivity|].
  rewrite <- Nat2Z.inj_add, filter_partition_length, H1. reflexivity.
Qed.

(** C3 (as amended).  A successful [switchNetwork] installs the new
    endpoint, commitment and connection and registers one more probe
    interval.  It leaves [isHealthy] and [lastHealthCheck] as they were
    and keeps every interval and every probe in flight: an interval
    registered before the switch still starts probes when it ticks,
    against the connection that is active then, and such a probe, like a
    probe that was in flight at the switch, writes the health flag when it
    settles. *)
Theorem switchNetwork_keeps_probes (newEndpoint : string)
    (newCommitment : option string) (s : St R) :
  let c := or_default newCommitment (commitment (mgr s)) in
  Connection_throws newEndpoint c = None ->
  let out := switchNetwork newEndpoint newCommitment s in
  let s' := snd out in
  fst out = Returned tt /\
  endpoint (mgr s') = newEndpoint /\
  commitment (mgr s') = c /\
  connection (mgr s') = mkConnection newEndpoint c /\
  isHealthy (mgr s') = isHealthy (mgr s) /\
  lastHealthCheck (mgr s') = lastHealthCheck (mgr s) /\
  intervals (loop s') = intervals (loop s) ++ [healthCheckInterval (mgr s)] /\
  inflight (loop s') = inflight (loop s) /\
  (forall i now, (i < List.length (intervals (loop s)))%nat ->
     inflight (loop (probe_tick i now s'))
     = inflight (loop s) ++ [mkProbe now (mkConnection newEndpoint c)]) /\
  (forall i now o, (i < List.length (intervals (loop s)))%nat ->
     isHealthy (mgr (probe_settle (List.length (inflight (loop s))) o
                                  (probe_tick i now s')))
     = match o with
       | SlotOk now_response _ => now_response - now <? 5000
       | SlotErr _ => false
       end) /\
  (forall p pr o, nth_error (inflight (loop s)) p = Some pr ->
     isHealthy (mgr (probe_settle p o s'))
     = match o with
       | SlotOk now_response _ => now_response - probe_startTime pr <? 5000
       | SlotErr _ => false
       end).
Proof.
  intros c Hok out s'.
  assert (Hout : out = (Returned tt,
            set_loop (mkLoop (intervals (loop s) ++ [healthCheckInterval (mgr s)])
                             (inflight (loop s)))
              (set_mgr (set_connection (mkConnection newEndpoint c)
                          (set_commitment c (set_endpoint newEndpoint (mgr s)))) s))).
  { unfold out, switchNetwork, initializeConnection.
    cbn [mgr set_mgr endpoint commitment set_commitment set_endpoint].
    fold c. rewrite Hok. reflexivity. }
  subst s'. rewrite Hout. cbn [fst snd].
  repeat split.
  - intros i now Hi. unfold probe_tick. cbn [loop set_loop set_mgr intervals inflight].
    destruct (nth_error (intervals (loop s) ++ [healthCheckInterval (mgr s)]) i) eqn:E.
    + reflexivity.
    + apply nth_error_None in E. rewrite length_app in E. simpl in E. lia.
  - intros i now o Hi. unfold probe_tick. cbn [loop set_loop set_mgr intervals inflight].
    destruct (nth_error (intervals (loop s) ++ [healthCheckInterval (mgr s)]) i) eqn:E.
    2:{ apply nth_error_None in E. rewrite length_app in E. simpl in E. lia. }
    unfold probe_settle. cbn [loop set_loop set_mgr intervals inflight].
    rewrite nth_error_app2, Nat.sub_diag by lia. cbn [nth_error].
    destruct o; reflexivity.
  - intros p pr o Hp. unfold probe_settle.
    cbn [loop set_loop set_mgr intervals inflight]. rewrite Hp.
    destruct o; reflexivity.
Qed.

End ManagerClaims.

(** ** The managers on the scripted world *)

(** A switch from devnet to mainnet with the flag down: the flag stays
    down until the old interval ticks and its probe answers in time. *)
Lemma switchNetwork_keeps_probes_witness :
  let s' := snd (switchNetwork mainnet None (world false [] quiet)) in
  connection (mgr s') = mkConnection mainnet "confirmed" /\
  isHealthy (mgr s') = false /\
  intervals (loop s') = [30000; 30000] /\
  isHealthy (mgr (probe_settle 0 (SlotOk 120 121) (probe_tick 0 100 s'))) = true.
Proof.
  intros s'.
  destruct (switchNetwork_keeps_probes mainnet None (world false [] quiet))
    as (_ & _ & _ & Hc & Hh & _ & Hi & _ & _ & Hw & _).
  - reflexivity.
  - split; [exact Hc|]. split; [exact Hh|]. split; [exact Hi|].
    apply (Hw 0%nat 100 (SlotOk 120 121)). simpl. lia.
Defined.

(** C3, as stated, fails.  After a switch the flag is still [false], not
    reset to healthy; the interval registered before the switch is still
    registered; and when that old interval ticks after the switch and its
    probe fails, the flag of a healthy manager becomes [false]. *)
Lemma switchNetwork_old_loop_still_writes :
  (let s' := snd (switchNetwork mainnet None (world false [] quiet)) in
   fst (switchNetwork mainnet None (world false [] quiet)) = Returned tt /\
   isHealthy (mgr s') = false /\
   fst (fst (fst (getHealthStatus s'))) = false /\
   intervals (loop s') = [30000; 30000]) /\
  (let s' := snd (switchNetwork mainnet None (world true [] quiet)) in
   isHealthy (mgr s') = true /\
   isHealthy (mgr (run_bg [Tick 0 100; Settle 0 (SlotErr "socket hang up")] s'))
   = false).
Proof. vm_compute. repeat split. Qed.

(** C4.  The code accumulates budget instructions across attempts.  A
    transaction holding [ixA] is executed with [computeUnits = 300000];
    the first submission is lost on the network and the second goes
    through.  Each attempt is stamped with a fresh blockhash, but the
    second attempt submits the compute-unit instruction twice. *)
Lemma executeTransaction_retry_accumulates :
  let out := executeTransaction 0%nat [payer]
               (mkOptions None (Some 300000) None None None)
               (world true [mkTransaction [ixA] None None []] flaky) in
  fst out = Returned (mkTxResult "sig-2" 7 confirmed_ok) /\
  stamped (wire (snd out)) = [Some "hash-1"; Some "hash-2"] /\
  submitted (wire (snd out))
  = [[ixA; computeUnitInstruction 300000];
     [ixA; computeUnitInstruction 300000; computeUnitInstruction 300000]] /\
  nth 1 (submitted (wire (snd out))) [] <> nth 0 (submitted (wire (snd out))) [].
Proof. vm_compute. repeat split. discriminate. Qed.

(** [ixA; ixB] with a budget of 300000 units and a fee of 5, and with the
    default budget. *)
Lemma executeTransaction_budget_augmentation_witness :
  let s := world true [mkTransaction [ixA; ixB] None None []] smooth in
  submitted (wire (snd (executeTransaction_operation 0%nat [payer] 300000 5 false 3
                          (connection (mgr s)) s)))
  = [[ixA; ixB; computeUnitInstruction 300000; priorityFeeInstruction 5]] /\
  exists k, submitted (wire (snd (executeTransaction 0%nat [payer] no_options s)))
            = repeat [ixA; ixB] k /\ (1 <= k)%nat.
Proof.
  intros s.
  destruct (executeTransaction_budget_augmentation 0%nat [payer] 300000 5 false 3
              (connection (mgr s)) s (mkTransaction [ixA; ixB] None None []))
    as (_ & Heffect & _ & _ & Hdefault).
  - reflexivity.
  - split.
    + cbv zeta in Heffect.
      change (fst (fst (rpc_getLatestBlockhash (connection (mgr s)) (env s))))
        with (Returned bh1) in Heffect.
      cbv iota beta in Heffect.
      change (Transaction_sign
                (set_instructions
                   (instructions (mkTransaction [ixA; ixB] None None [])
                      ++ budget_instructions 300000 5)
                   (set_blockhash bh1 (mkTransaction [ixA; ixB] None None [])))
                [payer])
        with (Returned (A := list string) ["sig:Payer1111"]) in Heffect.
      cbv iota beta in Heffect.
      exact (proj2 Heffect).
    + destruct (Hdefault ixA ixB no_options) as [(k & Hk & Hpos) _];
        try reflexivity.
      exists k. split; [exact Hk|].
      apply (Hpos (mkTxResult "sig-1" 7 confirmed_ok)). reflexivity.
Defined.

(** On the ledger with one fixed answer to every confirmation request:
    a sleep leaves manager and transactions alone, and an attempt leaves
    the manager alone and ends as the fixed answer says. *)
Lemma fixed_confirmation_sleep (answer : Res Confirmation) (delay : Z)
    (s0 : St unit) :
  mgr (snd (sleep (RT := fixed_confirmation answer) delay s0)) = mgr s0 /\
  heap (snd (sleep (RT := fixed_confirmation answer) delay s0)) = heap s0.
Proof. split; reflexivity. Qed.

Lemma fixed_confirmation_attempt (answer : Res Confirmation)
    (computeUnits priorityFee : Z) (skipPreflight : bool) (maxRetries : Z)
    (c : Connection) (s0 : St unit) (t0 : Transaction) :
  nth_error (heap s0) 0 = Some t0 ->
  let out := executeTransaction_operation (RT := fixed_confirmation answer)
               0%nat [payer] computeUnits priorityFee skipPreflight maxRetries
               c s0 in
  mgr (snd out) = mgr s0 /\
  fst out
  = match answer with
    | Threw e => Threw e
    | Returned confirmation =>
        match conf_err confirmation with
        | Some payload => Threw (JsError "Error" ("Transaction failed: " +++ payload))
        | None => Returned (mkTxResult "sig-1" (conf_slot confirmation) confirmation)
        end
    end.
Proof.
  intros Ht0 out. subst out.
  rewrite (executeTransaction_operation_unfold (RT := fixed_confirmation answer)
             _ _ _ _ _ _ _ _ _ Ht0).
  cbn. destruct answer as [confirmation|e]; cbn.
  - destruct (conf_err confirmation); cbn; split; reflexivity.
  - split; reflexivity.
Qed.

Lemma ready_sleep (answer : Res Confirmation) (delay : Z) (s0 : St unit) :
  ready s0 -> ready (snd (sleep (RT := fixed_confirmation answer) delay s0)).
Proof.
  intros [Hh Ht]. destruct (fixed_confirmation_sleep answer delay s0) as [Hm Hp].
  unfold ready. rewrite Hm, Hp. split; assumption.
Qed.

Lemma ready_attempt (answer : Res Confirmation)
    (computeUnits priorityFee : Z) (skipPreflight : bool) (maxRetries : Z)
    (c : Connection) (s0 : St unit) :
  ready s0 ->
  ready (snd (executeTransaction_operation (RT := fixed_confirmation answer)
                0%nat [payer] computeUnits priorityFee skipPreflight maxRetries
                c s0)).
Proof.
  intros [Hh [t0 Ht0]].
  destruct (fixed_confirmation_attempt answer computeUnits priorityFee skipPreflight
              maxRetries c s0 t0 Ht0) as [Hm _].
  split; [rewrite Hm; exact Hh|].
  apply (executeTransaction_operation_keeps (RT := fixed_confirmation answer)).
  eauto.
Qed.

(** A ledger that never confirms and a ledger that always rejects: in
    both, each of the three attempts fails with its own message and the
    call ends in the same code. *)
Lemma executeTransaction_one_error_code_witness :
  let tx := mkTransaction [ixA] None None [] in
  let s := mkSt fresh_manager (mkLoop [30000] []) [tx] [] tt in
  let never := fixed_confirmation (Threw polling_exhausted) in
  let rejected := fixed_confirmation (Returned (mkConfirmation 7 (Some "{}"))) in
  (fst (executeTransaction_operation (RT := never) 0%nat [payer] 200000 0 false 3
          (connection (mgr s)) s)
   = Threw polling_exhausted /\
   n_invoked (snd (executeWithRetry_tr (RT := never)
                     (executeTransaction_operation (RT := never) 0%nat [payer]
                        200000 0 false 3) None s)) = 3%nat /\
   fst (executeTransaction (RT := never) 0%nat [payer] no_options s)
   = Threw (SolanaToolkitError
              "Failed to execute transaction: Operation failed after 3 attempts: Transaction was not confirmed in 60.00 seconds. It is unknown if it succeeded or failed."
              "TRANSACTION_EXECUTION_ERROR"
              [("error", JStr "Operation failed after 3 attempts: Transaction was not confirmed in 60.00 seconds. It is unknown if it succeeded or failed.")])) /\
  (fst (executeTransaction_operation (RT := rejected) 0%nat [payer] 200000 0 false 3
          (connection (mgr s)) s)
   = Threw (JsError "Error" "Transaction failed: {}") /\
   n_invoked (snd (executeWithRetry_tr (RT := rejected)
                     (executeTransaction_operation (RT := rejected) 0%nat [payer]
                        200000 0 false 3) None s)) = 3%nat /\
   fst (executeTransaction (RT := rejected) 0%nat [payer] no_options s)
   = Threw (SolanaToolkitError
              "Failed to execute transaction: Operation failed after 3 attempts: Transaction failed: {}"
              "TRANSACTION_EXECUTION_ERROR"
              [("error", JStr "Operation failed after 3 attempts: Transaction failed: {}")])).
Proof.
  intros tx s never rejected. split.
  - destruct (executeTransaction_one_error_code (RT := never)
                0%nat [payer] no_options s tx eq_refl)
      as (Hattempt & _ & _ & _ & Hall & _).
    split.
    + apply (Hattempt (connection (mgr s)) s
               (snd (rpc
                       (CallSendTransaction (connection (mgr s))
                          (set_signatures ["sig:Payer1111"]
                             (set_instructions [ixA] (set_blockhash bh1 tx)))
                          (mkSendOptions false 3 "confirmed"))
                       (@rpc_sendTransaction unit never (connection (mgr s))
                          (set_signatures ["sig:Payer1111"]
                             (set_instructions [ixA] (set_blockhash bh1 tx)))
                          (mkSendOptions false 3 "confirmed"))
                       (set_heap
                          (replace_nth 0
                             (set_signatures ["sig:Payer1111"]
                                (set_instructions [ixA] (set_blockhash bh1 tx)))
                             (heap s))
                          (snd (rpc
                                  (CallGetLatestBlockhash (connection (mgr s)))
                                  (@rpc_getLatestBlockhash unit never
                                     (connection (mgr s))) s)))))
               tx bh1 ["sig:Payer1111"] "sig-1"); reflexivity.
    + destruct (Hall ready (fun e => e = polling_exhausted) 3)
        as (Hn & e & -> & Hres).
      * reflexivity.
      * lia.
      * split; [reflexivity | exists tx; reflexivity].
      * intros s0 [Hh _]. exact Hh.
      * intros c s0. apply ready_attempt.
      * intros delay s0. apply ready_sleep.
      * intros c s0 [_ [t0 Ht0]]. exists polling_exhausted.
        split; [|reflexivity].
        apply (fixed_confirmation_attempt (Threw polling_exhausted) _ _ _ _ c s0 t0 Ht0).
      * split; [exact Hn | exact Hres].
  - destruct (executeTransaction_one_error_code (RT := rejected)
                0%nat [payer] no_options s tx eq_refl)
      as (_ & _ & _ & _ & Hall & _).
    split.
    + apply (fixed_confirmation_attempt (Returned (mkConfirmation 7 (Some "{}")))
               200000 0 false 3 (connection (mgr s)) s tx eq_refl).
    + destruct (Hall ready (fun e => e = JsError "Error" "Transaction failed: {}") 3)
        as (Hn & e & -> & Hres).
      * reflexivity.
      * lia.
      * split; [reflexivity | exists tx; reflexivity].
      * intros s0 [Hh _]. exact Hh.
      * intros c s0. apply ready_attempt.
      * intros delay s0. apply ready_sleep.
      * intros c s0 [_ [t0 Ht0]]. exists (JsError "Error" "Transaction failed: {}").
        split; [|reflexivity].
        apply (fixed_confirmation_attempt (Returned (mkConfirmation 7 (Some "{}")))
                 _ _ _ _ c s0 t0 Ht0).
      * split; [exact Hn | exact Hres].
Defined.

(** C6, as stated, fails.  A call whose confirmations all run out and a
    call whose confirmations all report an error raise the same error
    name and the same error code; they differ in the message text. *)
Lemma executeTransaction_conflates_outcomes :
  let tx := mkTransaction [ixA] None None [] in
  let ambiguous := fst (executeTransaction 0%nat [payer] no_options
                          (world true [tx] never_confirms)) in
  let rejected := fst (executeTransaction 0%nat [payer] no_options
                         (world true [tx] rejects)) in
  ambiguous
  = Threw (SolanaToolkitError
             "Failed to execute transaction: Operation failed after 3 attempts: Transaction was not confirmed in 60.00 seconds. It is unknown if it succeeded or failed."
             "TRANSACTION_EXECUTION_ERROR"
             [("error", JStr "Operation failed after 3 attempts: Transaction was not confirmed in 60.00 seconds. It is unknown if it succeeded or failed.")]) /\
  rejected
  = Threw (SolanaToolkitError
             "Failed to execute transaction: Operation failed after 3 attempts: Transaction failed: {}"
             "TRANSACTION_EXECUTION_ERROR"
             [("error", JStr "Operation failed after 3 attempts: Transaction failed: {}")]) /\
  (forall e1 e2, ambiguous = Threw e1 -> rejected = Threw e2 ->
     exn_code e1 = exn_code e2 /\ exn_name e1 = exn_name e2).
Proof.
  vm_compute. split; [reflexivity|]. split; [reflexivity|].
  intros e1 e2 H1 H2. injection H1 as <-. injection H2 as <-. split; reflexivity.
Qed.

Lemma nobody_home_sleep (delay : Z) (s : St Script) :
  nobody_home s -> nobody_home (snd (sleep delay s)).
Proof.
  intros [[Hb Ht] Ha]. unfold sleep. cbn [setTimeout scripted].
  rewrite Ht. cbn [hd tl run_bg fold_left snd]. repeat split; assumption.
Qed.

Lemma nobody_home_query (k : PublicKey) (c : Connection) (s : St Script) :
  nobody_home s -> nobody_home (snd (getAccountInfo_operation k c s)).
Proof.
  intros [[Hb Ht] Ha].
  unfold getAccountInfo_operation, bind, rpc, await.
  cbn [rpc_getAccountInfo scripted env set_wire set_env run_bg fold_left].
  rewrite Ha. cbn. repeat split; assumption.
Qed.

(** An absent account with the default three attempts. *)
Lemma getAccountInfo_not_found_retried_witness :
  let s := world true [] absent in
  let op := getAccountInfo_operation (mkPublicKey "Nobody111") in
  fst (retry_loop op 3 [1; 2; 3] None s)
  = fst (retry_loop op 3 [2; 3] (Some (account_not_found (mkPublicKey "Nobody111")))
           (snd (sleep 1000 (snd (op (connection (mgr s)) s))))) /\
  n_invoked (snd (executeWithRetry_tr op None s)) = 3%nat /\
  fst (getAccountInfo "Nobody111" s)
  = Threw (SolanaToolkitError "Operation failed after 3 attempts: Account not found"
             "OPERATION_FAILED"
             [("maxRetries", JNum 3); ("lastError", JStr "Account not found")]).
Proof.
  intros s op.
  destruct (getAccountInfo_not_found_retried (R := Script) 3) as [Hblind Habsent].
  split.
  - rewrite (Hblind _ op 1 [2; 3] None s (snd (op (connection (mgr s)) s))
               (account_not_found (mkPublicKey "Nobody111")));
      reflexivity.
  - apply (Habsent "Nobody111" (mkPublicKey "Nobody111") nobody_home s).
    + reflexivity.
    + reflexivity.
    + lia.
    + repeat split.
    + intros s0 [[H _] _]. exact H.
    + intros c s0 [_ Ha]. cbn [rpc_getAccountInfo scripted fst]. rewrite Ha.
      reflexivity.
    + intros c s0. apply nobody_home_query.
    + intros delay s0. apply nobody_home_sleep.
Defined.

(** C7.  The code does not surface the not-found condition.  The
    account is absent and the link healthy.  The first invocation of the
    operation throws the toolkit error [ACCOUNT_NOT_FOUND], which the
    [catch] of [getAccountInfo] would rethrow unchanged; but the retry
    executor handles it like a transport failure: the query is sent
    three times, not once, and the caller receives [OPERATION_FAILED]
    with the not-found message embedded, not [ACCOUNT_NOT_FOUND]. *)
Lemma getAccountInfo_absent_is_retried :
  let s := world true [] absent in
  let out := getAccountInfo "Nobody111" s in
  let query := CallGetAccountInfo (mkConnection devnet "confirmed")
                                  (mkPublicKey "Nobody111") in
  (exists e,
     fst (getAccountInfo_operation (mkPublicKey "Nobody111") (connection (mgr s)) s)
     = Threw e /\
     exn_code e = Some "ACCOUNT_NOT_FOUND" /\
     instanceof_SolanaToolkitError e = true) /\
  wire (snd out) = [query; query; query] /\
  List.length (wire (snd out)) <> 1%nat /\
  (exists e, fst out = Threw e /\ exn_code e = Some "OPERATION_FAILED" /\
             exn_code e <> Some "ACCOUNT_NOT_FOUND" /\
             exn_message e = "Operation failed after 3 attempts: Account not found").
Proof.
  vm_compute. split.
  - eexists. split; [reflexivity|]. split; reflexivity.
  - split; [reflexivity|]. split; [discriminate|].
    eexists. split; [reflexivity|]. split; [reflexivity|].
    split; [discriminate | reflexivity].
Qed.

(** An amount of 0. *)
Lemma sendTransaction_rejects_amount_witness :
  sendTransaction payer "Dest2222" 0 no_options (world true [] smooth)
  = (Threw (SolanaToolkitError
              "Failed to send transaction: Transaction amount must be greater than 0"
              "TRANSACTION_SEND_ERROR"
              [("sender", JStr "Payer1111"); ("receiver", JStr "Dest2222");
               ("amount", JNum 0);
               ("error", JStr "Transaction amount must be greater than 0")]),
     world true [] smooth).
Proof.
  apply (sendTransaction_rejects_amount payer "Dest2222" 0 no_options
           (world true [] smooth)).
  lia.
Defined.

(** * Further properties of the same files *)

(** ** The connection manager *)

Section ManagerExtras.

Context {R : Type} {RT : Runtime R}.

(** X1.  A [switchNetwork] whose connection cannot be built throws
    [CONNECTION_INIT_ERROR] and leaves the manager half switched: endpoint
    and commitment are the new ones, as [getHealthStatus] reports, but the
    connection, the probe loops and the health flag are the old ones, and
    later operations still run against the old connection. *)
Theorem switchNetwork_failure_half_switch (newEndpoint : string)
    (newCommitment : option string) (s : St R) (e : Exn) :
  let c := or_default newCommitment (commitment (mgr s)) in
  Connection_throws newEndpoint c = Some e ->
  let out := switchNetwork newEndpoint newCommitment s in
  fst out
  = Threw (SolanaToolkitError ("Failed to initialize connection: " +++ exn_message e)
             "CONNECTION_INIT_ERROR"
             [("endpoint", JStr newEndpoint); ("error", JStr (exn_message e))]) /\
  getHealthStatus (snd out)
  = (isHealthy (mgr s), lastHealthCheck (mgr s), newEndpoint, c) /\
  connection (mgr (snd out)) = connection (mgr s) /\
  loop (snd out) = loop s /\
  (forall V (operation : Connection -> M R V) n k,
     isHealthy (mgr s) = true ->
     attempt_try operation n k (snd out)
     = operation (connection (mgr s)) (snd out)).
Proof.
  intros c Hthrows out.
  assert (Hout : out = (Threw (SolanaToolkitError
                                 ("Failed to initialize connection: " +++ exn_message e)
                                 "CONNECTION_INIT_ERROR"
                                 [("endpoint", JStr newEndpoint);
                                  ("error", JStr (exn_message e))]),
                        set_mgr (set_commitment c (set_endpoint newEndpoint (mgr s))) s)).
  { unfold out, switchNetwork, initializeConnection.
    cbn [mgr set_mgr endpoint commitment set_commitment set_endpoint].
    fold c. rewrite Hthrows. reflexivity. }
  rewrite Hout. cbn [fst snd]. repeat split.
  intros V operation n k Hh. unfold attempt_try.
  cbn [mgr set_mgr isHealthy set_commitment set_endpoint connection]. rewrite Hh.
  reflexivity.
Qed.

Lemma switchNetwork_loop (newEndpoint : string) (newCommitment : option string)
    (s : St R) :
  let out := switchNetwork newEndpoint newCommitment s in
  isHealthy (mgr (snd out)) = isHealthy (mgr s) /\
  lastHealthCheck (mgr (snd out)) = lastHealthCheck (mgr s) /\
  inflight (loop (snd out)) = inflight (loop s) /\
  intervals (loop (snd out))
  = intervals (loop s)
    ++ (if is_returned (fst out) then [healthCheckInterval (mgr s)] else []).
Proof.
  unfold switchNetwork, initializeConnection.
  cbn [mgr set_mgr endpoint commitment set_commitment set_endpoint].
  destruct (Connection_throws newEndpoint _); cbn.
  - rewrite app_nil_r. repeat split.
  - repeat split.
Qed.

(** X2.  Probe loops are only ever added.  After any sequence of
    [switchNetwork] calls the intervals registered before are all still
    there, in front, there is one more for every call that succeeded and
    none for a call that threw; the health flag, its time stamp and the
    probes in flight are what they were. *)
Theorem switchNetwork_each_intervals (targets : list (string * option string))
    (s : St R) :
  let out := switchNetwork_each targets s in
  List.length (fst out) = List.length targets /\
  List.length (intervals (loop (snd out)))
  = (List.length (intervals (loop s)) + List.length (filter is_returned (fst out)))%nat /\
  firstn (List.length (intervals (loop s))) (intervals (loop (snd out)))
  = intervals (loop s) /\
  inflight (loop (snd out)) = inflight (loop s) /\
  isHealthy (mgr (snd out)) = isHealthy (mgr s) /\
  lastHealthCheck (mgr (snd out)) = lastHealthCheck (mgr s).
Proof.
  revert s. induction targets as [|[ep cm] rest IH]; intros s; cbn [switchNetwork_each].
  - cbn. rewrite Nat.add_0_r, firstn_all. repeat split.
  - cbv zeta. cbn [fst snd].
    destruct (switchNetwork_loop ep cm s) as (Hh & Hl & Hf & Hi).
    destruct (IH (snd (switchNetwork ep cm s))) as (I1 & I2 & I3 & I4 & I5 & I6).
    cbv zeta in *.
    set (s1 := snd (switchNetwork ep cm s)) in *.
    set (r := fst (switchNetwork ep cm s)) in *.
    split; [cbn; rewrite I1; reflexivity|].
    split.
    { rewrite I2, Hi, length_app. cbn [filter].
      destruct (is_returned r); cbn [List.length]; lia. }
    split.
    { rewrite <- (firstn_skipn (List.length (intervals (loop s1)))
                    (intervals (loop (snd (switchNetwork_each rest s1))))).
      rewrite I3, Hi, <- app_assoc, firstn_app, Nat.sub_diag, firstn_all.
      cbn [firstn]. apply app_nil_r. }
    split; [congruence|]. split; congruence.
Qed.

Lemma run_bg_app (evs1 evs2 : list BgEvent) (s : St R) :
  run_bg (evs1 ++ evs2) s = run_bg evs2 (run_bg evs1 s).
Proof. unfold run_bg. apply fold_left_app. Qed.

(** X3.  The health flag is the verdict of the probe that settled last.
    When a probe in flight settles after any background activity, the
    flag becomes [responseTime < 5000] for a resolved probe (a response
    time of exactly 5000 is unhealthy) and [false] for a rejected one;
    [lastHealthCheck] is stamped for a resolved probe only; the probe
    leaves the list of probes in flight; and all the activity together
    leaves endpoint, commitment, connection, retry settings, transactions,
    wire log and intervals alone. *)
Theorem settled_probe_decides (evs : list BgEvent) (p : nat) (o : ProbeOutcome)
    (s : St R) (pr : Probe) :
  nth_error (inflight (loop (run_bg evs s))) p = Some pr ->
  let before := run_bg evs s in
  let after := run_bg (evs ++ [Settle p o]) s in
  isHealthy (mgr after) = probe_verdict pr o /\
  probe_verdict pr (SlotOk (probe_startTime pr + 5000) 0) = false /\
  probe_verdict pr (SlotOk (probe_startTime pr + 4999) 0) = true /\
  lastHealthCheck (mgr after)
  = match o with
    | SlotOk _ now_stamp => now_stamp
    | SlotErr _ => lastHealthCheck (mgr before)
    end /\
  inflight (loop after) = remove_nth p (inflight (loop before)) /\
  same_but_health s after.
Proof.
  intros Hp before after.
  assert (Hafter : after = probe_settle p o before).
  { unfold after. rewrite run_bg_app. reflexivity. }
  split; [|split; [|split; [|split; [|split]]]].
  - rewrite Hafter. unfold probe_settle. fold before in Hp. rewrite Hp.
    destruct o; reflexivity.
  - unfold probe_verdict. apply Z.ltb_ge. lia.
  - unfold probe_verdict. apply Z.ltb_lt. lia.
  - rewrite Hafter. unfold probe_settle. fold before in Hp. rewrite Hp.
    destruct o; reflexivity.
  - rewrite Hafter. unfold probe_settle. fold before in Hp. rewrite Hp.
    destruct o; reflexivity.
  - apply run_bg_frame.
Qed.

(** X4.  With [maxRetries <= 0] the loop body never runs: the operation
    is not invoked, nothing is slept, the state is untouched, and what is
    thrown is the [TypeError] of reading [lastError.message], not a
    [SolanaToolkitError]. *)
Theorem executeWithRetry_no_attempts {V} (operation : Connection -> M R V)
    (n : Z) (s : St R) :
  n <= 0 ->
  snd (executeWithRetry_tr operation (Some n) s) = [] /\
  snd (executeWithRetry operation (Some n) s) = s /\
  exists e, fst (executeWithRetry operation (Some n) s) = Threw e /\
            exn_name e = "TypeError" /\ instanceof_SolanaToolkitError e = false.
Proof.
  intros Hn.
  unfold executeWithRetry_tr, executeWithRetry, attempt_numbers. cbn [or_default].
  replace (Z.to_nat n) with 0%nat by lia. cbn.
  repeat split. eexists. repeat split.
Qed.

End ManagerExtras.

(** ** The retry executor *)

Section RetryExtras.

Context {R : Type} {RT : Runtime R} {V : Type}.

Implicit Types (operation : Connection -> M R V) (s : St R).




(** X6.  A first attempt that returns on a healthy link is the whole
    call: [executeWithRetry] gives the operation's outcome and state as
    they are, invokes the operation once and sleeps nothing, whatever
    [n >= 1] is. *)
Theorem executeWithRetry_first_success operation (n : Z) s (v : V) :
  1 <= n ->
  isHealthy (mgr s) = true ->
  fst (operation (connection (mgr s)) s) = Returned v ->
  executeWithRetry operation (Some n) s = operation (connection (mgr s)) s /\
  snd (executeWithRetry_tr operation (Some n) s) = [Invoked 1 (Returned v)].
Proof.
  intros Hn Hh Hv.
  unfold executeWithRetry, executeWithRetry_tr, attempt_numbers. cbn [or_default].
  destruct (Z.to_nat n) as [|m] eqn:Em; [lia|].
  cbn [seq map retry_loop retry_loop_tr].
  unfold attempt_try, attempt_try_tr. rewrite Hh. cbn [negb].
  destruct (operation (connection (mgr s)) s) as [r s1]. cbn [fst] in *. subst r.
  split; reflexivity.
Qed.

End RetryExtras.

(** ** The transaction manager *)

Section TransactionExtras.

Context {R : Type} {RT : Runtime R}.

Lemma concat_repeat_snoc {A} (b : list A) (k : nat) :
  List.concat (repeat b k) ++ b = List.concat (repeat b (S k)).
Proof.
  induction k as [|k IH]; cbn [repeat List.concat].
  - rewrite app_nil_r. reflexivity.
  - rewrite <- app_assoc, IH. reflexivity.
Qed.

(** The recorded states are as many as the invoked attempts. *)
Lemma retry_loop_invocations_count {V} (operation : Connection -> M R V) (n : Z) :
  forall (attempts : list Z) (lastError : option Exn) (s : St R),
    List.length (retry_loop_invocations operation n attempts s)
    = n_invoked (snd (retry_loop_tr operation n attempts lastError s)).
Proof.
  unfold n_invoked.
  induction attempts as [|k rest IH]; intros lastError s; [reflexivity|].
  cbn [retry_loop_invocations retry_loop_tr].
  unfold attempt_try, attempt_try_tr.
  destruct (negb (isHealthy (mgr s))).
  - destruct (k =? n); [reflexivity|]. cbv zeta. cbn [app].
    rewrite (IH (Some (SolanaToolkitError "Connection is unhealthy"
                         "UNHEALTHY_CONNECTION"
                         [("attempt", JNum k); ("maxRetries", JNum n)]))).
    destruct (retry_loop_tr operation n rest _ _) as [o tr]. reflexivity.
  - cbv zeta.
    destruct (operation (connection (mgr s)) s) as [[v|e] s1]; cbn [fst snd];
      [reflexivity|].
    destruct (k =? n); [reflexivity|].
    cbn [app List.length]. rewrite (IH (Some e)).
    destruct (retry_loop_tr operation n rest _ _) as [o tr]. reflexivity.
Qed.

(** One attempt on a transaction that holds [k0] copies of the budget
    instructions: it holds one more afterwards exactly when the blockhash
    request was answered. *)
Lemma budget_attempt_step (transaction : TxRef) (signers : list Keypair)
    (computeUnits priorityFee : Z) (skipPreflight : bool) (maxRetries : Z)
    (t : Transaction) (W : list (list TransactionInstruction)) (c : Connection)
    (s0 : St R) (k0 : nat) (subs0 : list (list TransactionInstruction))
    (t0 : Transaction) :
  let b := budget_instructions computeUnits priorityFee in
  let held := fun (k : nat) (l : list TransactionInstruction) =>
                exists i, (1 <= i <= k)%nat /\
                          l = instructions t ++ List.concat (repeat b i) in
  nth_error (heap s0) transaction = Some t0 ->
  instructions t0 = instructions t ++ List.concat (repeat b k0) ->
  submitted (wire s0) = W ++ subs0 ->
  (List.length subs0 <= k0)%nat ->
  Forall (held k0) subs0 ->
  let out := executeTransaction_operation transaction signers computeUnits
               priorityFee skipPreflight maxRetries c s0 in
  let k1 := (k0 + if is_returned (fst (fst (rpc_getLatestBlockhash c (env s0))))
                  then 1 else 0)%nat in
  exists subs1 t1,
    nth_error (heap (snd out)) transaction = Some t1 /\
    instructions t1 = instructions t ++ List.concat (repeat b k1) /\
    submitted (wire (snd out)) = W ++ subs1 /\
    (List.length subs1 <= k1)%nat /\
    Forall (held k1) subs1.
Proof.
  intros b held Ht0 Hi0 Hs0 Hlen Hall out k1.
  assert (Hweak : forall subs, Forall (held k0) subs -> Forall (held (S k0)) subs).
  { intros subs. apply Forall_impl. intros l (i & Hi & Hl).
    exists i. split; [lia | exact Hl]. }
  pose proof (executeTransaction_operation_effect transaction signers computeUnits
                priorityFee skipPreflight maxRetries c s0 t0 Ht0) as H.
  cbv zeta in H. fold b out in H. rewrite rpc_result in H. subst k1.
  destruct (fst (fst (rpc_getLatestBlockhash c (env s0)))) as [bh|e];
    cbn [is_returned].
  - replace (k0 + 1)%nat with (S k0) by lia.
    destruct (Transaction_sign _ signers) as [sigs|e].
    + destruct H as (H1 & H2 & _).
      exists (subs0 ++ [instructions t0 ++ b]). eexists.
      split; [exact H1|]. cbn [instructions set_signatures set_instructions].
      split; [rewrite Hi0, <- app_assoc, concat_repeat_snoc; reflexivity|].
      split; [rewrite H2, Hs0, app_assoc; reflexivity|].
      split; [rewrite length_app; cbn; lia|].
      apply Forall_app. split; [apply Hweak, Hall|].
      constructor; [|constructor]. exists (S k0). split; [lia|].
      rewrite Hi0, <- app_assoc, concat_repeat_snoc. reflexivity.
    + destruct H as (_ & H1 & H2 & _).
      exists subs0. eexists. split; [exact H1|].
      cbn [instructions set_instructions].
      split; [rewrite Hi0, <- app_assoc, concat_repeat_snoc; reflexivity|].
      split; [rewrite H2; exact Hs0|]. split; [lia | apply Hweak, Hall].
  - rewrite Nat.add_0_r. destruct H as (_ & H1 & H2 & _).
    exists subs0, t0. rewrite H1, H2. auto.
Qed.

(** The whole loop, from a transaction that holds [k0] copies. *)
Lemma retry_loop_budget (transaction : TxRef) (signers : list Keypair)
    (computeUnits priorityFee : Z) (skipPreflight : bool) (maxRetries : Z)
    (n : Z) (t : Transaction) (W : list (list TransactionInstruction)) :
  let b := budget_instructions computeUnits priorityFee in
  let held := fun (k : nat) (l : list TransactionInstruction) =>
                exists i, (1 <= i <= k)%nat /\
                          l = instructions t ++ List.concat (repeat b i) in
  let op := executeTransaction_operation transaction signers computeUnits
              priorityFee skipPreflight maxRetries in
  forall (attempts : list Z) (lastError : option Exn) (s0 : St R) (k0 : nat)
         (subs0 : list (list TransactionInstruction)) (t0 : Transaction),
    nth_error (heap s0) transaction = Some t0 ->
    instructions t0 = instructions t ++ List.concat (repeat b k0) ->
    submitted (wire s0) = W ++ subs0 ->
    (List.length subs0 <= k0)%nat ->
    Forall (held k0) subs0 ->
    let s' := snd (retry_loop op n attempts lastError s0) in
    let k := (k0 + List.length (filter blockhash_answered
                                  (retry_loop_invocations op n attempts s0)))%nat in
    exists subs t',
      nth_error (heap s') transaction = Some t' /\
      instructions t' = instructions t ++ List.concat (repeat b k) /\
      submitted (wire s') = W ++ subs /\
      (List.length subs <= k)%nat /\
      Forall (held k) subs.
Proof.
  intros b held op.
  induction attempts as [|a rest IH];
    intros lastError s0 k0 subs0 t0 Ht0 Hi0 Hs0 Hlen Hall.
  { cbn. rewrite Nat.add_0_r. exists subs0, t0. auto. }
  cbn [retry_loop retry_loop_invocations]. unfold attempt_try.
  destruct (negb (isHealthy (mgr s0))).
  - destruct (a =? n).
    + cbn. rewrite Nat.add_0_r. exists subs0, t0. auto.
    + cbv zeta. cbn [app].
      destruct (sleep_frame (backoff_delay (retryDelay (mgr s0)) a) s0)
        as (_ & _ & _ & _ & _ & _ & Hh & Hw & _).
      apply (IH _ _ k0 subs0 t0);
        [rewrite Hh; exact Ht0 | exact Hi0 | rewrite Hw; exact Hs0
        | exact Hlen | exact Hall].
  - destruct (budget_attempt_step transaction signers computeUnits priorityFee
                skipPreflight maxRetries t W (connection (mgr s0)) s0 k0 subs0 t0
                Ht0 Hi0 Hs0 Hlen Hall)
      as (subs1 & t1 & Ht1 & Hi1 & Hs1 & Hlen1 & Hall1).
    fold b op in Ht1, Hi1, Hs1, Hlen1, Hall1. fold held in Hall1.
    change (is_returned
              (fst (fst (rpc_getLatestBlockhash (connection (mgr s0)) (env s0)))))
      with (blockhash_answered s0) in Hi1, Hlen1, Hall1.
    destruct (op (connection (mgr s0)) s0) as [[v|e] s1]; cbn [fst snd] in *.
    + cbn [filter]. destruct (blockhash_answered s0); cbn [List.length];
        exists subs1, t1; auto.
    + destruct (a =? n).
      * cbn [filter]. destruct (blockhash_answered s0); cbn [List.length];
          exists subs1, t1; auto.
      * cbv zeta. cbn [app filter].
        destruct (sleep_frame (backoff_delay (retryDelay (mgr s1)) a) s1)
          as (_ & _ & _ & _ & _ & _ & Hh & Hw & _).
        set (s2 := snd (sleep (backoff_delay (retryDelay (mgr s1)) a) s1)) in *.
        destruct (IH (Some e) s2
                    (k0 + if blockhash_answered s0 then 1 else 0)%nat subs1 t1)
          as (subs & t' & H1 & H2 & H3 & H4 & H5);
          [rewrite Hh; exact Ht1 | exact Hi1 | rewrite Hw; exact Hs1
          | exact Hlen1 | exact Hall1 |].
        exists subs, t'.
        replace (k0 + List.length
                        (if blockhash_answered s0
                         then s0 :: filter blockhash_answered
                                      (retry_loop_invocations op n rest s2)
                         else filter blockhash_answered
                                (retry_loop_invocations op n rest s2)))%nat
          with (k0 + (if blockhash_answered s0 then 1 else 0)
                + List.length (filter blockhash_answered
                                 (retry_loop_invocations op n rest s2)))%nat
          by (destruct (blockhash_answered s0); cbn [List.length]; lia).
        auto.
Qed.

(** X7.  Budget instructions pile up on the caller's transaction.  With
    [b] the budget instructions of the options and [k] the number of
    attempts of the call whose blockhash request was answered (counted
    over the states in which the retry loop invoked the operation, which
    are as many as the invocations the recording loop reports), after an
    [executeTransaction] call the transaction holds its former
    instructions followed by exactly [k] copies of [b]; every submission
    of the call was the former instructions followed by [i] copies of [b]
    for some [1 <= i <= k]; at most [k] submissions were made. *)
Theorem executeTransaction_budget_accumulates (transaction : TxRef)
    (signers : list Keypair) (options : Options) (s : St R) (t : Transaction) :
  nth_error (heap s) transaction = Some t ->
  let b := budget_instructions (or_default (o_computeUnits options) 200000)
                               (or_default (o_priorityFee options) 0) in
  let op := executeTransaction_operation transaction signers
              (or_default (o_computeUnits options) 200000)
              (or_default (o_priorityFee options) 0)
              (or_default (o_skipPreflight options) false)
              (or_default (o_maxRetries options) 3) in
  let out := executeTransaction transaction signers options s in
  let invoked := executeWithRetry_invocations op None s in
  let k := List.length (filter blockhash_answered invoked) in
  List.length invoked = n_invoked (snd (executeWithRetry_tr op None s)) /\
  exists (subs : list (list TransactionInstruction)) (t' : Transaction),
    nth_error (heap (snd out)) transaction = Some t' /\
    instructions t' = instructions t ++ List.concat (repeat b k) /\
    submitted (wire (snd out)) = submitted (wire s) ++ subs /\
    (List.length subs <= k)%nat /\
    Forall (fun l => exists i, (1 <= i <= k)%nat /\
                               l = instructions t ++ List.concat (repeat b i)) subs.
Proof.
  intros Ht b op out invoked k.
  split.
  { unfold invoked, executeWithRetry_invocations, executeWithRetry_tr.
    rewrite (retry_loop_invocations_count op _ _ None s).
    destruct (retry_loop_tr op _ _ None s) as [[x s'] tr]. reflexivity. }
  assert (Hout : snd out
                 = snd (retry_loop op (retryAttempts (mgr s))
                          (attempt_numbers (retryAttempts (mgr s))) None s)).
  { unfold out. rewrite executeTransaction_unfold. cbv zeta. fold op.
    assert (Hs : snd (executeWithRetry op None s)
                 = snd (retry_loop op (retryAttempts (mgr s))
                          (attempt_numbers (retryAttempts (mgr s))) None s)).
    { unfold executeWithRetry. cbn [or_default].
      destruct (retry_loop op _ _ None s) as [x s']. reflexivity. }
    destruct (fst (executeWithRetry op None s)); cbn [snd]; exact Hs. }
  rewrite Hout.
  destruct (retry_loop_budget transaction signers
              (or_default (o_computeUnits options) 200000)
              (or_default (o_priorityFee options) 0)
              (or_default (o_skipPreflight options) false)
              (or_default (o_maxRetries options) 3)
              (retryAttempts (mgr s)) t (submitted (wire s))
              (attempt_numbers (retryAttempts (mgr s))) None s 0%nat [] t)
    as (subs & t' & H);
    [exact Ht | cbn; rewrite app_nil_r; reflexivity | rewrite app_nil_r; reflexivity
    | cbn; lia | constructor |].
  exists subs, t'. exact H.
Qed.

(** With the default budget every submission of a call is the
    instruction sequence the transaction holds. *)
Lemma executeTransaction_default_budget (transaction : TxRef)
    (signers : list Keypair) (options : Options) (s : St R) (t : Transaction) :
  nth_error (heap s) transaction = Some t ->
  or_default (o_computeUnits options) 200000 = 200000 ->
  or_default (o_priorityFee options) 0 = 0 ->
  let out := executeTransaction transaction signers options s in
  exists k, submitted (wire (snd out))
            = submitted (wire s) ++ repeat (instructions t) k /\
            (forall r, fst out = Returned r -> (1 <= k)%nat).
Proof.
  intros Ht Hcu Hpf out.
  set (J := fun s0 : St R =>
              (exists t0, nth_error (heap s0) transaction = Some t0 /\
                          instructions t0 = instructions t) /\
              exists k, submitted (wire s0)
                        = submitted (wire s) ++ repeat (instructions t) k).
  assert (HJ : J s).
  { split; [exists t; auto | exists 0%nat; cbn; rewrite app_nil_r; reflexivity]. }
  subst out. rewrite executeTransaction_unfold. cbv zeta. rewrite Hcu, Hpf.
  set (op := executeTransaction_operation transaction signers 200000 0
               (or_default (o_skipPreflight options) false)
               (or_default (o_maxRetries options) 3)).
  destruct (executeWithRetry_invariant op None J s) as [Hfin Hret]; auto.
  { intros c0 s0 Hs0.
    destruct (default_budget_attempt transaction signers 0
                (or_default (o_skipPreflight options) false)
                (or_default (o_maxRetries options) 3) c0 (instructions t)
                (submitted (wire s)) s0 ltac:(lia) Hs0) as [H1 (k & H2 & _)].
    split; [exact H1 | exists k; exact H2]. }
  { intros delay s0 [(t0 & Ht0 & Hl0) (k & Hk)].
    destruct (sleep_frame delay s0) as (_ & _ & _ & _ & _ & _ & Hh & Hw & _).
    split; [exists t0; rewrite Hh; auto | exists k; rewrite Hw; exact Hk]. }
  destruct (executeWithRetry op None s) as [[r|e] s'] eqn:E; cbn [fst snd] in *.
  - destruct (Hret r eq_refl) as (s0 & Hs0 & Hop).
    destruct (default_budget_attempt transaction signers 0
                (or_default (o_skipPreflight options) false)
                (or_default (o_maxRetries options) 3) (connection (mgr s0))
                (instructions t) (submitted (wire s)) s0 ltac:(lia) Hs0)
      as [_ (k & H2 & H3)].
    fold op in H2, H3. rewrite Hop in H2, H3. cbn [fst snd] in *.
    exists k. split; [exact H2|]. intros _ _. apply (H3 r). reflexivity.
  - destruct Hfin as [_ (k & H2)].
    exists k. split; [exact H2 | discriminate].
Qed.

Lemma nth_error_snoc {A} (l : list A) (a : A) :
  nth_error (l ++ [a]) (List.length l) = Some a.
Proof. rewrite nth_error_app2, Nat.sub_diag by lia. reflexivity. Qed.

(** What [sendTransaction] has built when it calls [executeTransaction]. *)
Lemma sendTransaction_built (senderAccount : Keypair) (receiverAccount : string)
    (amount : Z) (options : Options) (toPubkey : PublicKey) (s : St R) :
  0 < amount ->
  PublicKey_new receiverAccount = Returned toPubkey ->
  let built := mkTransaction
                 (transfer_instructions senderAccount toPubkey amount
                    (or_default (o_memo options) ""))
                 None None [] in
  let inner :=
    executeTransaction (List.length (heap s)) [senderAccount]
      (mkOptions None (Some (or_default (o_computeUnits options) 200000))
                 (Some (or_default (o_priorityFee options) 0))
                 (Some (or_default (o_skipPreflight options) false)) None)
      (set_heap (heap s ++ [built]) s) in
  sendTransaction senderAccount receiverAccount amount options s
  = match fst inner with
    | Returned r => (Returned r, snd inner)
    | Threw e =>
        (Threw (transaction_send_error senderAccount receiverAccount amount e),
         snd inner)
    end.
Proof.
  intros Ha Hpk built inner.
  unfold sendTransaction, try_catch.
  destruct (Z.leb_spec amount 0) as [Hle|_]; [lia|].
  unfold bind at 1. unfold Transaction_new at 1.
  assert (Hnew : nth_error (heap (set_heap (heap s ++ [mkTransaction [] None None []]) s))
                           (List.length (heap s))
                 = Some (mkTransaction [] None None [])).
  { rewrite heap_set_heap. apply nth_error_snoc. }
  assert (Hstate :
            forall (k : M R TxResult),
              (when (negb (String.eqb (or_default (o_memo options) "") ""))
                    (Transaction_add (List.length (heap s))
                       (memoInstruction (or_default (o_memo options) ""))) ;;
               toPubkey0 <- lift (PublicKey_new receiverAccount) ;;
               Transaction_add (List.length (heap s))
                 (SystemProgram_transfer (publicKey senderAccount) toPubkey0 amount) ;;
               k)%js (set_heap (heap s ++ [mkTransaction [] None None []]) s)
              = k (set_heap (heap s ++ [built]) s)).
  { intros k. unfold built, transfer_instructions, when, Transaction_add.
    destruct (negb (String.eqb (or_default (o_memo options) "") "")).
    - unfold bind at 1. rewrite (tx_modify_some _ _ _ _ Hnew).
      unfold bind at 1. unfold lift at 1. rewrite Hpk.
      unfold bind at 1.
      erewrite tx_modify_some
        by (rewrite heap_set_heap; eapply nth_error_replace_nth; exact Hnew).
      rewrite !heap_set_heap, replace_nth_twice.
      cbn [instructions set_instructions app].
      f_equal. destruct s as [m l h w e]. unfold set_heap. cbn. f_equal.
      clear. induction h as [|x h IH]; cbn; [reflexivity|]. f_equal. exact IH.
    - unfold bind at 1. unfold ret at 1.
      unfold bind at 1. unfold lift at 1. rewrite Hpk.
      unfold bind at 1. rewrite (tx_modify_some _ _ _ _ Hnew).
      rewrite !heap_set_heap.
      cbn [instructions set_instructions app].
      f_equal. destruct s as [m l h w e]. unfold set_heap. cbn. f_equal.
      clear. induction h as [|x h IH]; cbn; [reflexivity|]. f_equal. exact IH. }
  rewrite Hstate. fold inner.
  destruct inner as [[r|e] s']; reflexivity.
Qed.

(** X8.  With the default budget ([computeUnits] 200000, no priority
    fee), a positive amount and a receiver the key parser accepts, every
    submission of [sendTransaction], retries included, is exactly the memo
    (when one is given) followed by the transfer; a call that returns has
    submitted at least once, and every failure is a
    [TRANSACTION_SEND_ERROR]. *)
Theorem sendTransaction_submits_transfer (senderAccount : Keypair)
    (receiverAccount : string) (amount : Z) (options : Options)
    (toPubkey : PublicKey) (s : St R) :
  0 < amount ->
  PublicKey_new receiverAccount = Returned toPubkey ->
  or_default (o_computeUnits options) 200000 = 200000 ->
  or_default (o_priorityFee options) 0 = 0 ->
  let out := sendTransaction senderAccount receiverAccount amount options s in
  (exists k,
     submitted (wire (snd out))
     = submitted (wire s)
       ++ repeat (transfer_instructions senderAccount toPubkey amount
                    (or_default (o_memo options) "")) k /\
     (forall r, fst out = Returned r -> (1 <= k)%nat)) /\
  (forall e, fst out = Threw e -> exn_code e = Some "TRANSACTION_SEND_ERROR").
Proof.
  intros Ha Hpk Hcu Hpf out. subst out.
  rewrite (sendTransaction_built _ _ _ _ _ _ Ha Hpk). cbv zeta.
  set (built := mkTransaction _ None None []).
  destruct (executeTransaction_default_budget (List.length (heap s)) [senderAccount]
              (mkOptions None (Some (or_default (o_computeUnits options) 200000))
                 (Some (or_default (o_priorityFee options) 0))
                 (Some (or_default (o_skipPreflight options) false)) None)
              (set_heap (heap s ++ [built]) s) built) as (k & Hk & Hpos).
  { rewrite heap_set_heap. apply nth_error_snoc. }
  { exact Hcu. }
  { exact Hpf. }
  rewrite wire_set_heap in Hk. cbn [instructions built] in Hk.
  destruct (executeTransaction _ _ _ _) as [[r|e] s']; cbn [fst snd] in *.
  - split; [|discriminate]. exists k. split; [exact Hk|].
    intros r0 _. apply (Hpos r). reflexivity.
  - split.
    + exists k. split; [exact Hk | discriminate].
    + intros e0 He0. injection He0 as <-. reflexivity.
Qed.

(** X9.  A receiver the key parser rejects stops [sendTransaction]
    before the retry executor: it throws [TRANSACTION_SEND_ERROR] with
    the parser's message, and the wire, the outside world, the manager
    and the timers are untouched. *)
Theorem sendTransaction_invalid_receiver (senderAccount : Keypair)
    (receiverAccount : string) (amount : Z) (options : Options) (e : Exn)
    (s : St R) :
  0 < amount ->
  PublicKey_new receiverAccount = Threw e ->
  let out := sendTransaction senderAccount receiverAccount amount options s in
  fst out
  = Threw (SolanaToolkitError ("Failed to send transaction: " +++ exn_message e)
             "TRANSACTION_SEND_ERROR"
             [("sender", JStr (toBase58 (publicKey senderAccount)));
              ("receiver", JStr receiverAccount);
              ("amount", JNum amount);
              ("error", JStr (exn_message e))]) /\
  wire (snd out) = wire s /\ env (snd out) = env s /\
  mgr (snd out) = mgr s /\ loop (snd out) = loop s.
Proof.
  intros Ha Hpk out.
  assert (Hout : exists h,
             out = (Threw (transaction_send_error senderAccount receiverAccount
                             amount e),
                    set_heap h s)).
  { subst out. unfold sendTransaction, try_catch.
    destruct (Z.leb_spec amount 0) as [Hle|_]; [lia|].
    unfold bind at 1. unfold Transaction_new at 1.
    assert (Hnew : nth_error
                     (heap (set_heap (heap s ++ [mkTransaction [] None None []]) s))
                     (List.length (heap s))
                   = Some (mkTransaction [] None None [])).
    { rewrite heap_set_heap. apply nth_error_snoc. }
    unfold when, Transaction_add.
    destruct (negb (String.eqb (or_default (o_memo options) "") "")).
    - unfold bind at 1. rewrite (tx_modify_some _ _ _ _ Hnew).
      unfold bind at 1. unfold lift at 1. rewrite Hpk.
      eexists. unfold throw, set_heap. cbn. reflexivity.
    - unfold bind at 1. unfold ret at 1.
      unfold bind at 1. unfold lift at 1. rewrite Hpk.
      eexists. unfold throw. reflexivity. }
  destruct Hout as (h & ->). cbn [fst snd]. unfold transaction_send_error.
  repeat split.
Qed.

(** X10.  [createTokenTransferTransaction] never reaches the retry
    executor.  Whatever its arguments, it throws [TOKEN_TRANSFER_ERROR]:
    for the receiver or the program id when the key parser rejects one,
    and otherwise for the reference to [Uint64Array]; the wire, the
    outside world, the manager and the timers are untouched. *)
Theorem createTokenTransferTransaction_always_throws (senderAccount : Keypair)
    (receiverPublicKey : string) (amount : Z) (tokenProgramId : string)
    (options : Options) (s : St R) :
  let out := createTokenTransferTransaction senderAccount receiverPublicKey amount
               tokenProgramId options s in
  (exists e0,
     fst out
     = Threw (SolanaToolkitError
                ("Failed to create token transfer transaction: " +++ exn_message e0)
                "TOKEN_TRANSFER_ERROR"
                [("sender", JStr (toBase58 (publicKey senderAccount)));
                 ("receiver", JStr receiverPublicKey);
                 ("amount", JNum amount);
                 ("error", JStr (exn_message e0))]) /\
     (forall receiver program,
        PublicKey_new receiverPublicKey = Returned receiver ->
        PublicKey_new tokenProgramId = Returned program ->
        e0 = JsError "ReferenceError" "Uint64Array is not defined")) /\
  wire (snd out) = wire s /\ env (snd out) = env s /\
  mgr (snd out) = mgr s /\ loop (snd out) = loop s.
Proof.
  intros out.
  assert (Hout : exists e0 h,
             out = (Threw (token_transfer_error senderAccount receiverPublicKey
                             amount e0),
                    set_heap h s) /\
             (forall receiver program,
                PublicKey_new receiverPublicKey = Returned receiver ->
                PublicKey_new tokenProgramId = Returned program ->
                e0 = JsError "ReferenceError" "Uint64Array is not defined")).
  { subst out. unfold createTokenTransferTransaction, try_catch.
    unfold bind at 1. unfold Transaction_new at 1.
    assert (Hnew : nth_error
                     (heap (set_heap (heap s ++ [mkTransaction [] None None []]) s))
                     (List.length (heap s))
                   = Some (mkTransaction [] None None [])).
    { rewrite heap_set_heap. apply nth_error_snoc. }
    assert (Hrest : forall s1 : St R,
               exists e0,
                 (receiver <- lift (PublicKey_new receiverPublicKey) ;;
                  program <- lift (PublicKey_new tokenProgramId) ;;
                  bytes <- lift (Uint64Array_bytes amount) ;;
                  Transaction_add (List.length (heap s))
                    (mkInstruction [mkMeta (publicKey senderAccount) true true;
                                    mkMeta receiver false true;
                                    mkMeta systemProgram false false]
                                   program (2 :: bytes)) ;;
                  executeTransaction (List.length (heap s)) [senderAccount]
                    (mkOptions None
                       (Some (or_default (o_computeUnits options) 200000))
                       (Some (or_default (o_priorityFee options) 0)) None None))%js
                   s1
                 = (Threw e0, s1) /\
                 (forall receiver program,
                    PublicKey_new receiverPublicKey = Returned receiver ->
                    PublicKey_new tokenProgramId = Returned program ->
                    e0 = JsError "ReferenceError" "Uint64Array is not defined")).
    { intros s1. unfold bind, lift, Uint64Array_bytes.
      destruct (PublicKey_new receiverPublicKey) as [receiver|e1].
      - destruct (PublicKey_new tokenProgramId) as [program|e2].
        + eexists. split; [reflexivity|]. intros; reflexivity.
        + eexists. split; [reflexivity|]. intros ? ? _ H; discriminate H.
      - eexists. split; [reflexivity|]. intros ? ? H; discriminate H. }
    unfold when.
    destruct (negb (String.eqb (or_default (o_memo options) "") "")).
    - unfold bind at 1. unfold Transaction_add at 1.
      rewrite (tx_modify_some _ _ _ _ Hnew). cbv beta iota.
      match goal with
      | |- context [ (_ <- lift (PublicKey_new receiverPublicKey) ;; _)%js ?s1 ] =>
          destruct (Hrest s1) as (e0 & -> & He0)
      end.
      exists e0. eexists. split; [|exact He0].
      unfold throw, set_heap. cbn. reflexivity.
    - unfold bind at 1. unfold ret at 1. cbv beta iota.
      match goal with
      | |- context [ (_ <- lift (PublicKey_new receiverPublicKey) ;; _)%js ?s1 ] =>
          destruct (Hrest s1) as (e0 & -> & He0)
      end.
      exists e0. eexists. split; [|exact He0].
      unfold throw. reflexivity. }
  destruct Hout as (e0 & h & -> & He0). cbn [fst snd].
  unfold token_transfer_error.
  split; [exists e0; split; [reflexivity | exact He0]|].
  repeat split.
Qed.

Lemma map_instructions_replace_nth (n : nat) (t t' : Transaction)
    (h : list Transaction) :
  nth_error h n = Some t ->
  instructions t' = instructions t ->
  map instructions (replace_nth n t' h) = map instructions h.
Proof.
  revert n. induction h as [|x h IH]; intros [|n] Hn Hi; cbn in *; try discriminate.
  - injection Hn as ->. rewrite Hi. reflexivity.
  - rewrite (IH n Hn Hi). reflexivity.
Qed.

(** One attempt with the default budget, on any reference: no
    transaction of the heap changes its instructions, and what is
    submitted, if anything, is what the referenced transaction holds. *)
Lemma default_budget_attempt_heap (transaction : TxRef) (signers : list Keypair)
    (skipPreflight : bool) (maxRetries : Z) (c : Connection) (s : St R) :
  let out := executeTransaction_operation transaction signers 200000 0
               skipPreflight maxRetries c s in
  map instructions (heap (snd out)) = map instructions (heap s) /\
  exists subs,
    submitted (wire (snd out)) = submitted (wire s) ++ subs /\
    Forall (fun l => nth_error (map instructions (heap s)) transaction = Some l) subs.
Proof.
  intros out. subst out.
  pose proof (rpc_effect (CallGetLatestBlockhash c) (rpc_getLatestBlockhash c) s)
    as [Hh1 Hw1].
  destruct (nth_error (heap s) transaction) as [t|] eqn:Ht.
  - rewrite (executeTransaction_operation_unfold _ _ _ _ _ _ _ _ _ Ht). cbv zeta.
    change (budget_instructions 200000 0) with (@nil TransactionInstruction).
    rewrite app_nil_r.
    destruct (rpc (CallGetLatestBlockhash c) (rpc_getLatestBlockhash c) s)
      as [[bh|e] s1]; cbn [fst snd] in *.
    2:{ rewrite Hh1, Hw1, submitted_app. split; [reflexivity|].
        exists []. split; [reflexivity | constructor]. }
    set (t1 := set_instructions (instructions t) (set_blockhash bh t)).
    assert (Hmap : forall t', instructions t' = instructions t ->
               map instructions (replace_nth transaction t' (heap s))
               = map instructions (heap s)).
    { intros t' Ht'. eapply map_instructions_replace_nth; eauto. }
    destruct (Transaction_sign t1 signers) as [sigs|e].
    2:{ cbn [fst snd]. rewrite heap_set_heap, wire_set_heap, Hw1, submitted_app.
        split; [apply Hmap; reflexivity|].
        exists []. split; [reflexivity | constructor]. }
    set (t2 := set_signatures sigs t1).
    set (opts := mkSendOptions skipPreflight maxRetries "confirmed").
    set (s2 := set_heap (replace_nth transaction t2 (heap s)) s1).
    pose proof (rpc_effect (CallSendTransaction c t2 opts)
                  (rpc_sendTransaction c t2 opts) s2) as [Hh3 Hw3].
    assert (Hfinal : forall s' : St R, heap s' = heap s2 ->
              submitted (wire s') = submitted (wire s2) ++ [instructions t] ->
              map instructions (heap s') = map instructions (heap s) /\
              exists subs,
                submitted (wire s') = submitted (wire s) ++ subs /\
                Forall (fun l => nth_error (map instructions (heap s)) transaction
                                 = Some l) subs).
    { intros s' Hh Hw. rewrite Hh, Hw. subst s2.
      rewrite heap_set_heap, wire_set_heap, Hw1, submitted_app.
      split; [apply Hmap; reflexivity|].
      exists [instructions t]. cbn [submitted flat_map app].
      split; [rewrite app_nil_r; reflexivity|].
      constructor; [|constructor]. rewrite nth_error_map, Ht. reflexivity. }
    assert (H3 : submitted (wire (snd (rpc (CallSendTransaction c t2 opts)
                                           (rpc_sendTransaction c t2 opts) s2)))
                 = submitted (wire s2) ++ [instructions t]).
    { rewrite Hw3, submitted_app. reflexivity. }
    destruct (rpc (CallSendTransaction c t2 opts) (rpc_sendTransaction c t2 opts) s2)
      as [[signature|e] s3]; cbn [fst snd] in *; [|apply Hfinal; assumption].
    match goal with |- context [rpc ?call ?aw s3] =>
      pose proof (rpc_effect call aw s3) as [Hh4 Hw4];
      destruct (rpc call aw s3) as [[confirmation|e] s4]
    end; cbn [fst snd] in *.
    + assert (H4 : submitted (wire s4) = submitted (wire s2) ++ [instructions t]).
      { rewrite Hw4, submitted_app, H3. cbn. apply app_nil_r. }
      destruct (conf_err confirmation); cbn [snd]; apply Hfinal; congruence.
    + apply Hfinal; [congruence|].
      rewrite Hw4, submitted_app, H3. cbn. apply app_nil_r.
  - assert (Hout : exists e,
               executeTransaction_operation transaction signers 200000 0
                 skipPreflight maxRetries c s
               = (Threw e,
                  snd (rpc (CallGetLatestBlockhash c) (rpc_getLatestBlockhash c) s))).
    { unfold executeTransaction_operation. unfold bind at 1.
      destruct (rpc (CallGetLatestBlockhash c) (rpc_getLatestBlockhash c) s)
        as [[bh|e] s1]; cbn [fst snd] in *.
      - unfold bind at 1. unfold tx_modify at 1. rewrite Hh1, Ht.
        eexists; reflexivity.
      - eexists; reflexivity. }
    destruct Hout as (e & ->). cbn [snd].
    rewrite Hh1, Hw1, submitted_app. split; [reflexivity|].
    exists []. split; [reflexivity | constructor].
Qed.

(** A whole [executeTransaction] call with the default budget. *)
Lemma executeTransaction_default_heap (transaction : TxRef)
    (signers : list Keypair) (options : Options) (s : St R) :
  or_default (o_computeUnits options) 200000 = 200000 ->
  or_default (o_priorityFee options) 0 = 0 ->
  let out := executeTransaction transaction signers options s in
  map instructions (heap (snd out)) = map instructions (heap s) /\
  exists subs,
    submitted (wire (snd out)) = submitted (wire s) ++ subs /\
    Forall (fun l => nth_error (map instructions (heap s)) transaction = Some l) subs.
Proof.
  intros Hcu Hpf out.
  set (J := fun s0 : St R =>
              map instructions (heap s0) = map instructions (heap s) /\
              exists subs,
                submitted (wire s0) = submitted (wire s) ++ subs /\
                Forall (fun l => nth_error (map instructions (heap s)) transaction
                                 = Some l) subs).
  assert (HJ : J s).
  { split; [reflexivity|]. exists []. rewrite app_nil_r. split; [reflexivity|constructor]. }
  subst out. rewrite executeTransaction_unfold. cbv zeta. rewrite Hcu, Hpf.
  set (op := executeTransaction_operation transaction signers 200000 0
               (or_default (o_skipPreflight options) false)
               (or_default (o_maxRetries options) 3)).
  destruct (executeWithRetry_invariant op None J s) as [Hfin _]; auto.
  - intros c s0 (Hm & subs & Hs0 & Hall).
    destruct (default_budget_attempt_heap transaction signers
                (or_default (o_skipPreflight options) false)
                (or_default (o_maxRetries options) 3) c s0)
      as (Hm1 & subs1 & Hs1 & Hall1).
    fold op in Hm1, Hs1. split; [congruence|].
    exists (subs ++ subs1). split; [rewrite Hs1, Hs0, app_assoc; reflexivity|].
    apply Forall_app. split; [exact Hall|].
    rewrite Hm in Hall1. exact Hall1.
  - intros delay s0 (Hm & subs & Hs0 & Hall).
    destruct (sleep_frame delay s0) as (_ & _ & _ & _ & _ & _ & Hh & Hw & _).
    split; [rewrite Hh; exact Hm|]. exists subs. rewrite Hw. auto.
  - destruct (fst (executeWithRetry op None s)); exact Hfin.
Qed.

Lemma batch_loop_instructions (transactions : list TxRef) (signers : list Keypair)
    (maxRetries : Z) :
  forall (i : Z) (results : list BatchEntry) (s : St R),
    let out := batch_loop transactions i signers maxRetries results s in
    map instructions (heap (snd out)) = map instructions (heap s) /\
    exists subs,
      submitted (wire (snd out)) = submitted (wire s) ++ subs /\
      Forall (fun l => exists r, In r transactions /\
                                 nth_error (map instructions (heap s)) r = Some l)
             subs.
Proof.
  induction transactions as [|t rest IH]; intros i results s; cbn [batch_loop].
  - cbn. split; [reflexivity|]. exists []. rewrite app_nil_r.
    split; [reflexivity | constructor].
  - cbv zeta.
    destruct (executeTransaction_default_heap t signers
                (mkOptions None None None None (Some maxRetries)) s eq_refl eq_refl)
      as (Hm & subs & Hs & Hall).
    cbv zeta in Hm, Hs.
    destruct (executeTransaction t signers _ s) as [[result|error] s1];
      cbn [fst snd] in *.
    + destruct (IH (i + 1) (results ++ [mkEntry i true (Some result) None]) s1)
        as (Hm' & subs' & Hs' & Hall').
      cbv zeta in Hm', Hs'. split; [congruence|].
      exists (subs ++ subs'). split; [rewrite Hs', Hs, app_assoc; reflexivity|].
      apply Forall_app. split.
      * eapply Forall_impl; [|exact Hall]. intros l Hl. exists t. split; [left; reflexivity | exact Hl].
      * eapply Forall_impl; [|exact Hall']. intros l (r & Hr & Hl).
        exists r. split; [right; exact Hr | rewrite <- Hm; exact Hl].
    + destruct (IH (i + 1)
                  (results ++ [mkEntry i false None (Some (exn_message error))]) s1)
        as (Hm' & subs' & Hs' & Hall').
      cbv zeta in Hm', Hs'. split; [congruence|].
      exists (subs ++ subs'). split; [rewrite Hs', Hs, app_assoc; reflexivity|].
      apply Forall_app. split.
      * eapply Forall_impl; [|exact Hall]. intros l Hl. exists t. split; [left; reflexivity | exact Hl].
      * eapply Forall_impl; [|exact Hall']. intros l (r & Hr & Hl).
        exists r. split; [right; exact Hr | rewrite <- Hm; exact Hl].
Qed.

(** X11.  [batchTransactions] passes only [maxRetries] on, so the
    [computeUnits] and [priorityFee] of its options are dropped: whatever
    the options and the references, no transaction of the heap changes its
    instructions, and every submission of the batch is the instruction
    sequence of one of the listed transactions, as it was held before the
    call (a reference to nothing submits nothing). *)
Theorem batchTransactions_keeps_instructions (transactions : list TxRef)
    (signers : list Keypair) (options : Options) (s : St R) :
  let out := batchTransactions transactions signers options s in
  map instructions (heap (snd out)) = map instructions (heap s) /\
  exists subs,
    submitted (wire (snd out)) = submitted (wire s) ++ subs /\
    Forall (fun l => exists r, In r transactions /\
                               nth_error (map instructions (heap s)) r = Some l)
           subs.
Proof.
  intros out.
  pose proof (batch_loop_instructions transactions signers
                (or_default (o_maxRetries options) 3) 0 [] s) as H.
  cbv zeta in H.
  assert (Hout : snd out
                 = snd (batch_loop transactions 0 signers
                          (or_default (o_maxRetries options) 3) [] s)).
  { unfold out, batchTransactions, try_catch.
    destruct (batch_loop transactions 0 signers _ [] s) as [results s']. reflexivity. }
  rewrite Hout. exact H.
Qed.

End TransactionExtras.

(** ** Account queries *)

Section AccountExtras.

Context {R : Type} {RT : Runtime R}.

(** X12.  A key that [validatePublicKey] rejects never reaches the
    retry executor: [getAccountInfo] throws at once, the state is exactly
    what it was, and the error is the parser's own when that is a toolkit
    error and otherwise an [ACCOUNT_INFO_ERROR] carrying the parser's
    message and the key. *)
Theorem getAccountInfo_invalid_key (publicKey0 : string) (s : St R) :
  validatePublicKey publicKey0 = false ->
  exists e,
    PublicKey_new publicKey0 = Threw e /\
    getAccountInfo publicKey0 s
    = (Threw (if instanceof_SolanaToolkitError e then e
              else SolanaToolkitError
                     ("Failed to get account info: " +++ exn_message e)
                     "ACCOUNT_INFO_ERROR"
                     [("publicKey", JStr publicKey0);
                      ("error", JStr (exn_message e))]),
       s).
Proof.
  unfold validatePublicKey. intros Hv.
  destruct (PublicKey_new publicKey0) as [k|e] eqn:Hpk; [discriminate|].
  exists e. split; [reflexivity|].
  unfold getAccountInfo, try_catch, bind, lift. rewrite Hpk.
  destruct (instanceof_SolanaToolkitError e); reflexivity.
Qed.

(** X13.  The error codes of [getAccountInfo] for a key the parser
    accepts.  With [retryAttempts >= 1] every failure, an absent account
    included, surfaces as [OPERATION_FAILED]; with [retryAttempts <= 0] the
    call always fails, with [ACCOUNT_INFO_ERROR], and queries nothing.  No
    failure carries the code [ACCOUNT_NOT_FOUND]. *)
Theorem getAccountInfo_error_codes (publicKey0 : string) (pubKey : PublicKey)
    (s : St R) :
  PublicKey_new publicKey0 = Returned pubKey ->
  let out := getAccountInfo publicKey0 s in
  (1 <= retryAttempts (mgr s) ->
   forall e, fst out = Threw e -> exn_code e = Some "OPERATION_FAILED") /\
  (retryAttempts (mgr s) <= 0 ->
   snd out = s /\
   exists e, fst out = Threw e /\ exn_code e = Some "ACCOUNT_INFO_ERROR") /\
  (forall e, fst out = Threw e -> exn_code e <> Some "ACCOUNT_NOT_FOUND").
Proof.
  intros Hpk out.
  assert (Hout : out
                 = let inner := executeWithRetry (getAccountInfo_operation pubKey)
                                  (Some (retryAttempts (mgr s))) s in
                   match fst inner with
                   | Returned v => (Returned v, snd inner)
                   | Threw error =>
                       (Threw (if instanceof_SolanaToolkitError error then error
                               else SolanaToolkitError
                                      ("Failed to get account info: "
                                         +++ exn_message error)
                                      "ACCOUNT_INFO_ERROR"
                                      [("publicKey", JStr publicKey0);
                                       ("error", JStr (exn_message error))]),
                        snd inner)
                   end).
  { unfold out, getAccountInfo, try_catch, bind, lift. rewrite Hpk. cbv zeta.
    change (executeWithRetry (getAccountInfo_operation pubKey) None s)
      with (executeWithRetry (getAccountInfo_operation pubKey)
              (Some (retryAttempts (mgr s))) s).
    destruct (executeWithRetry _ _ s) as [[v|error] s']; cbn [fst snd];
      [reflexivity|].
    destruct (instanceof_SolanaToolkitError error); reflexivity. }
  cbv zeta in Hout.
  assert (Hge : 1 <= retryAttempts (mgr s) ->
                forall e, fst out = Threw e -> exn_code e = Some "OPERATION_FAILED").
  { intros Hn e He. rewrite Hout in He.
    destruct (fst (executeWithRetry (getAccountInfo_operation pubKey)
                     (Some (retryAttempts (mgr s))) s)) as [v|error] eqn:E;
      [discriminate|].
    destruct (executeWithRetry_throws _ _ _ _ Hn E) as (lastError & ->).
    cbn in He. injection He as <-. reflexivity. }
  assert (Hle : retryAttempts (mgr s) <= 0 ->
                snd out = s /\
                exists e, fst out = Threw e /\ exn_code e = Some "ACCOUNT_INFO_ERROR").
  { intros Hn. rewrite Hout.
    unfold executeWithRetry, attempt_numbers. cbn [or_default].
    replace (Z.to_nat (retryAttempts (mgr s))) with 0%nat by lia. cbn.
    split; [reflexivity|]. eexists. split; reflexivity. }
  split; [exact Hge|]. split; [exact Hle|].
  intros e He.
  destruct (Z_le_gt_dec 1 (retryAttempts (mgr s))) as [Hn|Hn].
  - rewrite (Hge Hn e He). discriminate.
  - destruct Hle as (_ & e' & He' & Hc); [lia|].
    rewrite He in He'. injection He' as <-. rewrite Hc. discriminate.
Qed.

End AccountExtras.

(** ** Configuration and the facade *)

Section FacadeExtras.

Context {R : Type} {RT : Runtime R}.

(** X14.  The facade's [switchNetwork] does not keep the commitment.
    Called without one it sets ["confirmed"], whatever the manager had,
    whether the switch succeeds or throws; the manager's own
    [switchNetwork] called without one keeps the current commitment.
    Both set the endpoint. *)
Theorem SolanaToolkit_switchNetwork_default_commitment (endpoint0 : string)
    (s : St R) :
  let facade := SolanaToolkit_switchNetwork endpoint0 None s in
  let manager := switchNetwork endpoint0 None s in
  commitment (mgr (snd facade)) = "confirmed" /\
  commitment (mgr (snd manager)) = commitment (mgr s) /\
  endpoint (mgr (snd facade)) = endpoint0 /\
  endpoint (mgr (snd manager)) = endpoint0.
Proof.
  unfold SolanaToolkit_switchNetwork, switchNetwork, initializeConnection.
  cbn [or_default mgr set_mgr endpoint commitment set_commitment set_endpoint].
  destruct (Connection_throws endpoint0 "confirmed");
    destruct (Connection_throws endpoint0 (commitment (mgr s)));
    cbn; repeat split.
Qed.

(** X15.  An invalid commitment aborts [setConfig] before anything is
    changed: it throws [INVALID_COMMITMENT] naming the three valid values,
    and configuration, logger and connection manager are what they were,
    whatever other options were given with it. *)
Theorem setConfig_invalid_commitment (options : ConfigOptions) (tk : Toolkit R)
    (c : string) :
  co_commitment options = Some c ->
  c <> "" -> c <> "processed" -> c <> "confirmed" -> c <> "finalized" ->
  setConfig options tk
  = (ConfigThrew ("Invalid commitment: " +++ c) "INVALID_COMMITMENT"
                 [("validCommitments", ["processed"; "confirmed"; "finalized"])],
     tk).
Proof.
  intros Hc H0 H1 H2 H3. unfold setConfig. rewrite Hc.
  destruct (String.eqb_spec c "") as [E|_]; [contradiction|].
  unfold setCommitment, includes, validCommitments. cbn [existsb].
  destruct (String.eqb_spec c "processed") as [E|_]; [contradiction|].
  destruct (String.eqb_spec c "confirmed") as [E|_]; [contradiction|].
  destruct (String.eqb_spec c "finalized") as [E|_]; [contradiction|].
  cbn. destruct tk; reflexivity.
Qed.

(** X16.  What [getConfig] reports after a [setConfig] that gives every
    option with a valid commitment: the options given, except that a
    [retryDelay] of zero, like an absent one, is replaced by 1000; the
    networks are untouched, the logger follows [enableLogging], and the
    connection manager, whose retry settings the executor reads, is not
    touched. *)
Theorem setConfig_getConfig (options : ConfigOptions) (tk : Toolkit R)
    (c : string) (n t : Z) (b : bool) :
  co_commitment options = Some c ->
  c = "processed" \/ c = "confirmed" \/ c = "finalized" ->
  co_maxRetries options = Some n ->
  co_timeout options = Some t ->
  co_enableLogging options = Some b ->
  let out := setConfig options tk in
  fst out = ConfigReturned tt /\
  getConfig (config (snd out))
  = (networks (config tk), c, n,
     match co_retryDelay options with
     | Some 0 | None => 1000
     | Some d => d
     end,
     t, b) /\
  logger_enabled (snd out) = b /\
  tk_state (snd out) = tk_state tk.
Proof.
  intros Hc Hvalid Hn Ht Hb out. subst out.
  unfold setConfig. rewrite Hc, Hn, Ht, Hb.
  assert (Hd : number_or (co_retryDelay options) 1000
               = match co_retryDelay options with
                 | Some 0 | None => 1000
                 | Some d => d
                 end).
  { unfold number_or. destruct (co_retryDelay options) as [[|p|p]|]; reflexivity. }
  rewrite Hd.
  destruct Hvalid as [->|[->| ->]]; cbn; repeat split.
Qed.

(** X17.  [retryDelay] alone is ignored, and a commitment given as the
    empty string is not validated: with no [maxRetries] among the options,
    the retry settings of the configuration stay as they were, and with
    the commitment [""] the call returns and keeps the commitment. *)
Theorem setConfig_ignored_options (options : ConfigOptions) (tk : Toolkit R) :
  (co_maxRetries options = None ->
   cfg_retryDelay (config (snd (setConfig options tk))) = cfg_retryDelay (config tk) /\
   cfg_maxRetries (config (snd (setConfig options tk))) = cfg_maxRetries (config tk)) /\
  (co_commitment options = Some "" ->
   fst (setConfig options tk) = ConfigReturned tt /\
   defaultCommitment (config (snd (setConfig options tk)))
   = defaultCommitment (config tk)).
Proof.
  split.
  - intros Hn. unfold setConfig. rewrite Hn.
    destruct (co_commitment options) as [c|].
    + destruct (String.eqb c "").
      * destruct (co_timeout options), (co_enableLogging options); cbn; split; reflexivity.
      * unfold setCommitment. destruct (negb (includes validCommitments c)).
        -- cbn. split; reflexivity.
        -- destruct (co_timeout options), (co_enableLogging options); cbn; split; reflexivity.
    + destruct (co_timeout options), (co_enableLogging options); cbn; split; reflexivity.
  - intros Hc. unfold setConfig. rewrite Hc. cbn [String.eqb].
    destruct (co_maxRetries options), (co_timeout options), (co_enableLogging options);
      cbn; split; reflexivity.
Qed.

(** X18.  The configuration does not reach the retry executor.  On a
    toolkit just constructed, whatever [setConfig] is given, a call of
    [executeWithRetry] without an attempt count still makes its decisions
    with 3 attempts and a base delay of 1000: it is the call with the
    count 3 on the state the constructor left. *)
Theorem setConfig_keeps_retries {V} (clusterApiUrl : string -> string)
    (endpoint0 : string) (enableLogging0 : option bool)
    (commitment0 : option string) (now : Z) (r : R) (tk : Toolkit R)
    (options : ConfigOptions) (operation : Connection -> M R V) :
  SolanaToolkit_new clusterApiUrl endpoint0 enableLogging0 commitment0 now r
  = Returned tk ->
  let tk' := snd (setConfig options tk) in
  executeWithRetry operation None (tk_state tk')
  = executeWithRetry operation (Some 3) (tk_state tk) /\
  retryDelay (mgr (tk_state tk')) = 1000 /\
  cfg_maxRetries (config tk) = 3 /\ cfg_retryDelay (config tk) = 1000.
Proof.
  intros Hnew tk'.
  assert (Hstate : tk_state tk' = tk_state tk).
  { unfold tk', setConfig.
    destruct (co_commitment options) as [c|].
    - destruct (String.eqb c "").
      + destruct (co_maxRetries options), (co_timeout options),
          (co_enableLogging options); reflexivity.
      + unfold setCommitment. destruct (negb (includes validCommitments c)).
        * reflexivity.
        * destruct (co_maxRetries options), (co_timeout options),
            (co_enableLogging options); reflexivity.
    - destruct (co_maxRetries options), (co_timeout options),
        (co_enableLogging options); reflexivity. }
  rewrite Hstate.
  unfold SolanaToolkit_new, ConnectionManager_new, initializeConnection in Hnew.
  cbn [mgr endpoint commitment or_default] in Hnew.
  destruct (Connection_throws endpoint0 (string_or commitment0 "confirmed"));
    [discriminate|].
  cbn in Hnew. injection Hnew as <-. cbn. repeat split.
Qed.

End FacadeExtras.

(** ** Scenarios for the further properties *)

(** A switch to an endpoint that is no URL. *)
Lemma switchNetwork_failure_half_switch_witness :
  let out := switchNetwork "ftp://nowhere" (Some "finalized") (world true [] quiet) in
  getHealthStatus (snd out) = (true, 0, "ftp://nowhere", "finalized") /\
  connection (mgr (snd out)) = mkConnection devnet "confirmed" /\
  loop (snd out) = mkLoop [30000] [].
Proof.
  intros out.
  destruct (switchNetwork_failure_half_switch "ftp://nowhere" (Some "finalized")
              (world true [] quiet)
              (JsError "TypeError" "Endpoint URL must start with `http:` or `https:`."))
    as (_ & H1 & H2 & H3 & _).
  - reflexivity.
  - split; [exact H1|]. split; [exact H2 | exact H3].
Defined.

(** A probe started at 100 that answers at 5100: exactly 5000, unhealthy. *)
Lemma settled_probe_decides_witness :
  let s := world true [] quiet in
  isHealthy (mgr (run_bg ([Tick 0 100] ++ [Settle 0 (SlotOk 5100 5101)]) s)) = false /\
  lastHealthCheck (mgr (run_bg ([Tick 0 100] ++ [Settle 0 (SlotOk 5100 5101)]) s))
  = 5101.
Proof.
  intros s.
  destruct (settled_probe_decides [Tick 0 100] 0 (SlotOk 5100 5101) s
              (mkProbe 100 (mkConnection devnet "confirmed")))
    as (H1 & _ & _ & H2 & _).
  - reflexivity.
  - split; [exact H1 | exact H2].
Defined.

(** [maxRetries = 0]. *)
Lemma executeWithRetry_no_attempts_witness :
  snd (executeWithRetry always_failing (Some 0) (world true [] quiet))
  = world true [] quiet /\
  snd (executeWithRetry_tr always_failing (Some 0) (world true [] quiet)) = [].
Proof.
  destruct (executeWithRetry_no_attempts always_failing 0 (world true [] quiet))
    as (H1 & H2 & _).
  - lia.
  - split; [exact H2 | exact H1].
Defined.


(** A transaction that goes through at once, with five attempts allowed. *)
Lemma executeWithRetry_first_success_witness :
  let s := world true [mkTransaction [ixA] None None []] smooth in
  let op := executeTransaction_operation 0%nat [payer] 200000 0 false 3 in
  executeWithRetry op (Some 5) s = op (connection (mgr s)) s /\
  snd (executeWithRetry_tr op (Some 5) s)
  = [Invoked 1 (Returned (mkTxResult "sig-1" 7 confirmed_ok))].
Proof.
  intros s op.
  apply (executeWithRetry_first_success op 5 s (mkTxResult "sig-1" 7 confirmed_ok)).
  - lia.
  - reflexivity.
  - reflexivity.
Defined.

(** The scenario of the lost submission, with 300000 compute units: two
    attempts, both with a blockhash, so two copies. *)
Lemma executeTransaction_budget_accumulates_witness :
  let s := world true [mkTransaction [ixA] None None []] flaky in
  let out := executeTransaction 0%nat [payer]
               (mkOptions None (Some 300000) None None None) s in
  exists (subs : list (list TransactionInstruction)) (t' : Transaction),
    nth_error (heap (snd out)) 0 = Some t' /\
    instructions t'
    = [ixA; computeUnitInstruction 300000; computeUnitInstruction 300000] /\
    submitted (wire (snd out)) = subs /\
    (List.length subs <= 2)%nat.
Proof.
  intros s out.
  destruct (executeTransaction_budget_accumulates 0%nat [payer]
              (mkOptions None (Some 300000) None None None) s
              (mkTransaction [ixA] None None []) eq_refl)
    as (_ & subs & t' & H1 & H2 & H3 & H4 & _).
  exists subs, t'.
  split; [exact H1|]. split; [exact H2|]. split; [exact H3 | exact H4].
Defined.

(** A plain transfer of 5000 lamports. *)
Lemma sendTransaction_submits_transfer_witness :
  let out := sendTransaction payer "Dest2222" 5000 no_options (world true [] smooth) in
  exists k, submitted (wire (snd out)) = repeat [ixA] k /\ (1 <= k)%nat.
Proof.
  intros out.
  destruct (sendTransaction_submits_transfer payer "Dest2222" 5000 no_options
              (mkPublicKey "Dest2222") (world true [] smooth))
    as [(k & Hk & Hpos) _].
  - lia.
  - reflexivity.
  - reflexivity.
  - reflexivity.
  - exists k. split; [exact Hk|].
    apply (Hpos (mkTxResult "sig-1" 7 confirmed_ok)). reflexivity.
Defined.

(** A transfer to the empty string. *)
Lemma sendTransaction_invalid_receiver_witness :
  let out := sendTransaction payer "" 5000 no_options (world true [] smooth) in
  fst out
  = Threw (SolanaToolkitError
             "Failed to send transaction: Invalid public key input"
             "TRANSACTION_SEND_ERROR"
             [("sender", JStr "Payer1111"); ("receiver", JStr "");
              ("amount", JNum 5000); ("error", JStr "Invalid public key input")]) /\
  wire (snd out) = [].
Proof.
  intros out.
  destruct (sendTransaction_invalid_receiver payer "" 5000 no_options
              (JsError "Error" "Invalid public key input") (world true [] smooth))
    as (H1 & H2 & _).
  - lia.
  - reflexivity.
  - split; [exact H1 | exact H2].
Defined.

(** A token transfer with keys the parser accepts. *)
Lemma createTokenTransferTransaction_always_throws_witness :
  exists e0,
    fst (createTokenTransferTransaction payer "Dest2222" 5 "Tokenkeg" no_options
           (world true [] smooth))
    = Threw (token_transfer_error payer "Dest2222" 5 e0) /\
    e0 = JsError "ReferenceError" "Uint64Array is not defined".
Proof.
  destruct (createTokenTransferTransaction_always_throws payer "Dest2222" 5
              "Tokenkeg" no_options (world true [] smooth))
    as [(e0 & H1 & H2) _].
  exists e0. split; [exact H1|].
  apply (H2 (mkPublicKey "Dest2222") (mkPublicKey "Tokenkeg")); reflexivity.
Defined.

(** The empty string as a key. *)
Lemma getAccountInfo_invalid_key_witness :
  getAccountInfo "" (world true [] absent)
  = (Threw (SolanaToolkitError
              "Failed to get account info: Invalid public key input"
              "ACCOUNT_INFO_ERROR"
              [("publicKey", JStr ""); ("error", JStr "Invalid public key input")]),
     world true [] absent).
Proof.
  destruct (getAccountInfo_invalid_key "" (world true [] absent)) as (e & He & Hout).
  - reflexivity.
  - vm_compute in He. injection He as <-. exact Hout.
Defined.

(** An absent account, with the three attempts of a fresh manager. *)
Lemma getAccountInfo_error_codes_witness :
  let out := getAccountInfo "Dest2222" (world true [] absent) in
  fst out = Threw (operation_failed 3 (account_not_found (mkPublicKey "Dest2222"))) /\
  exn_code (operation_failed 3 (account_not_found (mkPublicKey "Dest2222")))
  = Some "OPERATION_FAILED".
Proof.
  intros out. split; [reflexivity|].
  destruct (getAccountInfo_error_codes "Dest2222" (mkPublicKey "Dest2222")
              (world true [] absent)) as (H1 & _).
  - reflexivity.
  - apply H1; [vm_compute; discriminate | reflexivity].
Defined.

(** A commitment of the old API, given with a retry count. *)
Lemma setConfig_invalid_commitment_witness :
  setConfig (mkConfigOptions (Some "recent") (Some 7) None None (Some true))
            fresh_toolkit
  = (ConfigThrew "Invalid commitment: recent" "INVALID_COMMITMENT"
                 [("validCommitments", ["processed"; "confirmed"; "finalized"])],
     fresh_toolkit).
Proof.
  apply (setConfig_invalid_commitment
           (mkConfigOptions (Some "recent") (Some 7) None None (Some true))
           fresh_toolkit "recent"); [reflexivity | discriminate ..].
Defined.

(** Every option given, with a [retryDelay] of zero. *)
Lemma setConfig_getConfig_witness :
  let out := setConfig (mkConfigOptions (Some "finalized") (Some 5) (Some 0)
                                        (Some 9000) (Some true))
                       fresh_toolkit in
  getConfig (config (snd out))
  = (networks (config fresh_toolkit), "finalized", 5, 1000, 9000, true) /\
  logger_enabled (snd out) = true.
Proof.
  intros out.
  destruct (setConfig_getConfig
              (mkConfigOptions (Some "finalized") (Some 5) (Some 0) (Some 9000)
                               (Some true))
              fresh_toolkit "finalized" 5 9000 true)
    as (_ & H1 & H2 & _).
  - reflexivity.
  - right. right. reflexivity.
  - reflexivity.
  - reflexivity.
  - reflexivity.
  - split; [exact H1 | exact H2].
Defined.

(** A [retryDelay] given alone, with an empty commitment. *)
Lemma setConfig_ignored_options_witness :
  let out := setConfig (mkConfigOptions (Some "") None (Some 250) None None)
                       fresh_toolkit in
  cfg_retryDelay (config (snd out)) = 1000 /\
  fst out = ConfigReturned tt /\
  defaultCommitment (config (snd out)) = "confirmed".
Proof.
  intros out.
  destruct (setConfig_ignored_options
              (mkConfigOptions (Some "") None (Some 250) None None) fresh_toolkit)
    as (H1 & H2).
  destruct (H1 eq_refl) as (Hd & _). destruct (H2 eq_refl) as (Hr & Hc).
  split; [exact Hd|]. split; [exact Hr | exact Hc].
Defined.

(** Seven retries configured on a fresh toolkit: still three attempts. *)
Lemma setConfig_keeps_retries_witness :
  let tk' := snd (setConfig (mkConfigOptions None (Some 7) (Some 50) None None)
                            fresh_toolkit) in
  cfg_maxRetries (config tk') = 7 /\
  executeWithRetry always_failing None (tk_state tk')
  = executeWithRetry always_failing (Some 3) (world true [] quiet) /\
  n_invoked (snd (executeWithRetry_tr always_failing None (tk_state tk'))) = 3%nat.
Proof.
  intros tk'.
  destruct (setConfig_keeps_retries
              (fun cluster => "https://api." +++ cluster +++ ".solana.com")
              devnet None None 0 quiet fresh_toolkit
              (mkConfigOptions None (Some 7) (Some 50) None None) always_failing)
    as (H1 & _).
  - reflexivity.
  - split; [reflexivity|]. split; [exact H1 | reflexivity].
Defined.
